(** * Syrup: the unified trade orchestration layer

    A shallow embedding of the Python backend of Syrup:

    - [models/trade.py]: the domain model ([Platform], [TradeType],
      [TradeStatus], [TradeRequest], [TradeResult], [PlatformCredentials],
      [AgentConfig]);
    - [platforms/base.py] and the three adapters
      ([solana_adapter.py], [polymarket_adapter.py], [kalshi_adapter.py]);
    - [routers/trade_router.py]: the [TradeRouter];
    - [agents/base.py], [agents/anthropic_agent.py] and
      [agents/openai_agent.py]: the decision parsers, and the factory of
      [agents/__init__.py];
    - [api/main.py]: the endpoints over the router and the agents.

    Python objects are records, exceptions are values of a result type, and
    every method is a function in a state-and-exception monad whose state is
    the receiver together with the outside world (the network and the clock).
    An [await] is run to completion where it stands: one call at a time.
    What the backend leaves to its libraries (the venues, the model
    provider, [json.loads], pydantic's conversions, the interpreter's text
    conversions) is a class whose instance every statement quantifies over.

    The definitions come first, module by module in the order of the
    imports; the facts about them follow, and the file ends with runs of
    the model on concrete inputs. *)

From Stdlib Require Import String Ascii List ZArith Bool Lia DecimalString.
From Stdlib Require Import Floats.SpecFloat.
Import ListNotations.

Set Warnings "-register-all".

Local Open Scope string_scope.
Local Open Scope Z_scope.

(* ================================================================== *)
(** * The Python runtime, as far as the backend uses it *)
(* ================================================================== *)

Module Py.

(** ** Exceptions *)

(** The exception classes the backend can meet.  All of them derive from
    [Exception]; [JSONDecodeError] and pydantic's [ValidationError] derive
    from [ValueError].  [TransportError] stands for whatever a network
    library raises (aiohttp, the Solana RPC client, the Anthropic client). *)
Inductive exn_class : Type :=
| Exception
| ValueError
| JSONDecodeError
| ValidationError
| KeyError
| AttributeError
| TypeError
| OverflowError
| ZeroDivisionError
| TransportError.

Definition exn_class_eqb (a b : exn_class) : bool :=
  match a, b with
  | Exception, Exception | ValueError, ValueError
  | JSONDecodeError, JSONDecodeError | ValidationError, ValidationError
  | KeyError, KeyError | AttributeError, AttributeError
  | TypeError, TypeError | OverflowError, OverflowError
  | ZeroDivisionError, ZeroDivisionError
  | TransportError, TransportError => true
  | _, _ => false
  end.

(** [issubclass c base] *)
Definition issubclass (c base : exn_class) : bool :=
  match base with
  | Exception => true
  | ValueError =>
      match c with
      | ValueError | JSONDecodeError | ValidationError => true
      | _ => false
      end
  | _ => exn_class_eqb c base
  end.

(** An exception object: its class and [str(e)]. *)
Record exn : Type := Exn { exn_cls : exn_class; exn_str : string }.

Inductive result (A : Type) : Type :=
| Ok (a : A)
| Raise (e : exn).
Arguments Ok {A} a.
Arguments Raise {A} e.

Definition is_ok {A} (r : result A) : bool :=
  match r with Ok _ => true | Raise _ => false end.

(** ** Computations: state of type [S], may raise *)

(** A raised exception keeps the state reached so far: what a method wrote
    to [self] or sent over the network before it failed stays done. *)
Definition M (S A : Type) : Type := S -> result A * S.

Definition ret {S A} (a : A) : M S A := fun s => (Ok a, s).

Definition raise {S A} (e : exn) : M S A := fun s => (Raise e, s).

Definition bind {S A B} (m : M S A) (k : A -> M S B) : M S B :=
  fun s =>
    match m s with
    | (Ok a, s') => k a s'
    | (Raise e, s') => (Raise e, s')
    end.

Definition get {S} : M S S := fun s => (Ok s, s).
Definition gets {S A} (f : S -> A) : M S A := fun s => (Ok (f s), s).
Definition modify {S} (f : S -> S) : M S unit := fun s => (Ok tt, f s).

(** [lift_result r]: a pure step that may raise. *)
Definition lift_result {S A} (r : result A) : M S A := fun s => (r, s).

(** [try: m  except Exception as e: h e] *)
Definition try_except {S A} (m : M S A) (h : exn -> M S A) : M S A :=
  fun s =>
    match m s with
    | (Ok a, s') => (Ok a, s')
    | (Raise e, s') => h e s'
    end.

(** [try: m  except cls: h e]: other classes pass through. *)
Definition try_except_cls {S A} (cls : exn_class) (m : M S A)
    (h : exn -> M S A) : M S A :=
  fun s =>
    match m s with
    | (Ok a, s') => (Ok a, s')
    | (Raise e, s') =>
        if issubclass (exn_cls e) cls then h e s' else (Raise e, s')
    end.

(** [m] leaves the state as it found it, whether it returns or raises. *)
Definition preserves {S A} (m : M S A) : Prop := forall s, snd (m s) = s.

(** [m] takes every state to one that is related to it by [R], whether
    it returns or raises. *)
Definition respects {S A} (R : S -> S -> Prop) (m : M S A) : Prop :=
  forall s, R s (snd (m s)).

(** Every value that [m] returns satisfies [Q]. *)
Definition yields {S A} (Q : A -> Prop) (m : M S A) : Prop :=
  forall s a s', m s = (Ok a, s') -> Q a.

(** [m] returns in every state. *)
Definition returns {S A} (m : M S A) : Prop :=
  forall s, exists a s', m s = (Ok a, s').

Module Notations.
Declare Scope py_scope.
Delimit Scope py_scope with py.
Notation "x <- m ;; k" := (bind m (fun x => k))
  (at level 61, m at next level, right associativity) : py_scope.
Notation "' pat <- m ;; k" := (bind m (fun x => match x with pat => k end))
  (at level 61, pat pattern, m at next level, right associativity) : py_scope.
Notation "m ;; k" := (bind m (fun _ => k))
  (at level 61, right associativity) : py_scope.
End Notations.

(** ** Floats: IEEE 754 binary64 *)

Definition float : Type := spec_float.
Definition prec : Z := 53.
Definition emax : Z := 1024.

Definition float_le (x y : float) : bool := SFleb x y.
Definition float_lt (x y : float) : bool := SFltb x y.
Definition float_mul (x y : float) : float := SFmul prec emax x y.
Definition float_div (x y : float) : float := SFdiv prec emax x y.

Definition float_is_zero (x : float) : bool :=
  match x with S754_zero _ => true | _ => false end.

(** The literals of the backend. *)
Definition f_0 : float := S754_zero false.
Definition f_1 : float := S754_finite false 4503599627370496 (-52).
Definition f_100 : float := S754_finite false 7036874417766400 (-46).
Definition f_0_01 : float := S754_finite false 5764607523034235 (-59).
Definition f_0_1 : float := S754_finite false 7205759403792794 (-56).
Definition f_1e9 : float := S754_finite false 8388608000000000 (-23).
Definition f_0_0001 : float := S754_finite false 7378697629483821 (-66).
Definition f_1000 : float := S754_finite false 8796093022208000 (-43).

(** [float(n)] for an int [n]: nearest float, [OverflowError] beyond the
    range. *)
Definition float_of_int (n : Z) : result float :=
  match binary_normalize prec emax n 0 false with
  | S754_infinity _ =>
      Raise (Exn OverflowError "int too large to convert to float")
  | f => Ok f
  end.

(** [int(x)] for a float [x]: truncation toward zero. *)
Definition int_of_float (x : float) : result Z :=
  match x with
  | S754_zero _ => Ok 0
  | S754_nan => Raise (Exn ValueError "cannot convert float NaN to integer")
  | S754_infinity _ =>
      Raise (Exn OverflowError "cannot convert float infinity to integer")
  | S754_finite s m e =>
      let a := if 0 <=? e then Zpos m * 2 ^ e else Zpos m / 2 ^ (- e) in
      Ok (if s then - a else a)
  end.

(** [a / b] for ints: the correctly rounded quotient. *)
Definition int_truediv (a b : Z) : result float :=
  match a, b with
  | _, Z0 => Raise (Exn ZeroDivisionError "division by zero")
  | Z0, _ => Ok (S754_zero (b <? 0))
  | _, _ =>
      let sign := xorb (a <? 0) (b <? 0) in
      let '(q, e, l) :=
        SFdiv_core_binary prec emax (Z.abs a) 0 (Z.abs b) 0 in
      match binary_round_aux prec emax sign q e l with
      | S754_infinity _ =>
          Raise (Exn OverflowError
                   "integer division result too large for a float")
      | f => Ok f
      end
  end.

(** ** Values *)

(** The Python values that travel as JSON: what [json.loads] and
    [response.json()] produce, and what goes into a [dict] field.  A [dict]
    is kept as an association list in insertion order. *)
Inductive pyval : Type :=
| PNone
| PBool (b : bool)
| PInt (n : Z)
| PFloat (x : float)
| PStr (s : string)
| PList (l : list pyval)
| PDict (d : list (string * pyval)).

(** [type(v).__name__] *)
Definition type_name (v : pyval) : string :=
  match v with
  | PNone => "NoneType"
  | PBool _ => "bool"
  | PInt _ => "int"
  | PFloat _ => "float"
  | PStr _ => "str"
  | PList _ => "list"
  | PDict _ => "dict"
  end.

(** [bool(v)] *)
Definition truthy (v : pyval) : bool :=
  match v with
  | PNone => false
  | PBool b => b
  | PInt n => negb (n =? 0)
  | PFloat x => negb (float_is_zero x)
  | PStr s => negb (String.eqb s "")
  | PList l => match l with [] => false | _ => true end
  | PDict d => match d with [] => false | _ => true end
  end.

(** [v == s] for a str literal [s] *)
Definition eq_str (v : pyval) (s : string) : bool :=
  match v with
  | PStr t => String.eqb t s
  | _ => false
  end.

(** ** Dictionaries with insertion order *)

Section Dict.
Context {K V : Type} (eqb : K -> K -> bool).

Fixpoint dict_get (d : list (K * V)) (k : K) : option V :=
  match d with
  | [] => None
  | (k', v) :: d' => if eqb k' k then Some v else dict_get d' k
  end.

(** [d[k] = v]: an existing key keeps its place. *)
Fixpoint dict_set (d : list (K * V)) (k : K) (v : V) : list (K * V) :=
  match d with
  | [] => [(k, v)]
  | (k', v') :: d' =>
      if eqb k' k then (k, v) :: d' else (k', v') :: dict_set d' k v
  end.

(** [del d[k]] *)
Fixpoint dict_del (d : list (K * V)) (k : K) : list (K * V) :=
  match d with
  | [] => []
  | (k', v') :: d' => if eqb k' k then d' else (k', v') :: dict_del d' k
  end.

Definition dict_keys (d : list (K * V)) : list K := map fst d.
End Dict.

(** [d.get(k, default)] for a dict [d] with str keys *)
Definition dict_get_default (d : list (string * pyval)) (k : string)
    (default : pyval) : pyval :=
  match dict_get String.eqb d k with Some x => x | None => default end.

(** [v.get(k, default)]: only a dict has [get]. *)
Definition py_get (v : pyval) (k : string) (default : pyval) : result pyval :=
  match v with
  | PDict d =>
      Ok match dict_get String.eqb d k with Some x => x | None => default end
  | _ =>
      Raise (Exn AttributeError
               ("'" ++ type_name v ++ "' object has no attribute 'get'"))
  end.

(** [v[k]] for a str key [k] *)
Definition py_getitem (v : pyval) (k : string) : result pyval :=
  match v with
  | PDict d =>
      match dict_get String.eqb d k with
      | Some x => Ok x
      | None => Raise (Exn KeyError ("'" ++ k ++ "'"))
      end
  | PStr _ => Raise (Exn TypeError "string indices must be integers")
  | PList _ =>
      Raise (Exn TypeError "list indices must be integers or slices, not str")
  | _ =>
      Raise (Exn TypeError
               ("'" ++ type_name v ++ "' object is not subscriptable"))
  end.

(** [v / n] for an int literal [n] *)
Definition py_truediv_int (v : pyval) (n : Z) : result float :=
  match v with
  | PInt a => int_truediv a n
  | PBool b => int_truediv (if b then 1 else 0) n
  | PFloat x =>
      if n =? 0 then Raise (Exn ZeroDivisionError "float division by zero")
      else match float_of_int n with
           | Ok y => Ok (float_div x y)
           | Raise e => Raise e
           end
  | _ =>
      Raise (Exn TypeError
               ("unsupported operand type(s) for /: '" ++ type_name v
                ++ "' and 'int'"))
  end.

(** ** Strings *)

(** [s.find(c)]: index of the first [c], or -1 *)
Fixpoint find (s : string) (c : ascii) : Z :=
  match s with
  | EmptyString => -1
  | String a s' =>
      if Ascii.eqb a c then 0
      else let i := find s' c in if i <? 0 then -1 else i + 1
  end.

(** [s.rfind(c)]: index of the last [c], or -1 *)
Fixpoint rfind (s : string) (c : ascii) : Z :=
  match s with
  | EmptyString => -1
  | String a s' =>
      let i := rfind s' c in
      if 0 <=? i then i + 1
      else if Ascii.eqb a c then 0 else -1
  end.

(** [s[start:stop]] for [0 <= start] and [0 <= stop] *)
Definition slice (s : string) (start stop : Z) : string :=
  substring (Z.to_nat start) (Z.to_nat (stop - start)) s.

(** [needle in s] *)
Fixpoint contains (needle s : string) : bool :=
  prefix needle s
  || match s with
     | EmptyString => false
     | String _ s' => contains needle s'
     end.

(** [s.startswith(p)] *)
Definition startswith (s p : string) : bool := prefix p s.

Definition upper_ascii (a : ascii) : ascii :=
  let n := nat_of_ascii a in
  if andb (Nat.leb 97 n) (Nat.leb n 122) then ascii_of_nat (n - 32) else a.

Definition lower_ascii (a : ascii) : ascii :=
  let n := nat_of_ascii a in
  if andb (Nat.leb 65 n) (Nat.leb n 90) then ascii_of_nat (n + 32) else a.

Fixpoint map_string (f : ascii -> ascii) (s : string) : string :=
  match s with
  | EmptyString => EmptyString
  | String a s' => String (f a) (map_string f s')
  end.

(** [s.upper()] and [s.lower()], on ASCII text *)
Definition upper (s : string) : string := map_string upper_ascii s.
Definition lower (s : string) : string := map_string lower_ascii s.

(** [sep.join(l)] *)
Definition join (sep : string) (l : list string) : string :=
  String.concat sep l.

End Py.


(* ================================================================== *)
(** * models/trade.py *)
(* ================================================================== *)

Module Models.
Import Py.

(** ** What the interpreter and pydantic decide *)

(** Text conversions of the interpreter that the backend relies on without
    fixing them: [repr], [str] of a value inside an f-string, and the
    format of a [(str, Enum)] member inside an f-string (its value before
    Python 3.12, [Class.NAME] from 3.12 on). *)
Class Interpreter : Type := {
  py_repr : pyval -> string;
  py_str : pyval -> string;
  float_str : float -> string;
  enum_format : string -> string -> string -> string
}.

(** pydantic 2 leaves two things open here: which inputs other than a
    float a [float] field converts in lax mode (ints, numeric strings, ...),
    and the text of a [ValidationError]. *)
Class Pydantic : Type := {
  lax_float : pyval -> option float;
  validation_error_str : string -> list string -> string
}.

(** ** Enumerations *)

Inductive Platform : Type := SOLANA | POLYMARKET | KALSHI.

Inductive TradeType : Type := BUY | SELL | SWAP.

Inductive TradeStatus : Type :=
  PENDING | EXECUTING | COMPLETED | FAILED | CANCELLED.

Definition Platform_value (p : Platform) : string :=
  match p with
  | SOLANA => "solana"
  | POLYMARKET => "polymarket"
  | KALSHI => "kalshi"
  end.

Definition Platform_name (p : Platform) : string :=
  match p with
  | SOLANA => "SOLANA"
  | POLYMARKET => "POLYMARKET"
  | KALSHI => "KALSHI"
  end.

Definition TradeType_value (t : TradeType) : string :=
  match t with
  | BUY => "buy"
  | SELL => "sell"
  | SWAP => "swap"
  end.

Definition TradeType_name (t : TradeType) : string :=
  match t with
  | BUY => "BUY"
  | SELL => "SELL"
  | SWAP => "SWAP"
  end.

Definition Platform_eqb (a b : Platform) : bool :=
  match a, b with
  | SOLANA, SOLANA | POLYMARKET, POLYMARKET | KALSHI, KALSHI => true
  | _, _ => false
  end.

Definition TradeType_eqb (a b : TradeType) : bool :=
  match a, b with
  | BUY, BUY | SELL, SELL | SWAP, SWAP => true
  | _, _ => false
  end.

Definition TradeStatus_eqb (a b : TradeStatus) : bool :=
  match a, b with
  | PENDING, PENDING | EXECUTING, EXECUTING | COMPLETED, COMPLETED
  | FAILED, FAILED | CANCELLED, CANCELLED => true
  | _, _ => false
  end.

(** [Platform(v)]: lookup of a member by value *)
Definition Platform_lookup (s : string) : option Platform :=
  if String.eqb s "solana" then Some SOLANA
  else if String.eqb s "polymarket" then Some POLYMARKET
  else if String.eqb s "kalshi" then Some KALSHI
  else None.

(** The member whose value is [v], if there is one. *)
Definition Platform_member (v : pyval) : option Platform :=
  match v with
  | PStr s => Platform_lookup s
  | _ => None
  end.

Definition Platform_call {I : Interpreter} (v : pyval) : result Platform :=
  match Platform_member v with
  | Some p => Ok p
  | None => Raise (Exn ValueError (py_repr v ++ " is not a valid Platform"))
  end.

(** [TradeType(v)] *)
Definition TradeType_lookup (s : string) : option TradeType :=
  if String.eqb s "buy" then Some BUY
  else if String.eqb s "sell" then Some SELL
  else if String.eqb s "swap" then Some SWAP
  else None.

Definition TradeType_member (v : pyval) : option TradeType :=
  match v with
  | PStr s => TradeType_lookup s
  | _ => None
  end.

Definition TradeType_call {I : Interpreter} (v : pyval) : result TradeType :=
  match TradeType_member v with
  | Some t => Ok t
  | None => Raise (Exn ValueError (py_repr v ++ " is not a valid TradeType"))
  end.

(** [f"{trade_type}"] *)
Definition TradeType_format {I : Interpreter} (t : TradeType) : string :=
  enum_format "TradeType" (TradeType_name t) (TradeType_value t).

(** ** Field validation *)

(** A [str] field takes a str and nothing else that JSON can carry. *)
Definition validate_str (v : pyval) : option string :=
  match v with
  | PStr s => Some s
  | _ => None
  end.

Definition validate_float {P : Pydantic} (v : pyval) : option float :=
  match v with
  | PFloat x => Some x
  | _ => lax_float v
  end.

(** [Optional[T]]: [None] stays [None]. *)
Definition validate_optional {T} (validate : pyval -> option T) (v : pyval)
  : option (option T) :=
  match v with
  | PNone => Some None
  | _ => option_map Some (validate v)
  end.

(** [Field(ge=lo, le=hi)]: the value is greater than or equal to [lo] and
    less than or equal to [hi]. *)
Definition in_range (lo hi x : float) : bool :=
  float_le lo x && float_le x hi.

(** The names of the fields that failed, for the error text. *)
Definition failed {T} (name : string) (o : option T) : list string :=
  match o with Some _ => [] | None => [name] end.

(** ** TradeRequest *)

Module TradeRequest.
Record t : Type := Build {
  platform : Platform;
  trade_type : TradeType;
  symbol : string;
  amount : float;
  price : option float;
  slippage : float;
  metadata : list (string * pyval)
}.

(** [slippage: float = Field(default=0.01, ge=0, le=1)]: a value that is
    passed is converted and checked against the bounds; the default is
    taken as it is. *)
Definition validate_slippage {P : Pydantic} (v : option pyval) : option float :=
  match v with
  | None => Some f_0_01
  | Some v =>
      match validate_float v with
      | Some x => if in_range f_0 f_1 x then Some x else None
      | None => None
      end
  end.

(** [TradeRequest(platform=..., trade_type=..., symbol=..., amount=...,
    price=..., slippage=..., metadata=...)]: pydantic validates every
    field and raises one [ValidationError] naming those that failed.
    [slippage = None] here means that the argument is not passed. *)
Definition new {P : Pydantic} (platform : Platform) (trade_type : TradeType)
    (symbol amount price : pyval) (slippage : option pyval)
    (metadata : list (string * pyval)) : result t :=
  let symbol' := validate_str symbol in
  let amount' := validate_float amount in
  let price' := validate_optional validate_float price in
  let slippage' := validate_slippage slippage in
  match symbol', amount', price', slippage' with
  | Some s, Some a, Some p, Some sl =>
      Ok (Build platform trade_type s a p sl metadata)
  | _, _, _, _ =>
      Raise (Exn ValidationError
               (validation_error_str "TradeRequest"
                  (failed "symbol" symbol' ++ failed "amount" amount'
                   ++ failed "price" price' ++ failed "slippage" slippage')))
  end.
End TradeRequest.

(** ** TradeResult *)

(** [datetime.utcnow()] is kept as the reading of the clock. *)
Definition datetime : Type := Z.

Module TradeResult.
Record t : Type := Build {
  trade_id : string;
  platform : Platform;
  status : TradeStatus;
  transaction_hash : option string;
  executed_amount : option float;
  executed_price : option float;
  fee : option float;
  timestamp : datetime;
  error : option string;
  metadata : list (string * pyval)
}.

(** [TradeResult(trade_id=..., platform=..., status=..., ...)]; an
    optional argument that is not passed is [PNone] here. *)
Definition new {P : Pydantic} (trade_id : pyval) (platform : Platform)
    (status : TradeStatus)
    (transaction_hash executed_amount executed_price fee : pyval)
    (timestamp : datetime) (error : pyval) : result t :=
  let trade_id' := validate_str trade_id in
  let hash' := validate_optional validate_str transaction_hash in
  let amount' := validate_optional validate_float executed_amount in
  let price' := validate_optional validate_float executed_price in
  let fee' := validate_optional validate_float fee in
  let error' := validate_optional validate_str error in
  match trade_id', hash', amount', price', fee', error' with
  | Some i, Some h, Some a, Some p, Some f, Some e =>
      Ok (Build i platform status h a p f timestamp e [])
  | _, _, _, _, _, _ =>
      Raise (Exn ValidationError
               (validation_error_str "TradeResult"
                  (failed "trade_id" trade_id'
                   ++ failed "transaction_hash" hash'
                   ++ failed "executed_amount" amount'
                   ++ failed "executed_price" price'
                   ++ failed "fee" fee' ++ failed "error" error')))
  end.
End TradeResult.

(** ** AgentConfig and PlatformCredentials *)

Inductive AgentType : Type := OPENAI | ANTHROPIC | CUSTOM.

Module AgentConfig.
Record t : Type := Build {
  name : string;
  agent_type : AgentType;
  api_key : option string;
  model : string;
  system_prompt : string;
  max_position_size : float;
  risk_limit : float;
  platforms : list Platform;
  metadata : list (string * pyval)
}.
End AgentConfig.

Module PlatformCredentials.
Record t : Type := Build {
  platform : Platform;
  rpc_url : option string;
  api_key : option string;
  secret : option string;
  private_key : option string;
  passphrase : option string;
  wallet_address : option string;
  metadata : list (string * pyval)
}.
End PlatformCredentials.

(** An [Optional[str]] as a value, and [s or default]. *)
Definition of_optional_str (o : option string) : pyval :=
  match o with Some s => PStr s | None => PNone end.

Definition of_optional_float (o : option float) : pyval :=
  match o with Some x => PFloat x | None => PNone end.

Definition str_or (o : option string) (default : string) : string :=
  match o with
  | Some s => if String.eqb s "" then default else s
  | None => default
  end.

End Models.

(* ================================================================== *)
(** * platforms/ *)
(* ================================================================== *)

Module Platforms.
Import Py Py.Notations Models.
Local Open Scope py_scope.

(** ** The outside world *)

(** A header value is kept as what it is made from: the HMAC of the
    Polymarket adapter is the key and the parts of the signed message. *)
Inductive header_value : Type :=
| HText (s : string)
| HUnixTime (t : Z)
| HHmacSha256 (key : string) (t : Z) (method path : string)
    (body : option pyval)
| HBearer (token : pyval).

(** The calls an adapter sends out: an aiohttp request with its JSON
    payload, and the balance query of the Solana RPC client. *)
Inductive net_call : Type :=
| HttpRequest (method url : string) (headers : list (string * header_value))
    (json : pyval)
| RpcGetBalance (rpc_url : string) (pubkey : string).

(** The world as an adapter sees it: the clock, and the calls sent so far,
    oldest first.  The clock is read, never moved: within one call of a
    method every reading gives the time at which the call began. *)
Record World : Type := { now : Z; net_log : list net_call }.

Record Keypair : Type := { pubkey : string }.

(** What lies outside the backend: the answer (or the exception) that a
    call gets, given the calls before it, and the decoding of a base58
    private key into a keypair. *)
Class Outside : Type := {
  respond : list net_call -> net_call -> result pyval;
  keypair_of_base58 : string -> result Keypair
}.

Section Methods.
Context {A : Type}.

(** [self] *)
Definition self : M (A * World) A := gets fst.

(** [self.field = ...] *)
Definition set_self (f : A -> A) : M (A * World) unit :=
  modify (fun s => (f (fst s), snd s)).

(** [datetime.utcnow()] and [int(time.time())] *)
Definition utcnow : M (A * World) datetime := gets (fun s => now (snd s)).

(** One call over the network: logged, then answered by the outside. *)
Definition network {O : Outside} (c : net_call) : M (A * World) pyval :=
  fun s =>
    (respond (net_log (snd s)) c,
     (fst s, {| now := now (snd s); net_log := net_log (snd s) ++ [c] |})).
End Methods.

(** ** base.py *)

(** The methods of an adapter that the router and the properties below
    use: [execute_trade], [get_balance] and [cancel_order] of
    [BasePlatform], and [close], which every adapter has.  [get_price] and
    [get_order_status] are left out. *)
Class BasePlatform (A : Type) : Type := {
  execute_trade : TradeRequest.t -> M (A * World) TradeResult.t;
  get_balance : option string -> M (A * World) pyval;
  cancel_order : string -> M (A * World) pyval;
  close : M (A * World) unit
}.

(** [BasePlatform.validate_trade]; [get_balance] is the method of the
    subclass. *)
Definition validate_trade {A}
    (get_balance : option string -> M (A * World) pyval)
    (trade : TradeRequest.t) : M (A * World) (bool * option string) :=
  try_except
    (balances <- get_balance None ;;
     if float_le (TradeRequest.amount trade) f_0 then
       ret (false, Some "Amount must be positive")
     else if float_lt (TradeRequest.slippage trade) f_0
             || float_lt f_1 (TradeRequest.slippage trade) then
       ret (false, Some "Slippage must be between 0 and 1")
     else ret (true, None))
    (fun e => ret (false, Some ("Validation error: " ++ exn_str e))).

(** The texts that [validate_trade] gives as the reason of a refusal. *)
Definition validation_message (msg : string) : bool :=
  String.eqb msg "Amount must be positive"
  || String.eqb msg "Slippage must be between 0 and 1"
  || startswith msg "Validation error: ".

(** [v / y] for a float [y] *)
Definition py_truediv_float (v : pyval) (y : float) : result float :=
  let div x :=
    if float_is_zero y then
      Raise (Exn ZeroDivisionError "float division by zero")
    else Ok (float_div x y) in
  match v with
  | PFloat x => div x
  | PInt a =>
      match float_of_int a with Ok x => div x | Raise e => Raise e end
  | PBool b => div (if b then f_1 else f_0)
  | _ =>
      Raise (Exn TypeError
               ("unsupported operand type(s) for /: '" ++ type_name v
                ++ "' and 'float'"))
  end.

(** [float(s)] for a str [s] is left to the interpreter. *)
Class Conversions : Type := {
  float_of_str : string -> result float
}.

(** [float(v)] *)
Definition py_float {C : Conversions} (v : pyval) : result float :=
  match v with
  | PFloat x => Ok x
  | PInt n => float_of_int n
  | PBool b => Ok (if b then f_1 else f_0)
  | PStr s => float_of_str s
  | _ =>
      Raise (Exn TypeError
               ("float() argument must be a string or a real number, not '"
                ++ type_name v ++ "'"))
  end.

(** ** solana_adapter.py *)

Module SolanaAdapter.
Record AsyncClient : Type := { endpoint : string }.

Record t : Type := Build {
  credentials : PlatformCredentials.t;
  rpc_url : string;
  client : option AsyncClient;
  wallet : option Keypair
}.

(** [__init__] with [_initialize] *)
Definition init {O : Outside} (credentials : PlatformCredentials.t)
  : result t :=
  let rpc_url :=
    str_or (PlatformCredentials.rpc_url credentials)
      "https://api.mainnet-beta.solana.com" in
  match PlatformCredentials.private_key credentials with
  | Some key =>
      if String.eqb key "" then Ok (Build credentials rpc_url None None)
      else
        match keypair_of_base58 key with
        | Ok kp => Ok (Build credentials rpc_url None (Some kp))
        | Raise e =>
            Raise (Exn ValueError
                     ("Invalid Solana private key: " ++ exn_str e))
        end
  | None => Ok (Build credentials rpc_url None None)
  end.

Definition _get_client : M (t * World) AsyncClient :=
  s <- self ;;
  match client s with
  | Some c => ret c
  | None =>
      let c := {| endpoint := rpc_url s |} in
      set_self (fun s =>
        Build (credentials s) (rpc_url s) (Some c) (wallet s)) ;;
      ret c
  end.

Definition _get_jupiter_quote (symbol : string) (amount slippage : float)
  : M (t * World) pyval :=
  ret (PDict [("price", PFloat f_1); ("fee", PFloat f_0_0001);
              ("route", PStr "jupiter")]).

Definition _execute_jupiter_swap (quote : pyval) : M (t * World) string :=
  ret "mock_transaction_signature".

Definition get_balance {O : Outside} (token : option string)
  : M (t * World) pyval :=
  s <- self ;;
  match wallet s with
  | None => ret (PDict [])
  | Some kp =>
      try_except
        (c <- _get_client ;;
         value <- network (RpcGetBalance (endpoint c) (pubkey kp)) ;;
         sol_balance <- lift_result (py_truediv_float value f_1e9) ;;
         ret (PDict [("SOL", PFloat sol_balance)]))
        (fun _ => ret (PDict []))
  end.

Definition execute_trade {O : Outside} {P : Pydantic} {I : Interpreter}
    (trade : TradeRequest.t) : M (t * World) TradeResult.t :=
  try_except
    (s <- self ;;
     match wallet s with
     | None =>
         ts <- utcnow ;;
         lift_result
           (TradeResult.new (PStr "") SOLANA FAILED PNone PNone PNone PNone
              ts (PStr "Wallet not initialized"))
     | Some _ =>
         '(is_valid, error) <- validate_trade get_balance trade ;;
         if negb is_valid then
           ts <- utcnow ;;
           lift_result
             (TradeResult.new (PStr "") SOLANA FAILED PNone PNone PNone
                PNone ts (of_optional_str error))
         else
           c <- _get_client ;;
           if TradeType_eqb (TradeRequest.trade_type trade) SWAP then
             quote <- _get_jupiter_quote (TradeRequest.symbol trade)
                        (TradeRequest.amount trade)
                        (TradeRequest.slippage trade) ;;
             if negb (truthy quote) then
               ts <- utcnow ;;
               lift_result
                 (TradeResult.new (PStr "") SOLANA FAILED PNone PNone PNone
                    PNone ts (PStr "Failed to get quote"))
             else
               tx_signature <- _execute_jupiter_swap quote ;;
               executed_price <- lift_result (py_get quote "price" PNone) ;;
               fee <- lift_result (py_get quote "fee" (PInt 0)) ;;
               ts <- utcnow ;;
               lift_result
                 (TradeResult.new (PStr tx_signature) SOLANA COMPLETED
                    (PStr tx_signature)
                    (PFloat (TradeRequest.amount trade)) executed_price fee
                    ts PNone)
           else
             ts <- utcnow ;;
             lift_result
               (TradeResult.new (PStr "") SOLANA FAILED PNone PNone PNone
                  PNone ts
                  (PStr ("Trade type "
                         ++ TradeType_format (TradeRequest.trade_type trade)
                         ++ " not supported")))
     end)
    (fun e =>
       ts <- utcnow ;;
       lift_result
         (TradeResult.new (PStr "") SOLANA FAILED PNone PNone PNone PNone ts
            (PStr (exn_str e)))).

(** The price is a constant for the time being. *)
Definition get_price (symbol : string) : M (t * World) float :=
  ret f_1.

(** Solana transactions cannot be cancelled once submitted. *)
Definition cancel_order (order_id : string) : M (t * World) pyval :=
  ret (PBool false).

(** [await self.client.close()] leaves the adapter's fields as they are. *)
Definition close : M (t * World) unit :=
  s <- self ;;
  match client s with
  | Some _ => ret tt
  | None => ret tt
  end.

#[export] Instance adapter {O : Outside} {P : Pydantic} {I : Interpreter}
  : BasePlatform t :=
  {| Platforms.execute_trade := execute_trade;
     Platforms.get_balance := get_balance;
     Platforms.cancel_order := cancel_order;
     Platforms.close := close |}.
End SolanaAdapter.

(** ** polymarket_adapter.py *)

(** An aiohttp session, as far as the adapters look at it. *)
Record ClientSession : Type := { closed : bool }.

(** [self.session and not self.session.closed] *)
Definition is_open (session : option ClientSession) : bool :=
  match session with
  | Some c => negb (closed c)
  | None => false
  end.

Definition truthy_price (p : option float) : bool :=
  match p with
  | Some x => negb (float_is_zero x)
  | None => false
  end.

Module PolymarketAdapter.
Definition BASE_URL : string := "https://api.polymarket.com".

Record t : Type := Build {
  credentials : PlatformCredentials.t;
  api_key : option string;
  secret : option string;
  passphrase : option string;
  session : option ClientSession
}.

Definition init (credentials : PlatformCredentials.t) : result t :=
  Ok (Build credentials (PlatformCredentials.api_key credentials)
        (PlatformCredentials.secret credentials)
        (PlatformCredentials.passphrase credentials) None).

Definition set_session (c : ClientSession) (s : t) : t :=
  Build (credentials s) (api_key s) (secret s) (passphrase s) (Some c).

Definition _get_session : M (t * World) ClientSession :=
  s <- self ;;
  match session s with
  | Some c =>
      if closed c then
        set_self (set_session {| closed := false |}) ;;
        ret {| closed := false |}
      else ret c
  | None =>
      set_self (set_session {| closed := false |}) ;;
      ret {| closed := false |}
  end.

(** The hex digest is kept as its inputs: the key and
    [timestamp + method + path + body]. *)
Definition _generate_signature (s : t) (timestamp : Z) (method path : string)
    (body : option pyval) : header_value :=
  HHmacSha256 (str_or (secret s) "") timestamp method path body.

Definition _make_request {O : Outside} (method endpoint : string) (data : pyval)
  : M (t * World) pyval :=
  _ <- _get_session ;;
  s <- self ;;
  let url := BASE_URL ++ endpoint in
  timestamp <- utcnow ;;
  let body := if truthy data then Some data else None in
  let signature := _generate_signature s timestamp method endpoint body in
  let headers :=
    [("POLY-API-KEY", HText (str_or (api_key s) ""));
     ("POLY-SIGNATURE", signature);
     ("POLY-TIMESTAMP", HUnixTime timestamp);
     ("POLY-PASSPHRASE", HText (str_or (passphrase s) ""));
     ("Content-Type", HText "application/json")] in
  network (HttpRequest method url headers data).

Definition get_balance {O : Outside} (token : option string)
  : M (t * World) pyval :=
  try_except
    (response <- _make_request "GET" "/balances" PNone ;;
     success <- lift_result (py_get response "success" PNone) ;;
     if truthy success then
       lift_result (py_get response "balances" (PDict []))
     else ret (PDict []))
    (fun _ => ret (PDict [])).

(** The order that [execute_trade] builds from the request. *)
Definition order_data (trade : TradeRequest.t) : pyval :=
  PDict
    [("market", PStr (TradeRequest.symbol trade));
     ("side",
      PStr (if String.eqb (TradeType_value (TradeRequest.trade_type trade))
                 "buy"
            then "BUY" else "SELL"));
     ("size", PFloat (TradeRequest.amount trade));
     ("price", of_optional_float (TradeRequest.price trade));
     ("type",
      PStr (if truthy_price (TradeRequest.price trade)
            then "LIMIT" else "MARKET"))].

Definition execute_trade {O : Outside} {P : Pydantic} (trade : TradeRequest.t)
  : M (t * World) TradeResult.t :=
  try_except
    ('(is_valid, error) <- validate_trade get_balance trade ;;
     if negb is_valid then
       ts <- utcnow ;;
       lift_result
         (TradeResult.new (PStr "") POLYMARKET FAILED PNone PNone PNone
            PNone ts (of_optional_str error))
     else
       response <- _make_request "POST" "/orders" (order_data trade) ;;
       success <- lift_result (py_get response "success" PNone) ;;
       if truthy success then
         order_id <- lift_result (py_get response "orderId" (PStr "")) ;;
         hash <- lift_result (py_get response "transactionHash" PNone) ;;
         executed_price <-
           lift_result (py_get response "executedPrice" PNone) ;;
         fee <- lift_result (py_get response "fee" (PInt 0)) ;;
         ts <- utcnow ;;
         lift_result
           (TradeResult.new order_id POLYMARKET COMPLETED hash
              (PFloat (TradeRequest.amount trade)) executed_price fee ts
              PNone)
       else
         error <-
           lift_result (py_get response "error" (PStr "Unknown error")) ;;
         ts <- utcnow ;;
         lift_result
           (TradeResult.new (PStr "") POLYMARKET FAILED PNone PNone PNone
              PNone ts error))
    (fun e =>
       ts <- utcnow ;;
       lift_result
         (TradeResult.new (PStr "") POLYMARKET FAILED PNone PNone PNone
            PNone ts (PStr (exn_str e)))).

Definition get_price {O : Outside} {C : Conversions} (symbol : string)
  : M (t * World) float :=
  try_except
    (response <- _make_request "GET" ("/markets/" ++ symbol) PNone ;;
     success <- lift_result (py_get response "success" PNone) ;;
     if truthy success then
       last_price <- lift_result (py_get response "lastPrice" (PInt 0)) ;;
       lift_result (py_float last_price)
     else ret f_0)
    (fun _ => ret f_0).

Definition get_order_status {O : Outside} (order_id : string)
  : M (t * World) pyval :=
  try_except
    (_make_request "GET" ("/orders/" ++ order_id) PNone)
    (fun e => ret (PDict [("error", PStr (exn_str e))])).

Definition cancel_order {O : Outside} (order_id : string)
  : M (t * World) pyval :=
  try_except
    (response <- _make_request "DELETE" ("/orders/" ++ order_id) PNone ;;
     lift_result (py_get response "success" (PBool false)))
    (fun _ => ret (PBool false)).

Definition close : M (t * World) unit :=
  s <- self ;;
  match session s with
  | Some c =>
      if negb (closed c) then set_self (set_session {| closed := true |})
      else ret tt
  | None => ret tt
  end.

#[export] Instance adapter {O : Outside} {P : Pydantic} : BasePlatform t :=
  {| Platforms.execute_trade := execute_trade;
     Platforms.get_balance := get_balance;
     Platforms.cancel_order := cancel_order;
     Platforms.close := close |}.
End PolymarketAdapter.

(** ** kalshi_adapter.py *)

Module KalshiAdapter.
Definition BASE_URL : string :=
  "https://api.elections.kalshi.com/trade-api/v2".

(** [token] is [None] until a login answers with one; the adapter stores
    whatever value the answer carries. *)
Record t : Type := Build {
  credentials : PlatformCredentials.t;
  api_key : option string;
  private_key : option string;
  session : option ClientSession;
  token : pyval
}.

Definition init (credentials : PlatformCredentials.t) : result t :=
  Ok (Build credentials (PlatformCredentials.api_key credentials)
        (PlatformCredentials.private_key credentials) None PNone).

Definition set_session (c : ClientSession) (s : t) : t :=
  Build (credentials s) (api_key s) (private_key s) (Some c) (token s).

Definition set_token (v : pyval) (s : t) : t :=
  Build (credentials s) (api_key s) (private_key s) (session s) v.

Definition _get_session : M (t * World) ClientSession :=
  s <- self ;;
  match session s with
  | Some c =>
      if closed c then
        set_self (set_session {| closed := false |}) ;;
        ret {| closed := false |}
      else ret c
  | None =>
      set_self (set_session {| closed := false |}) ;;
      ret {| closed := false |}
  end.

Definition _authenticate {O : Outside} : M (t * World) bool :=
  try_except
    (_ <- _get_session ;;
     s <- self ;;
     let auth_data :=
       PDict [("email", of_optional_str (api_key s));
              ("password", of_optional_str (private_key s))] in
     data <- network (HttpRequest "POST" (BASE_URL ++ "/login") [] auth_data) ;;
     tok <- lift_result (py_get data "token" PNone) ;;
     if truthy tok then
       tok <- lift_result (py_getitem data "token") ;;
       set_self (set_token tok) ;;
       ret true
     else ret false)
    (fun _ => ret false).

Definition _make_request {O : Outside} (method endpoint : string) (data : pyval)
  : M (t * World) pyval :=
  s <- self ;;
  (if negb (truthy (token s)) then _authenticate else ret true) ;;
  _ <- _get_session ;;
  s <- self ;;
  let url := BASE_URL ++ endpoint in
  let headers :=
    [("Authorization", HBearer (token s));
     ("Content-Type", HText "application/json")] in
  network (HttpRequest method url headers data).

Definition get_balance {O : Outside} (token : option string)
  : M (t * World) pyval :=
  try_except
    (response <- _make_request "GET" "/portfolio/balance" PNone ;;
     b <- lift_result (py_get response "balance" PNone) ;;
     if truthy b then
       b <- lift_result (py_getitem response "balance") ;;
       balance <- lift_result (py_truediv_int b 100) ;;
       ret (PDict [("USD", PFloat balance)])
     else ret (PDict []))
    (fun _ => ret (PDict [])).

Definition execute_trade {O : Outside} {P : Pydantic} (trade : TradeRequest.t)
  : M (t * World) TradeResult.t :=
  try_except
    ('(is_valid, error) <- validate_trade get_balance trade ;;
     if negb is_valid then
       ts <- utcnow ;;
       lift_result
         (TradeResult.new (PStr "") KALSHI FAILED PNone PNone PNone PNone ts
            (of_optional_str error))
     else
       count <- lift_result (int_of_float (TradeRequest.amount trade)) ;;
       let order_data :=
         [("ticker", PStr (TradeRequest.symbol trade));
          ("action",
           PStr (upper (TradeType_value (TradeRequest.trade_type trade))));
          ("count", PInt count);
          ("type", PStr "market");
          ("side", PStr "yes")] in
       order_data <-
         match TradeRequest.price trade with
         | Some price =>
             if negb (float_is_zero price) then
               let order_data :=
                 dict_set String.eqb order_data "type" (PStr "limit") in
               cents <- lift_result (int_of_float (float_mul price f_100)) ;;
               ret (dict_set String.eqb order_data "yes_price" (PInt cents))
             else ret order_data
         | None => ret order_data
         end ;;
       response <-
         _make_request "POST" "/portfolio/orders" (PDict order_data) ;;
       o <- lift_result (py_get response "order" PNone) ;;
       if truthy o then
         order <- lift_result (py_getitem response "order") ;;
         order_id <- lift_result (py_get order "order_id" (PStr "")) ;;
         quantity <- lift_result (py_get order "quantity" (PInt 0)) ;;
         yes_price <- lift_result (py_get order "yes_price" (PInt 0)) ;;
         executed_price <- lift_result (py_truediv_int yes_price 100) ;;
         fee <- lift_result (py_get order "fee" (PInt 0)) ;;
         fee <- lift_result (py_truediv_int fee 100) ;;
         ts <- utcnow ;;
         lift_result
           (TradeResult.new order_id KALSHI COMPLETED PNone quantity
              (PFloat executed_price) (PFloat fee) ts PNone)
       else
         error <-
           lift_result (py_get response "error" (PStr "Unknown error")) ;;
         ts <- utcnow ;;
         lift_result
           (TradeResult.new (PStr "") KALSHI FAILED PNone PNone PNone PNone
              ts error))
    (fun e =>
       ts <- utcnow ;;
       lift_result
         (TradeResult.new (PStr "") KALSHI FAILED PNone PNone PNone PNone ts
            (PStr (exn_str e)))).

Definition get_price {O : Outside} (symbol : string)
  : M (t * World) float :=
  try_except
    (response <- _make_request "GET" ("/markets/" ++ symbol) PNone ;;
     m <- lift_result (py_get response "market" PNone) ;;
     if truthy m then
       market <- lift_result (py_getitem response "market") ;;
       last_price <- lift_result (py_get market "last_price" (PInt 0)) ;;
       lift_result (py_truediv_int last_price 100)
     else ret f_0)
    (fun _ => ret f_0).

Definition get_order_status {O : Outside} (order_id : string)
  : M (t * World) pyval :=
  try_except
    (_make_request "GET" ("/portfolio/orders/" ++ order_id) PNone)
    (fun e => ret (PDict [("error", PStr (exn_str e))])).

(** The amount converts to a count, and the price of a limit order to
    cents: [int(...)] raises on an infinity and on a NaN. *)
Definition convertible (trade : TradeRequest.t) : bool :=
  is_ok (int_of_float (TradeRequest.amount trade))
  && match TradeRequest.price trade with
     | Some price =>
         float_is_zero price || is_ok (int_of_float (float_mul price f_100))
     | None => true
     end.

Definition cancel_order {O : Outside} (order_id : string)
  : M (t * World) pyval :=
  try_except
    (response <-
       _make_request "DELETE" ("/portfolio/orders/" ++ order_id) PNone ;;
     order <- lift_result (py_get response "order" (PDict [])) ;;
     status <- lift_result (py_get order "status" PNone) ;;
     ret (PBool (eq_str status "canceled")))
    (fun _ => ret (PBool false)).

Definition close : M (t * World) unit :=
  s <- self ;;
  match session s with
  | Some c =>
      if negb (closed c) then set_self (set_session {| closed := true |})
      else ret tt
  | None => ret tt
  end.

#[export] Instance adapter {O : Outside} {P : Pydantic} : BasePlatform t :=
  {| Platforms.execute_trade := execute_trade;
     Platforms.get_balance := get_balance;
     Platforms.cancel_order := cancel_order;
     Platforms.close := close |}.
End KalshiAdapter.

(** ** What a refusal is *)

(** [refuses execute trade reason]: on every adapter of the class and in
    every world, [execute trade] returns, without raising, a TradeResult
    with status FAILED whose error text satisfies [reason]. *)
Definition refuses {A} (execute : TradeRequest.t -> M (A * World) TradeResult.t)
    (trade : TradeRequest.t) (reason : A -> string -> Prop) : Prop :=
  forall a w, exists res msg,
    fst (execute trade (a, w)) = Ok res
    /\ TradeResult.status res = FAILED
    /\ TradeResult.error res = Some msg
    /\ reason a msg.

(** A result as an adapter of the platform [p] gives it: tagged with [p],
    and either FAILED with no trade id and no execution data, or COMPLETED
    with no error text. *)
Definition settled (p : Platform) (res : TradeResult.t) : Prop :=
  TradeResult.platform res = p
  /\ ((TradeResult.status res = FAILED
       /\ TradeResult.trade_id res = ""
       /\ TradeResult.transaction_hash res = None
       /\ TradeResult.executed_amount res = None
       /\ TradeResult.executed_price res = None
       /\ TradeResult.fee res = None)
      \/ (TradeResult.status res = COMPLETED
          /\ TradeResult.error res = None)).

(** ** What an operation leaves alone *)

(** The world moves on from [w] to [w']: the clock reads the same, and the
    calls sent so far are still on the log, in their order. *)
Definition follows (w w' : World) : Prop :=
  now w' = now w /\ exists calls, net_log w' = (net_log w ++ calls)%list.

(** What an adapter is given when it is made, and never writes again: the
    fields other than the client, the session and the token. *)
Definition solana_account (a : SolanaAdapter.t) :=
  (SolanaAdapter.credentials a, SolanaAdapter.rpc_url a,
   SolanaAdapter.wallet a).

Definition polymarket_account (a : PolymarketAdapter.t) :=
  (PolymarketAdapter.credentials a, PolymarketAdapter.api_key a,
   PolymarketAdapter.secret a, PolymarketAdapter.passphrase a).

Definition kalshi_account (a : KalshiAdapter.t) :=
  (KalshiAdapter.credentials a, KalshiAdapter.api_key a,
   KalshiAdapter.private_key a).

(** A step from [s] to [s'] keeps the account of the adapter, and the world
    follows. *)
Definition keeps {A B} (account : A -> B) (s s' : A * World) : Prop :=
  account (fst s') = account (fst s) /\ follows (snd s) (snd s').

(** The request passes the shared checks on amount and slippage. *)
Definition well_formed (trade : TradeRequest.t) : bool :=
  negb (float_le (TradeRequest.amount trade) f_0)
  && negb (float_lt (TradeRequest.slippage trade) f_0
           || float_lt f_1 (TradeRequest.slippage trade)).

(** The reason that the shared checks give to a request that does not
    pass: the amount is looked at first. *)
Definition refusal_reason (trade : TradeRequest.t) : string :=
  if float_le (TradeRequest.amount trade) f_0 then "Amount must be positive"
  else "Slippage must be between 0 and 1".

(** ** platforms/__init__.py *)

(** An adapter object: its class and its fields. *)
Record adapter_object : Type := Object {
  class_of : Type;
  methods : BasePlatform class_of;
  fields : class_of
}.

(** [get_platform_adapter]: every member of [Platform] has an adapter class,
    so the "Unsupported platform" branch is never taken; the constructor
    itself may raise. *)
Definition get_platform_adapter {O : Outside} {P : Pydantic} {I : Interpreter}
    (credentials : PlatformCredentials.t) : result adapter_object :=
  match PlatformCredentials.platform credentials with
  | SOLANA =>
      match SolanaAdapter.init credentials with
      | Ok a => Ok (Object _ SolanaAdapter.adapter a)
      | Raise e => Raise e
      end
  | POLYMARKET =>
      match PolymarketAdapter.init credentials with
      | Ok a => Ok (Object _ PolymarketAdapter.adapter a)
      | Raise e => Raise e
      end
  | KALSHI =>
      match KalshiAdapter.init credentials with
      | Ok a => Ok (Object _ KalshiAdapter.adapter a)
      | Raise e => Raise e
      end
  end.

(** An adapter object as [get_platform_adapter] makes it for the platform
    [p]: an instance of the adapter class of [p]. *)
Definition instance_of {O : Outside} {P : Pydantic} {I : Interpreter}
    (p : Platform) (a : adapter_object) : Prop :=
  match p with
  | SOLANA => exists f, a = Object _ SolanaAdapter.adapter f
  | POLYMARKET => exists f, a = Object _ PolymarketAdapter.adapter f
  | KALSHI => exists f, a = Object _ KalshiAdapter.adapter f
  end.


End Platforms.

(* ================================================================== *)
(** * routers/trade_router.py *)
(* ================================================================== *)

Module Routers.
Import Py Py.Notations Models Platforms.
Local Open Scope py_scope.

Module TradeRouter.
(** [self.platforms: dict[Platform, BasePlatform]] *)
Record t : Type := Build { platforms : list (Platform * adapter_object) }.

Definition init : t := Build [].

(** [await adapter.method(...)] for the adapter [a] that the registry
    holds under [p].  The registry holds the object itself, so what the
    method writes to the adapter's fields is seen under [p] afterwards. *)
Definition call {R} (p : Platform) (a : adapter_object)
    (method : forall A, BasePlatform A -> M (A * World) R)
  : M (t * World) R :=
  fun s =>
    let out := method (class_of a) (methods a) (fields a, snd s) in
    (fst out,
     (Build (dict_set Platform_eqb (platforms (fst s)) p
               (Object (class_of a) (methods a) (fst (snd out)))),
      snd (snd out))).

Definition register_platform {O : Outside} {P : Pydantic} {I : Interpreter}
    (credentials : PlatformCredentials.t) : M (t * World) unit :=
  adapter <- lift_result (get_platform_adapter credentials) ;;
  set_self (fun r =>
    Build (dict_set Platform_eqb (platforms r)
             (PlatformCredentials.platform credentials) adapter)).

Definition unregister_platform (platform : Platform) : M (t * World) unit :=
  r <- self ;;
  match dict_get Platform_eqb (platforms r) platform with
  | Some _ =>
      set_self (fun r => Build (dict_del Platform_eqb (platforms r) platform))
  | None => ret tt
  end.

Definition execute_trade {P : Pydantic} (trade : TradeRequest.t)
  : M (t * World) TradeResult.t :=
  r <- self ;;
  match dict_get Platform_eqb (platforms r) (TradeRequest.platform trade) with
  | None =>
      ts <- utcnow ;;
      lift_result
        (TradeResult.new (PStr "") (TradeRequest.platform trade) FAILED
           PNone PNone PNone PNone ts
           (PStr ("Platform "
                  ++ Platform_value (TradeRequest.platform trade)
                  ++ " not registered")))
  | Some adapter =>
      call (TradeRequest.platform trade) adapter
        (fun A cls => Platforms.execute_trade trade)
  end.

Definition get_balance (platform : Platform) (token : option string)
  : M (t * World) pyval :=
  r <- self ;;
  match dict_get Platform_eqb (platforms r) platform with
  | None => ret (PDict [])
  | Some adapter =>
      call platform adapter (fun A cls => Platforms.get_balance token)
  end.

(** The body of the loop of [get_all_balances], over the items that are
    left. *)
Fixpoint collect_balances (items : list (Platform * adapter_object))
    (balances : list (Platform * pyval))
  : M (t * World) (list (Platform * pyval)) :=
  match items with
  | [] => ret balances
  | (platform, adapter) :: items' =>
      b <- try_except
             (call platform adapter
                (fun A cls => Platforms.get_balance None))
             (fun _ => ret (PDict [])) ;;
      collect_balances items' (dict_set Platform_eqb balances platform b)
  end.

(** What the loop records for the adapter [a] when its turn comes in the
    world [w]: the balances that it reports, or the empty dict when its
    [get_balance] raises. *)
Definition balances_or_empty (a : adapter_object) (w : World) : pyval :=
  match fst (@Platforms.get_balance (class_of a) (methods a) None
               (fields a, w)) with
  | Ok b => b
  | Raise _ => PDict []
  end.

Definition get_all_balances : M (t * World) (list (Platform * pyval)) :=
  r <- self ;;
  collect_balances (platforms r) [].

(** The world in which the turn of the next adapter comes: the one that
    the adapters of [items] leave when each is asked for its balances, one
    after the other, from the world [w] on. *)
Fixpoint world_after_balances (items : list (Platform * adapter_object))
    (w : World) : World :=
  match items with
  | [] => w
  | (_, a) :: items' =>
      world_after_balances items'
        (snd (snd (@Platforms.get_balance (class_of a) (methods a) None
                     (fields a, w))))
  end.

Fixpoint close_each (items : list (Platform * adapter_object))
  : M (t * World) unit :=
  match items with
  | [] => ret tt
  | (platform, adapter) :: items' =>
      call platform adapter (fun A cls => Platforms.close) ;;
      close_each items'
  end.

Definition close_all : M (t * World) unit :=
  r <- self ;;
  close_each (platforms r).
End TradeRouter.

(** A registry as [register_platform] fills it: every entry is an instance
    of the adapter class of the platform it is registered under. *)
Definition factory_made {O : Outside} {P : Pydantic} {I : Interpreter}
    (r : TradeRouter.t) : Prop :=
  Forall (fun entry => instance_of (fst entry) (snd entry))
    (TradeRouter.platforms r).

End Routers.

(* ================================================================== *)
(** * agents/ *)
(* ================================================================== *)

Module Agents.
Import Py Py.Notations Models.
Local Open Scope py_scope.

(** ** Text *)

Definition nl : string := String "010"%char EmptyString.
Definition dq : string := String "034"%char EmptyString.

(** [s] in double quotes *)
Definition quoted (s : string) : string := dq ++ s ++ dq.

(** The lines of a text, joined by newlines. *)
Definition lines (l : list string) : string := join nl l.

(** ** The model provider and the JSON decoder *)

(** A block of [response.content]: a text block has [.text], other blocks
    do not. *)
Inductive content_block : Type :=
| TextBlock (text : string)
| OtherBlock.

Record create_args : Type := {
  arg_model : string;
  arg_max_tokens : Z;
  arg_system : string;
  arg_user : string;
  arg_temperature : float
}.

(** [client.messages.create(...)]: the content of the response, or the
    exception of the client. *)
Class Provider : Type := {
  messages_create : create_args -> result (list content_block)
}.

(** [json.loads]: the decoded value, or the exception (a [JSONDecodeError]
    for text that is not JSON). *)
Class Json : Type := {
  json_loads : string -> result pyval
}.

(** What [print] has written. *)
Definition stdout : Type := list string.

Definition print (line : string) : M stdout unit :=
  modify (fun out => (out ++ [line])%list).

(** ** base.py *)

Definition f_0_3 : float := S754_finite false 5404319552844595 (-54).

Definition guidelines (platforms : list Platform) : string :=
  lines
    [""; "";
     "Trading Guidelines:";
     "- Always consider risk management and position sizing";
     "- Analyze market conditions before making decisions";
     "- Consider slippage and fees in trade calculations";
     "- Never exceed maximum position size or risk limits";
     "- Provide clear reasoning for each trade decision";
     "";
     "Available Platforms: "]
  ++ join ", " (map Platform_value platforms).

Definition _build_system_prompt (config : AgentConfig.t) : string :=
  AgentConfig.system_prompt config ++ guidelines (AgentConfig.platforms config).

Definition item_line {I : Interpreter} (kv : string * pyval) : string :=
  "- " ++ fst kv ++ ": " ++ py_str (snd kv).

(** [portfolio = None] is the default of the parameter. *)
Definition _build_trade_context {I : Interpreter} (config : AgentConfig.t)
    (market_data : list (string * pyval))
    (portfolio : option (list (string * pyval))) : string :=
  let context_parts := (["Market Data:"] ++ map item_line market_data)%list in
  let context_parts :=
    match portfolio with
    | Some (kv :: rest) =>
        (context_parts ++ [(nl ++ "Portfolio:")%string]
         ++ map item_line (kv :: rest))%list
    | _ => context_parts
    end in
  let context_parts :=
    (context_parts
     ++ [(nl ++ "Max Position Size: "
          ++ float_str (AgentConfig.max_position_size config))%string])%list in
  let context_parts :=
    (context_parts
     ++ [("Risk Limit: "
          ++ float_str (float_mul (AgentConfig.risk_limit config) f_100)
          ++ "%")%string])%list in
  join nl context_parts.

(** ** anthropic_agent.py *)

Module AnthropicAgent.
Record t : Type := Build {
  config : AgentConfig.t;
  client : string;
  model : string
}.

Definition init (config : AgentConfig.t) : result t :=
  match AgentConfig.api_key config with
  | Some key =>
      if String.eqb key "" then
        Raise (Exn ValueError "Anthropic API key is required")
      else Ok (Build config key (AgentConfig.model config))
  | None => Raise (Exn ValueError "Anthropic API key is required")
  end.

(** The format instructions that [generate_trade_decision] appends to the
    system prompt. *)
Definition decision_format : string :=
  lines
    [""; "";
     "If you decide to execute a trade, "
     ++ "respond with a JSON object in this format:";
     "{";
     "  " ++ quoted "action" ++ ": " ++ quoted "trade" ++ ",";
     "  " ++ quoted "platform" ++ ": "
     ++ quoted "solana|polymarket|kalshi" ++ ",";
     "  " ++ quoted "trade_type" ++ ": " ++ quoted "buy|sell|swap" ++ ",";
     "  " ++ quoted "symbol" ++ ": "
     ++ quoted "symbol/market identifier" ++ ",";
     "  " ++ quoted "amount" ++ ": 0.0,";
     "  " ++ quoted "price" ++ ": 0.0 (optional),";
     "  " ++ quoted "slippage" ++ ": 0.01,";
     "  " ++ quoted "reasoning" ++ ": " ++ quoted "your reasoning";
     "}";
     "";
     "If you decide not to trade, respond with:";
     "{";
     "  " ++ quoted "action" ++ ": " ++ quoted "hold" ++ ",";
     "  " ++ quoted "reasoning" ++ ": " ++ quoted "your reasoning";
     "}";
     ""].

(** [response.content[0].text if response.content else ""] *)
Definition first_text (content : list content_block) : result string :=
  match content with
  | [] => Ok ""
  | TextBlock text :: _ => Ok text
  | OtherBlock :: _ =>
      Raise (Exn AttributeError "'ToolUseBlock' object has no attribute 'text'")
  end.

(** [content[start:end]] for [start = content.find('{')] and
    [end = content.rfind('}') + 1], when [start >= 0 and end > start]. *)
Definition json_fragment (content : string) : option string :=
  let start := find content "{"%char in
  let end_ := rfind content "}"%char + 1 in
  if (0 <=? start) && (start <? end_) then Some (slice content start end_)
  else None.

(** The inner [try] block of [generate_trade_decision]: [Some request]
    when it returns the request, [None] when control leaves the block
    without a [return]. *)
Definition extract_decision {J : Json} {P : Pydantic} {I : Interpreter}
    (content : string) : M stdout (option TradeRequest.t) :=
  match json_fragment content with
  | Some json_str =>
      decision <- lift_result (json_loads json_str) ;;
      action <- lift_result (py_get decision "action" PNone) ;;
      if eq_str action "trade" then
        platform <- lift_result (py_getitem decision "platform") ;;
        platform <- lift_result (Platform_call platform) ;;
        trade_type <- lift_result (py_getitem decision "trade_type") ;;
        trade_type <- lift_result (TradeType_call trade_type) ;;
        symbol <- lift_result (py_getitem decision "symbol") ;;
        amount <- lift_result (py_getitem decision "amount") ;;
        price <- lift_result (py_get decision "price" PNone) ;;
        slippage <- lift_result (py_get decision "slippage" (PFloat f_0_01)) ;;
        reasoning <- lift_result (py_get decision "reasoning" (PStr "")) ;;
        request <-
          lift_result
            (TradeRequest.new platform trade_type symbol amount price
               (Some slippage) [("reasoning", reasoning)]) ;;
        ret (Some request)
      else ret None
  | None => ret None
  end.

(** The arguments of the call to the model. *)
Definition decision_request {I : Interpreter} (agent : t)
    (market_data portfolio : list (string * pyval)) (context : string)
  : create_args :=
  let system_prompt := _build_system_prompt (config agent) in
  let system_prompt := system_prompt ++ decision_format in
  let market_context :=
    _build_trade_context (config agent) market_data (Some portfolio) in
  let user_message :=
    market_context ++ nl ++ nl ++ context ++ nl ++ nl
    ++ "Should we execute a trade?" in
  {| arg_model := model agent;
     arg_max_tokens := 1024;
     arg_system := system_prompt;
     arg_user := user_message;
     arg_temperature := f_0_3 |}.

Definition generate_trade_decision {L : Provider} {J : Json} {P : Pydantic}
    {I : Interpreter} (agent : t)
    (market_data portfolio : list (string * pyval)) (context : string)
  : M stdout (option TradeRequest.t) :=
  try_except
    (response <-
       lift_result
         (messages_create
            (decision_request agent market_data portfolio context)) ;;
     content <- lift_result (first_text response) ;;
     returned <-
       try_except_cls JSONDecodeError (extract_decision content)
         (fun _ => ret None) ;;
     match returned with
     | Some request => ret (Some request)
     | None => ret None
     end)
    (fun e =>
       print ("Error generating trade decision: " ++ exn_str e) ;;
       ret None).

(** ** Model output that carries no trade *)

(** The four kinds of model output that the decoding contract turns into a
    hold: no fragment in braces; a fragment that [json.loads] does not
    decode; a decoded object whose action is "hold"; a decoded object whose
    platform or trade type is not a member of its enumeration. *)
Inductive discarded {J : Json} (content : string) : Prop :=
| no_fragment :
    json_fragment content = None -> discarded content
| undecodable (json_str : string) (e : exn) :
    json_fragment content = Some json_str ->
    json_loads json_str = Raise e ->
    discarded content
| hold (json_str : string) (d : list (string * pyval)) :
    json_fragment content = Some json_str ->
    json_loads json_str = Ok (PDict d) ->
    dict_get String.eqb d "action" = Some (PStr "hold") ->
    discarded content
| invalid_platform (json_str : string) (d : list (string * pyval)) (v : pyval) :
    json_fragment content = Some json_str ->
    json_loads json_str = Ok (PDict d) ->
    dict_get String.eqb d "platform" = Some v ->
    Platform_member v = None ->
    discarded content
| invalid_trade_type (json_str : string) (d : list (string * pyval))
    (v : pyval) :
    json_fragment content = Some json_str ->
    json_loads json_str = Ok (PDict d) ->
    dict_get String.eqb d "trade_type" = Some v ->
    TradeType_member v = None ->
    discarded content.

End AnthropicAgent.

(** ** openai_agent.py *)

Module OpenAIAgent.
Record t : Type := Build {
  config : AgentConfig.t;
  client : string;
  model : string
}.

Definition init (config : AgentConfig.t) : result t :=
  match AgentConfig.api_key config with
  | Some key =>
      if String.eqb key "" then
        Raise (Exn ValueError "OpenAI API key is required")
      else Ok (Build config key (AgentConfig.model config))
  | None => Raise (Exn ValueError "OpenAI API key is required")
  end.

(** The arguments of [client.chat.completions.create] that vary: the
    model, the two messages, the platforms that the schema of the function
    [execute_trade] lists, and the temperature. *)
Record chat_args : Type := {
  arg_model : string;
  arg_system : string;
  arg_user : string;
  arg_platform_enum : list string;
  arg_temperature : float
}.

(** [response.choices[0].message], as far as the agent looks at it:
    [function_call] is [None] or an object with [arguments]. *)
Record message : Type := { function_call : option string }.

(** The message of the first choice of the response, or the exception
    met on the way to it. *)
Class ChatProvider : Type := {
  completions_create : chat_args -> result message
}.

Definition decision_request {I : Interpreter} (agent : t)
    (market_data portfolio : list (string * pyval)) (context : string)
  : chat_args :=
  let system_prompt := _build_system_prompt (config agent) in
  let market_context :=
    _build_trade_context (config agent) market_data (Some portfolio) in
  let user_message :=
    market_context ++ nl ++ nl ++ context ++ nl ++ nl
    ++ "Should we execute a trade? If yes, provide trade details." in
  {| arg_model := model agent;
     arg_system := system_prompt;
     arg_user := user_message;
     arg_platform_enum :=
       map Platform_value (AgentConfig.platforms (config agent));
     arg_temperature := f_0_3 |}.

Definition generate_trade_decision {L : ChatProvider} {J : Json}
    {P : Pydantic} {I : Interpreter} (agent : t)
    (market_data portfolio : list (string * pyval)) (context : string)
  : M stdout (option TradeRequest.t) :=
  try_except
    (message <-
       lift_result
         (completions_create
            (decision_request agent market_data portfolio context)) ;;
     match function_call message with
     | Some arguments =>
         args <- lift_result (json_loads arguments) ;;
         platform <- lift_result (py_getitem args "platform") ;;
         platform <- lift_result (Platform_call platform) ;;
         trade_type <- lift_result (py_getitem args "trade_type") ;;
         trade_type <- lift_result (TradeType_call trade_type) ;;
         symbol <- lift_result (py_getitem args "symbol") ;;
         amount <- lift_result (py_getitem args "amount") ;;
         price <- lift_result (py_get args "price" PNone) ;;
         slippage <- lift_result (py_get args "slippage" (PFloat f_0_01)) ;;
         reasoning <- lift_result (py_get args "reasoning" (PStr "")) ;;
         request <-
           lift_result
             (TradeRequest.new platform trade_type symbol amount price
                (Some slippage) [("reasoning", reasoning)]) ;;
         ret (Some request)
     | None => ret None
     end)
    (fun e =>
       print ("Error generating trade decision: " ++ exn_str e) ;;
       ret None).
End OpenAIAgent.

(** ** agents/__init__.py *)

Definition AgentType_value (t : AgentType) : string :=
  match t with
  | OPENAI => "openai"
  | ANTHROPIC => "anthropic"
  | CUSTOM => "custom"
  end.

(** An agent object: one of the two classes of the factory. *)
Inductive agent_object : Type :=
| OpenAIObject (a : OpenAIAgent.t)
| AnthropicObject (a : AnthropicAgent.t).

(** [get_agent]: the dict of the factory has no entry for "custom". *)
Definition get_agent (config : AgentConfig.t) : result agent_object :=
  match AgentConfig.agent_type config with
  | OPENAI =>
      match OpenAIAgent.init config with
      | Ok a => Ok (OpenAIObject a)
      | Raise e => Raise e
      end
  | ANTHROPIC =>
      match AnthropicAgent.init config with
      | Ok a => Ok (AnthropicObject a)
      | Raise e => Raise e
      end
  | CUSTOM =>
      Raise (Exn ValueError
               ("Unsupported agent type: "
                ++ AgentType_value (AgentConfig.agent_type config)))
  end.

(** [agent.config] *)
Definition agent_config (a : agent_object) : AgentConfig.t :=
  match a with
  | OpenAIObject a => OpenAIAgent.config a
  | AnthropicObject a => AnthropicAgent.config a
  end.

End Agents.

(* ================================================================== *)
(** * api/main.py *)
(* ================================================================== *)

Module Api.
Import Py Py.Notations Models Platforms Routers Agents.
Local Open Scope py_scope.

(** The state of the application: the two globals [trade_router] and
    [active_agents], with the world of the adapters and the standard
    output of the agents. *)
Record t : Type := Build {
  trade_router : TradeRouter.t;
  active_agents : list (string * agent_object);
  world : World;
  output : stdout
}.

Definition startup (w : World) : t := Build TradeRouter.init [] w [].

(** What an endpoint answers: the value that it returns, or the
    [HTTPException] that it raises. *)
Inductive response (A : Type) : Type :=
| Return (body : A)
| HTTPException (status_code : Z) (detail : string).
Arguments Return {A} body.
Arguments HTTPException {A} status_code detail.

(** The dicts that the endpoints return, one constructor for each shape;
    the entry "success": True and the constant messages are left out. *)
Inductive body : Type :=
| Registered (platform : string)
| Unregistered (platform : string)
| Balances (balances : list (string * pyval))
| Balance (platform : string) (balance : pyval)
| AgentCreated (agent_name agent_type : string)
| Hold (agent : string)
| Trade (agent : string) (trade_request : TradeRequest.t)
    (execution_result : option TradeResult.t)
| AgentDeleted (message : string).

(** A method of [trade_router] *)
Definition on_router {A} (m : M (TradeRouter.t * World) A) : M t A :=
  fun s =>
    let out := m (trade_router s, world s) in
    (fst out,
     Build (fst (snd out)) (active_agents s) (snd (snd out)) (output s)).

(** A method of an agent *)
Definition on_agent {A} (m : M stdout A) : M t A :=
  fun s =>
    let out := m (output s) in
    (fst out, Build (trade_router s) (active_agents s) (world s) (snd out)).

Definition set_agents
    (f : list (string * agent_object) -> list (string * agent_object))
  : M t unit :=
  modify (fun s =>
    Build (trade_router s) (f (active_agents s)) (world s) (output s)).

(** [raise HTTPException(status_code=..., detail=str(e))] *)
Definition http_error {A} (status_code : Z) (e : exn) : M t (response A) :=
  ret (HTTPException status_code (exn_str e)).

Definition register_platform {O : Outside} {P : Pydantic} {I : Interpreter}
    (credentials : PlatformCredentials.t) : M t (response body) :=
  try_except
    (on_router (TradeRouter.register_platform credentials) ;;
     ret (Return
            (Registered
               (Platform_value (PlatformCredentials.platform credentials)))))
    (http_error 400).

Definition unregister_platform (platform : Platform) : M t (response body) :=
  try_except
    (on_router (TradeRouter.unregister_platform platform) ;;
     ret (Return (Unregistered (Platform_value platform))))
    (http_error 400).

Definition get_all_balances : M t (response body) :=
  try_except
    (balances <- on_router TradeRouter.get_all_balances ;;
     ret (Return
            (Balances
               (map (fun item => (Platform_value (fst item), snd item))
                  balances))))
    (http_error 500).

Definition get_platform_balance (platform : Platform)
    (token : option string) : M t (response body) :=
  try_except
    (balance <- on_router (TradeRouter.get_balance platform token) ;;
     ret (Return (Balance (Platform_value platform) balance)))
    (http_error 500).

Definition execute_trade {P : Pydantic} (trade : TradeRequest.t)
  : M t (response TradeResult.t) :=
  try_except
    (result <- on_router (TradeRouter.execute_trade trade) ;;
     ret (Return result))
    (http_error 500).

Definition create_agent (config : AgentConfig.t) : M t (response body) :=
  try_except
    (agent <- lift_result (get_agent config) ;;
     set_agents (fun agents =>
       dict_set String.eqb agents (AgentConfig.name config) agent) ;;
     ret (Return
            (AgentCreated (AgentConfig.name config)
               (AgentType_value (AgentConfig.agent_type config)))))
    (http_error 400).

(** [agent.generate_trade_decision(...)]: the method of the class of the
    agent. *)
Definition decide {L : Provider} {L' : OpenAIAgent.ChatProvider} {J : Json}
    {P : Pydantic} {I : Interpreter} (agent : agent_object)
    (market_data portfolio : list (string * pyval)) (context : string)
  : M stdout (option TradeRequest.t) :=
  match agent with
  | OpenAIObject a =>
      OpenAIAgent.generate_trade_decision a market_data portfolio context
  | AnthropicObject a =>
      AnthropicAgent.generate_trade_decision a market_data portfolio context
  end.

Definition not_found {A} (agent_name : string) : response A :=
  HTTPException 404 ("Agent " ++ agent_name ++ " not found").

Definition agent_generate_trade {L : Provider}
    {L' : OpenAIAgent.ChatProvider} {J : Json} {P : Pydantic}
    {I : Interpreter} (agent_name : string)
    (market_data portfolio : list (string * pyval)) (context : string)
    (execute : bool) : M t (response body) :=
  agents <- gets active_agents ;;
  match dict_get String.eqb agents agent_name with
  | None => ret (not_found agent_name)
  | Some agent =>
      try_except
        (trade_request <-
           on_agent (decide agent market_data portfolio context) ;;
         match trade_request with
         | None => ret (Return (Hold agent_name))
         | Some trade_request =>
             result <-
               (if execute then
                  result <-
                    on_router (TradeRouter.execute_trade trade_request) ;;
                  ret (Some result)
                else ret None) ;;
             ret (Return (Trade agent_name trade_request result))
         end)
        (http_error 500)
  end.

Definition delete_agent (agent_name : string) : M t (response body) :=
  agents <- gets active_agents ;;
  match dict_get String.eqb agents agent_name with
  | None => ret (not_found agent_name)
  | Some _ =>
      set_agents (fun agents => dict_del String.eqb agents agent_name) ;;
      ret (Return (AgentDeleted ("Agent " ++ agent_name ++ " deleted")))
  end.

Definition shutdown_event : M t unit := on_router TradeRouter.close_all.

End Api.

(* ================================================================== *)
(** * Stand-ins for the outside, to run the model on concrete inputs *)
(* ================================================================== *)

Module Doubles.
Import Py Models Platforms Routers Agents.

(** ** A JSON decoder *)

(** A recursive-descent decoder for JSON text, after the grammar that
    [json.loads] accepts: objects, arrays, strings with the short escapes,
    numbers (an int when there is neither fraction nor exponent, else the
    nearest float), [true], [false], [null], [NaN], [Infinity].  A
    [\u] escape is refused, and the text of an error is not the decoder's
    own.  The fuel bounds the nesting and the number of members; [loads]
    gives it twice the length of the text. *)
Module JsonDecoder.
Definition is_ws (c : ascii) : bool :=
  let n := nat_of_ascii c in
  Nat.eqb n 32 || Nat.eqb n 9 || Nat.eqb n 10 || Nat.eqb n 13.

Fixpoint skip_ws (s : string) : string :=
  match s with
  | String c s' => if is_ws c then skip_ws s' else s
  | EmptyString => s
  end.

Definition digit (c : ascii) : option Z :=
  let n := nat_of_ascii c in
  if Nat.leb 48 n && Nat.leb n 57 then Some (Z.of_nat (n - 48)) else None.

(** The digits at the head of [s]: their value after [acc], how many
    there are, and the rest. *)
Fixpoint digits (s : string) (acc : Z) (count : Z) : Z * Z * string :=
  match s with
  | String c s' =>
      match digit c with
      | Some d => digits s' (10 * acc + d) (count + 1)
      | None => (acc, count, s)
      end
  | EmptyString => (acc, count, s)
  end.

(** The float nearest to [m * 10 ^ e], for [0 <= m]. *)
Definition decimal (negative : bool) (m e : Z) : float :=
  if m =? 0 then S754_zero negative
  else if 0 <=? e then
    binary_normalize prec emax ((if negative then -1 else 1) * m * 10 ^ e)
      0 negative
  else
    let '(q, e', l) := SFdiv_core_binary prec emax m 0 (10 ^ (- e)) 0 in
    binary_round_aux prec emax negative q e' l.

Definition exponent (s : string) : option (Z * string) :=
  match s with
  | String c s' =>
      if Ascii.eqb c "e" || Ascii.eqb c "E" then
        let '(sign, s'') :=
          match s' with
          | String "-" t => (-1, t)
          | String "+" t => (1, t)
          | _ => (1, s')
          end in
        let '(v, n, rest) := digits s'' 0 0 in
        if n =? 0 then None else Some (sign * v, rest)
      else Some (0, s)
  | EmptyString => Some (0, s)
  end.

Definition number (s : string) : option (pyval * string) :=
  let '(negative, s) :=
    match s with
    | String "-" t => (true, t)
    | _ => (false, s)
    end in
  let '(i, n, rest) := digits s 0 0 in
  let leading_zero :=
    match s with String "0" _ => 1 <? n | _ => false end in
  if (n =? 0) || leading_zero then None
  else
    match rest with
    | String "." t =>
        let '(m, k, rest') := digits t i 0 in
        if k =? 0 then None
        else
          match exponent rest' with
          | Some (e, rest'') =>
              Some (PFloat (decimal negative m (e - k)), rest'')
          | None => None
          end
    | String c _ =>
        if Ascii.eqb c "e" || Ascii.eqb c "E" then
          match exponent rest with
          | Some (e, rest') => Some (PFloat (decimal negative i e), rest')
          | None => None
          end
        else Some (PInt (if negative then - i else i), rest)
    | EmptyString => Some (PInt (if negative then - i else i), rest)
    end.

Definition escape (c : ascii) : option ascii :=
  let n := nat_of_ascii c in
  if Nat.eqb n 34 then Some c
  else if Nat.eqb n 92 then Some c
  else if Nat.eqb n 47 then Some c
  else if Ascii.eqb c "b" then Some "008"%char
  else if Ascii.eqb c "f" then Some "012"%char
  else if Ascii.eqb c "n" then Some "010"%char
  else if Ascii.eqb c "r" then Some "013"%char
  else if Ascii.eqb c "t" then Some "009"%char
  else None.

(** The characters up to the closing quote, after the opening one. *)
Fixpoint chars (s : string) : option (string * string) :=
  match s with
  | EmptyString => None
  | String c s' =>
      let n := nat_of_ascii c in
      if Nat.eqb n 34 then Some (EmptyString, s')
      else if Nat.eqb n 92 then
        match s' with
        | String e s'' =>
            match escape e, chars s'' with
            | Some a, Some (t, rest) => Some (String a t, rest)
            | _, _ => None
            end
        | EmptyString => None
        end
      else if Nat.ltb n 32 then None
      else
        match chars s' with
        | Some (t, rest) => Some (String c t, rest)
        | None => None
        end
  end.

Definition literal (word : string) (v : pyval) (s : string)
  : option (pyval * string) :=
  if prefix word s then
    Some (v, substring (String.length word)
               (String.length s - String.length word) s)
  else None.

Fixpoint value (fuel : nat) (s : string) : option (pyval * string) :=
  match fuel with
  | O => None
  | S fuel =>
      match skip_ws s with
      | String c rest =>
          let n := nat_of_ascii c in
          if Ascii.eqb c "{" then
            match skip_ws rest with
            | String "}" rest' => Some (PDict [], rest')
            | rest' => members fuel rest' []
            end
          else if Ascii.eqb c "[" then
            match skip_ws rest with
            | String "]" rest' => Some (PList [], rest')
            | rest' => elements fuel rest' []
            end
          else if Nat.eqb n 34 then
            match chars rest with
            | Some (t, rest') => Some (PStr t, rest')
            | None => None
            end
          else if Ascii.eqb c "t" then
            literal "true" (PBool true) (String c rest)
          else if Ascii.eqb c "f" then
            literal "false" (PBool false) (String c rest)
          else if Ascii.eqb c "n" then literal "null" PNone (String c rest)
          else if Ascii.eqb c "N" then
            literal "NaN" (PFloat S754_nan) (String c rest)
          else if Ascii.eqb c "I" then
            literal "Infinity" (PFloat (S754_infinity false)) (String c rest)
          else if prefix "-Infinity" (String c rest) then
            literal "-Infinity" (PFloat (S754_infinity true)) (String c rest)
          else number (String c rest)
      | EmptyString => None
      end
  end

with members (fuel : nat) (s : string) (acc : list (string * pyval))
  : option (pyval * string) :=
  match fuel with
  | O => None
  | S fuel =>
      match skip_ws s with
      | String q rest =>
          if Nat.eqb (nat_of_ascii q) 34 then
            match chars rest with
            | Some (key, rest) =>
                match skip_ws rest with
                | String ":" rest =>
                    match value fuel rest with
                    | Some (v, rest) =>
                        let acc := dict_set String.eqb acc key v in
                        match skip_ws rest with
                        | String "," rest => members fuel rest acc
                        | String "}" rest => Some (PDict acc, rest)
                        | _ => None
                        end
                    | None => None
                    end
                | _ => None
                end
            | None => None
            end
          else None
      | EmptyString => None
      end
  end

with elements (fuel : nat) (s : string) (acc : list pyval)
  : option (pyval * string) :=
  match fuel with
  | O => None
  | S fuel =>
      match value fuel s with
      | Some (v, rest) =>
          match skip_ws rest with
          | String "," rest => elements fuel rest (acc ++ [v])
          | String "]" rest => Some (PList (acc ++ [v]), rest)
          | _ => None
          end
      | None => None
      end
  end.

Definition loads (s : string) : result pyval :=
  match value (2 * String.length s + 2) s with
  | Some (v, rest) =>
      match skip_ws rest with
      | EmptyString => Ok v
      | _ => Raise (Exn JSONDecodeError "Extra data")
      end
  | None => Raise (Exn JSONDecodeError "Expecting value")
  end.
End JsonDecoder.

(** ** The interpreter and pydantic *)

Definition str_of_int (n : Z) : string := NilZero.string_of_int (Z.to_int n).

(** Renders [None], bools, ints and strs as Python does, and any other
    value as the name of its type; an enum member in an f-string as its
    value (Python 3.10 and 3.11). *)
#[export] Instance interpreter : Interpreter :=
  {| py_str := fun v =>
       match v with
       | PNone => "None"
       | PBool b => if b then "True" else "False"
       | PInt n => str_of_int n
       | PStr s => s
       | _ => "<" ++ type_name v ++ ">"
       end;
     py_repr := fun v =>
       match v with
       | PNone => "None"
       | PBool b => if b then "True" else "False"
       | PInt n => str_of_int n
       | PStr s => "'" ++ s ++ "'"
       | _ => "<" ++ type_name v ++ ">"
       end;
     float_str := fun _ => "<float>";
     enum_format := fun _ _ value => value |}.

(** Converts an int to a float field and refuses any other value that is
    not a float. *)
#[export] Instance pydantic : Pydantic :=
  {| lax_float := fun v =>
       match v with
       | PInt n =>
           match float_of_int n with Ok x => Some x | Raise _ => None end
       | _ => None
       end;
     validation_error_str := fun model fields =>
       str_of_int (Z.of_nat (List.length fields))
       ++ " validation error(s) for " ++ model |}.

(** ** Venues *)

(** A venue that gives every call the same answer, and one that is down.
    Any key decodes to a keypair. *)
Definition venue (answer : result pyval) : Outside :=
  {| respond := fun _ _ => answer;
     keypair_of_base58 := fun key => Ok {| pubkey := key |} |}.

Definition down : Outside :=
  venue (Raise (Exn TransportError "Cannot connect to host")).

(** A venue that accepts every order. *)
Definition accepting : Outside :=
  venue (Ok (PDict [("success", PBool true); ("orderId", PStr "order-1");
                    ("order", PDict [("order_id", PStr "order-1");
                                     ("quantity", PInt 1)])])).

Definition world0 : World := {| now := 0; net_log := [] |}.

Definition credentials (platform : Platform) (private_key : option string)
  : PlatformCredentials.t :=
  PlatformCredentials.Build platform None None None private_key None None [].

Definition request (platform : Platform) (trade_type : TradeType)
    (amount slippage : float) : TradeRequest.t :=
  TradeRequest.Build platform trade_type "SOL/USDC" amount None slippage [].

Definition solana_without_wallet : SolanaAdapter.t :=
  SolanaAdapter.Build (credentials SOLANA None)
    "https://api.mainnet-beta.solana.com" None None.

Definition solana_with_wallet : SolanaAdapter.t :=
  SolanaAdapter.Build (credentials SOLANA (Some "key"))
    "https://api.mainnet-beta.solana.com" None (Some {| pubkey := "key" |}).

Definition polymarket : PolymarketAdapter.t :=
  PolymarketAdapter.Build (credentials POLYMARKET None) None None None None.

Definition kalshi : KalshiAdapter.t :=
  KalshiAdapter.Build (credentials KALSHI None) None None None PNone.

(** ** Adapters for the router *)

(** An adapter whose [get_balance] raises, and one that reports a fixed
    balance; neither has fields. *)
Definition faulty : BasePlatform unit :=
  {| Platforms.execute_trade := fun _ =>
       raise (Exn TransportError "venue unreachable");
     Platforms.get_balance := fun _ =>
       raise (Exn TransportError "venue unreachable");
     Platforms.cancel_order := fun _ => ret (PBool false);
     Platforms.close := ret tt |}.

Definition steady (balances : pyval) : BasePlatform unit :=
  {| Platforms.execute_trade := fun _ =>
       raise (Exn TransportError "venue unreachable");
     Platforms.get_balance := fun _ => ret balances;
     Platforms.cancel_order := fun _ => ret (PBool false);
     Platforms.close := ret tt |}.

(** An adapter whose [close] raises. *)
Definition stuck : BasePlatform unit :=
  {| Platforms.execute_trade := fun _ =>
       raise (Exn TransportError "venue unreachable");
     Platforms.get_balance := fun _ => ret (PDict []);
     Platforms.cancel_order := fun _ => ret (PBool false);
     Platforms.close := raise (Exn TransportError "Session is closed") |}.

Definition router3 : TradeRouter.t :=
  TradeRouter.Build
    [(SOLANA, Object unit (steady (PDict [("SOL", PFloat f_1)])) tt);
     (POLYMARKET, Object unit faulty tt);
     (KALSHI, Object unit (steady (PDict [("USD", PFloat f_100)])) tt)].

(** The same registry with an adapter in the middle whose [close] raises. *)
Definition router_stuck : TradeRouter.t :=
  TradeRouter.Build
    [(SOLANA, Object unit (steady (PDict [("SOL", PFloat f_1)])) tt);
     (POLYMARKET, Object unit stuck tt);
     (KALSHI, Object unit (steady (PDict [("USD", PFloat f_100)])) tt)].

(** A registry as the factory fills it, with a Kalshi adapter at a venue
    that is down. *)
Definition router_of_factory : TradeRouter.t :=
  TradeRouter.Build
    [(KALSHI,
      Object KalshiAdapter.t
        (KalshiAdapter.adapter (O := down) (P := pydantic)) kalshi)].

(** ** The model provider *)

(** A provider whose model always answers with the same text. *)
Definition provider (reply : string) : Provider :=
  {| messages_create := fun _ => Ok [TextBlock reply] |}.

#[export] Instance json : Json := {| json_loads := JsonDecoder.loads |}.

Definition agent : AnthropicAgent.t :=
  AnthropicAgent.Build
    (AgentConfig.Build "claude" ANTHROPIC (Some "key") "claude-3" 
       "You are a trading agent." f_1000 f_0_1 [SOLANA] [])
    "key" "claude-3".

(** A provider whose model always calls the function with the same
    arguments, or never calls it. *)
Definition chat_provider (arguments : option string)
  : OpenAIAgent.ChatProvider :=
  {| OpenAIAgent.completions_create := fun _ =>
       Ok {| OpenAIAgent.function_call := arguments |} |}.

Definition gpt : OpenAIAgent.t :=
  OpenAIAgent.Build
    (AgentConfig.Build "gpt" OPENAI (Some "key") "gpt-4-turbo-preview"
       "You are a trading agent." f_1000 f_0_1 [SOLANA] [])
    "key" "gpt-4-turbo-preview".

(** The two decisions of the format instructions, as the model would
    write them. *)
Definition hold_text : string :=
  "{" ++ quoted "action" ++ ":" ++ quoted "hold" ++ ","
  ++ quoted "reasoning" ++ ":" ++ quoted "flat market" ++ "}".

Definition trade_members : string :=
  quoted "action" ++ ":" ++ quoted "trade" ++ ","
  ++ quoted "platform" ++ ":" ++ quoted "solana" ++ ","
  ++ quoted "trade_type" ++ ":" ++ quoted "swap" ++ ","
  ++ quoted "symbol" ++ ":" ++ quoted "SOL/USDC" ++ ","
  ++ quoted "amount" ++ ":0.1".

Definition trade_text : string := "{" ++ trade_members ++ "}".

(** What [trade_text] decodes to. *)
Definition trade_object : list (string * pyval) :=
  [("action", PStr "trade"); ("platform", PStr "solana");
   ("trade_type", PStr "swap"); ("symbol", PStr "SOL/USDC");
   ("amount", PFloat f_0_1)].

(** A decision outside what the configuration of [agent] allows: Kalshi is
    not among its platforms, and 5000 is above its maximal position size. *)
Definition f_5000 : float := S754_finite false 5497558138880000 (-40).

Definition kalshi_text : string :=
  "{" ++ quoted "action" ++ ":" ++ quoted "trade" ++ ","
  ++ quoted "platform" ++ ":" ++ quoted "kalshi" ++ ","
  ++ quoted "trade_type" ++ ":" ++ quoted "buy" ++ ","
  ++ quoted "symbol" ++ ":" ++ quoted "FED-25" ++ ","
  ++ quoted "amount" ++ ":5000.0,"
  ++ quoted "reasoning" ++ ":" ++ quoted "all in" ++ "}".

Definition kalshi_object : list (string * pyval) :=
  [("action", PStr "trade"); ("platform", PStr "kalshi");
   ("trade_type", PStr "buy"); ("symbol", PStr "FED-25");
   ("amount", PFloat f_5000); ("reasoning", PStr "all in")].

Definition dogecoin_text : string :=
  "{" ++ quoted "action" ++ ":" ++ quoted "trade" ++ ","
  ++ quoted "platform" ++ ":" ++ quoted "dogecoin" ++ ","
  ++ quoted "trade_type" ++ ":" ++ quoted "swap" ++ ","
  ++ quoted "symbol" ++ ":" ++ quoted "DOGE/USDC" ++ ","
  ++ quoted "amount" ++ ":0.1}".

End Doubles.

(* ================================================================== *)
(** * Facts about the runtime *)
(* ================================================================== *)

Module PyFacts.
Import Py.

(** ** Comparison of floats *)




(** ** Computations *)

Lemma try_except_ret_ok {S A} (m : M S A) (d : A) (s : S) :
  exists a s', try_except m (fun _ => ret d) s = (Ok a, s').
Proof.
  unfold try_except, ret. destruct (m s) as [[a|e] s']; eauto.
Qed.

Lemma bind_ok {S A B} (m : M S A) (k : A -> M S B) s a s' :
  m s = (Ok a, s') -> bind m k s = k a s'.
Proof. unfold bind. intros ->. reflexivity. Qed.

Lemma bind_raise {S A B} (m : M S A) (k : A -> M S B) s e s' :
  m s = (Raise e, s') -> bind m k s = (Raise e, s').
Proof. unfold bind. intros ->. reflexivity. Qed.

Lemma try_except_bind_ok {S A B} (m : M S A) (k : A -> M S B) h s a s' :
  m s = (Ok a, s') -> try_except (bind m k) h s = try_except (k a) h s'.
Proof. intros Hm. unfold try_except, bind. rewrite Hm. reflexivity. Qed.

Lemma bind_lift_ok {S A B} (a : A) (k : A -> M S B) :
  bind (lift_result (Ok a)) k = k a.
Proof. reflexivity. Qed.

Lemma bind_ret {S A B} (a : A) (k : A -> M S B) : bind (ret a) k = k a.
Proof. reflexivity. Qed.

(** ** Dictionaries *)

Section DictFacts.
Context {K V : Type} (eqb : K -> K -> bool).
Hypothesis eqb_eq : forall a b, eqb a b = true <-> a = b.

Lemma eqb_refl k : eqb k k = true.
Proof. apply eqb_eq. reflexivity. Qed.

Lemma eqb_neq a b : a <> b -> eqb a b = false.
Proof.
  intros Hne. destruct (eqb a b) eqn:E; [|reflexivity].
  apply eqb_eq in E. contradiction.
Qed.

Lemma dict_get_fresh (d : list (K * V)) k :
  ~ In k (dict_keys d) -> dict_get eqb d k = None.
Proof.
  induction d as [|[k' v] d IH]; simpl; intros Hnot; [reflexivity|].
  rewrite eqb_neq by tauto. apply IH. tauto.
Qed.

Lemma dict_set_fresh (d : list (K * V)) k v :
  ~ In k (dict_keys d) -> dict_set eqb d k v = (d ++ [(k, v)])%list.
Proof.
  induction d as [|[k' v'] d IH]; simpl; intros Hnot; [reflexivity|].
  rewrite eqb_neq by tauto. rewrite IH by tauto. reflexivity.
Qed.

Lemma dict_get_app_l (d d' : list (K * V)) k v :
  dict_get eqb d k = Some v -> dict_get eqb (d ++ d') k = Some v.
Proof.
  induction d as [|[k' v'] d IH]; simpl; [discriminate|].
  destruct (eqb k' k); auto.
Qed.

Lemma dict_get_last (d : list (K * V)) k v :
  ~ In k (dict_keys d) -> dict_get eqb (d ++ [(k, v)]) k = Some v.
Proof.
  induction d as [|[k' v'] d IH]; simpl; intros Hnot.
  - rewrite eqb_refl. reflexivity.
  - rewrite eqb_neq by tauto. apply IH. tauto.
Qed.

Lemma dict_keys_app (d d' : list (K * V)) :
  dict_keys (d ++ d') = (dict_keys d ++ dict_keys d')%list.
Proof. apply map_app. Qed.

Lemma dict_set_keys (d : list (K * V)) k v :
  dict_keys (dict_set eqb d k v)
  = if existsb (fun k' => eqb k' k) (dict_keys d) then dict_keys d
    else (dict_keys d ++ [k])%list.
Proof.
  induction d as [|[k' v'] d IH]; simpl; [reflexivity|].
  destruct (eqb k' k) eqn:E; simpl.
  - apply eqb_eq in E. subst. reflexivity.
  - rewrite IH. destruct (existsb _ _); reflexivity.
Qed.

Lemma dict_set_nodup (d : list (K * V)) k v :
  NoDup (dict_keys d) -> NoDup (dict_keys (dict_set eqb d k v)).
Proof.
  intros Hd. rewrite dict_set_keys.
  destruct (existsb _ _) eqn:E; [exact Hd|].
  apply NoDup_app; [exact Hd|repeat constructor; intros []|].
  intros x Hx [->|[]].
  assert (existsb (fun k' => eqb k' x) (dict_keys d) = true); [|congruence].
  apply existsb_exists. exists x. split; [exact Hx|]. apply eqb_eq.
  reflexivity.
Qed.

Lemma dict_del_keys_incl (d : list (K * V)) k x :
  In x (dict_keys (dict_del eqb d k)) -> In x (dict_keys d).
Proof.
  induction d as [|[k' v'] d IH]; simpl; [tauto|].
  destruct (eqb k' k); simpl; tauto.
Qed.

Lemma dict_del_nodup (d : list (K * V)) k :
  NoDup (dict_keys d) -> NoDup (dict_keys (dict_del eqb d k)).
Proof.
  induction d as [|[k' v'] d IH]; simpl; intros Hd; [constructor|].
  inversion Hd as [|x l Hnot Hrest]; subst.
  destruct (eqb k' k); simpl; [exact Hrest|].
  constructor; [|apply IH; exact Hrest].
  intros Hin. apply Hnot. eapply dict_del_keys_incl. exact Hin.
Qed.

Lemma dict_del_get (d : list (K * V)) k :
  NoDup (dict_keys d) -> dict_get eqb (dict_del eqb d k) k = None.
Proof.
  induction d as [|[k' v'] d IH]; simpl; intros Hd; [reflexivity|].
  inversion Hd as [|x l Hnot Hrest]; subst.
  destruct (eqb k' k) eqn:E; simpl.
  - apply eqb_eq in E. subst.
    apply dict_get_fresh. exact Hnot.
  - rewrite E. apply IH. exact Hrest.
Qed.
End DictFacts.

(** ** Steps that leave the state alone *)

Lemma preserves_ret {S A} (a : A) : preserves (@ret S A a).
Proof. intros s. reflexivity. Qed.

Lemma preserves_lift_result {S A} (r : result A) :
  preserves (@lift_result S A r).
Proof. intros s. reflexivity. Qed.

Lemma preserves_gets {S A} (f : S -> A) : preserves (gets f).
Proof. intros s. reflexivity. Qed.

Lemma preserves_bind {S A B} (m : M S A) (k : A -> M S B) :
  preserves m -> (forall a, preserves (k a)) -> preserves (bind m k).
Proof.
  intros Hm Hk s. unfold bind. specialize (Hm s).
  destruct (m s) as [[a|e] s']; simpl in *; subst s'.
  - apply Hk.
  - reflexivity.
Qed.

Lemma preserves_try_except {S A} (m : M S A) (h : exn -> M S A) :
  preserves m -> (forall e, preserves (h e)) -> preserves (try_except m h).
Proof.
  intros Hm Hh s. unfold try_except. specialize (Hm s).
  destruct (m s) as [[a|e] s']; simpl in *; subst s'.
  - reflexivity.
  - apply Hh.
Qed.

Create HintDb preserves.
#[export] Hint Resolve preserves_ret preserves_lift_result preserves_gets
  : preserves.

Lemma try_except_bind_state {S A B} (m : M S A) (k : A -> M S B) h s :
  (forall a, preserves (k a)) -> (forall e, preserves (h e)) ->
  snd (try_except (bind m k) h s) = snd (m s).
Proof.
  intros Hk Hh. unfold try_except, bind.
  destruct (m s) as [[a|e] s1]; simpl.
  - specialize (Hk a s1). destruct (k a s1) as [[b|e] s2]; simpl in *.
    + assumption.
    + subst s2. apply Hh.
  - apply Hh.
Qed.

Ltac preserving :=
  repeat first
    [ apply preserves_bind
    | apply preserves_ret
    | apply preserves_lift_result
    | apply preserves_gets
    | match goal with
      | |- preserves (if ?b then _ else _) => destruct b
      | |- preserves (match ?x with _ => _ end) => destruct x
      | |- forall _, _ => intro
      end ].

End PyFacts.

(* ================================================================== *)
(** * The adapters *)
(* ================================================================== *)

Module PlatformFacts.
Import Py Py.Notations Models Platforms PyFacts.

(** ** The shared validation *)

Section Validation.
Context {A : Type} (get_balance : option string -> M (A * World) pyval).

(** [validate_trade] never raises. *)
Lemma validate_trade_total (trade : TradeRequest.t) (s : A * World) :
  exists v s', validate_trade get_balance trade s = (Ok v, s').
Proof.
  unfold validate_trade, try_except, bind, ret.
  destruct (get_balance None s) as [[b|e] s']; [|eauto].
  destruct (float_le _ _); [eauto|].
  destruct (_ || _); eauto.
Qed.

(** Once the balance query has answered, the verdict depends on the
    request alone. *)
Lemma validate_trade_verdict (trade : TradeRequest.t) (s s' : A * World) b :
  get_balance None s = (Ok b, s') ->
  validate_trade get_balance trade s =
    (Ok (if well_formed trade then (true, None)
         else (false, Some (refusal_reason trade))), s').
Proof.
  intros Hb. unfold validate_trade, try_except, bind, ret. rewrite Hb.
  unfold well_formed, refusal_reason.
  destruct (float_le _ _); [reflexivity|].
  destruct (_ || _); reflexivity.
Qed.

(** Every reason that [validate_trade] gives is a validation message. *)
Lemma validate_trade_message (trade : TradeRequest.t) (s s' : A * World) msg :
  validate_trade get_balance trade s = (Ok (false, Some msg), s') ->
  validation_message msg = true.
Proof.
  unfold validate_trade, try_except, bind, ret.
  destruct (get_balance None s) as [[b|e] s1].
  - destruct (float_le _ _); [intros [= <- _]; reflexivity|].
    destruct (_ || _); intros [= <- _] || intros [= ]; reflexivity.
  - intros [= <- _]. unfold validation_message.
    apply orb_true_iff. right. unfold startswith. simpl.
    destruct (exn_str e); reflexivity.
Qed.
End Validation.

(** ** The Solana adapter *)

Section Solana.
Context {O : Outside} {P : Pydantic} {I : Interpreter}.

Lemma solana_get_balance_ok token (s : SolanaAdapter.t * World) :
  exists b s', SolanaAdapter.get_balance token s = (Ok b, s').
Proof.
  unfold SolanaAdapter.get_balance, bind, self, gets.
  destruct (SolanaAdapter.wallet (fst s)) as [kp|].
  - apply try_except_ret_ok.
  - unfold ret. eauto.
Qed.

Lemma solana_get_balance_no_wallet token a w :
  SolanaAdapter.wallet a = None ->
  SolanaAdapter.get_balance token (a, w) = (Ok (PDict []), (a, w)).
Proof.
  intros Hw. unfold SolanaAdapter.get_balance, bind, self, gets. simpl.
  rewrite Hw. reflexivity.
Qed.

(** The result of every [execute_trade] on an adapter without a wallet;
    neither the adapter nor the world changes. *)
Lemma solana_execute_no_wallet trade a w :
  SolanaAdapter.wallet a = None ->
  SolanaAdapter.execute_trade trade (a, w) =
    (Ok (TradeResult.Build "" SOLANA FAILED None None None None (now w)
           (Some "Wallet not initialized") []), (a, w)).
Proof.
  intros Hw.
  unfold SolanaAdapter.execute_trade, try_except, bind, self, gets. simpl.
  rewrite Hw. reflexivity.
Qed.

Lemma solana_init_no_key creds :
  truthy (of_optional_str (PlatformCredentials.private_key creds)) = false ->
  exists a0, SolanaAdapter.init creds = Ok a0
             /\ SolanaAdapter.wallet a0 = None
             /\ SolanaAdapter.credentials a0 = creds.
Proof.
  unfold SolanaAdapter.init.
  destruct (PlatformCredentials.private_key creds) as [key|]; simpl.
  - intros Hk. apply negb_false_iff in Hk. rewrite Hk. eauto.
  - eauto.
Qed.
End Solana.

(** ** The Polymarket adapter *)

Section Polymarket.
Context {O : Outside} {P : Pydantic}.

Lemma polymarket_get_balance_ok token (s : PolymarketAdapter.t * World) :
  exists b s', PolymarketAdapter.get_balance token s = (Ok b, s').
Proof. apply try_except_ret_ok. Qed.

Lemma polymarket_make_request_log method endpoint data
    (s : PolymarketAdapter.t * World) :
  exists headers,
    net_log (snd (snd (PolymarketAdapter._make_request method endpoint data s)))
    = (net_log (snd s)
       ++ [HttpRequest method (PolymarketAdapter.BASE_URL ++ endpoint)
             headers data])%list.
Proof.
  unfold PolymarketAdapter._make_request, PolymarketAdapter._get_session,
    bind, self, gets, utcnow, network, set_self, modify, ret.
  destruct (PolymarketAdapter.session (fst s)) as [[[|]]|]; simpl;
    eexists; reflexivity.
Qed.

Lemma polymarket_execute_refused trade (s : PolymarketAdapter.t * World) :
  well_formed trade = false ->
  exists s',
    PolymarketAdapter.execute_trade trade s
    = (Ok (TradeResult.Build "" POLYMARKET FAILED None None None None
             (now (snd s')) (Some (refusal_reason trade)) []), s').
Proof.
  intros Hwf.
  destruct (polymarket_get_balance_ok None s) as (b & s' & Hb).
  exists s'.
  unfold PolymarketAdapter.execute_trade, try_except, bind.
  rewrite (validate_trade_verdict _ trade s s' b Hb), Hwf.
  reflexivity.
Qed.

Lemma polymarket_execute_state trade (s : PolymarketAdapter.t * World) :
  well_formed trade = true ->
  snd (PolymarketAdapter.execute_trade trade s)
  = snd (PolymarketAdapter._make_request "POST" "/orders"
           (PolymarketAdapter.order_data trade)
           (snd (PolymarketAdapter.get_balance None s))).
Proof.
  intros Hwf.
  destruct (polymarket_get_balance_ok None s) as (b & s' & Hb).
  unfold PolymarketAdapter.execute_trade.
  rewrite (try_except_bind_ok _ _ _ _ _ _
             (validate_trade_verdict _ trade s s' b Hb)).
  rewrite Hwf, Hb. cbn [negb snd].
  apply try_except_bind_state; unfold utcnow; preserving.
Qed.
End Polymarket.

(** ** The Kalshi adapter *)

Section Kalshi.
Context {O : Outside} {P : Pydantic}.

Lemma kalshi_get_balance_ok token (s : KalshiAdapter.t * World) :
  exists b s', KalshiAdapter.get_balance token s = (Ok b, s').
Proof. apply try_except_ret_ok. Qed.

Lemma kalshi_make_request_log method endpoint data
    (s : KalshiAdapter.t * World) :
  exists headers log,
    net_log (snd (snd (KalshiAdapter._make_request method endpoint data s)))
    = (log ++ [HttpRequest method (KalshiAdapter.BASE_URL ++ endpoint)
                 headers data])%list.
Proof.
  unfold KalshiAdapter._make_request.
  unfold bind at 1, self at 1, gets at 1.
  assert (Hauth : exists ok s1,
             (if negb (truthy (KalshiAdapter.token (fst s)))
              then KalshiAdapter._authenticate else ret true) s
             = (Ok ok, s1)).
  { destruct (negb _).
    - apply try_except_ret_ok.
    - unfold ret. eauto. }
  destruct Hauth as (ok & s1 & Hauth).
  unfold bind at 1. rewrite Hauth.
  unfold KalshiAdapter._get_session, bind, self, gets, network, set_self,
    modify, ret.
  destruct (KalshiAdapter.session (fst s1)) as [[[|]]|]; simpl;
    eexists; eexists; reflexivity.
Qed.

Lemma kalshi_execute_refused trade (s : KalshiAdapter.t * World) :
  well_formed trade = false ->
  exists s',
    KalshiAdapter.execute_trade trade s
    = (Ok (TradeResult.Build "" KALSHI FAILED None None None None
             (now (snd s')) (Some (refusal_reason trade)) []), s').
Proof.
  intros Hwf.
  destruct (kalshi_get_balance_ok None s) as (b & s' & Hb).
  exists s'.
  unfold KalshiAdapter.execute_trade, try_except, bind.
  rewrite (validate_trade_verdict _ trade s s' b Hb), Hwf.
  reflexivity.
Qed.

(** A request that passes validation and converts is sent as an order
    whose action is the upper-cased trade type. *)
Lemma kalshi_execute_state trade (s : KalshiAdapter.t * World) :
  well_formed trade = true ->
  KalshiAdapter.convertible trade = true ->
  exists order,
    snd (KalshiAdapter.execute_trade trade s)
    = snd (KalshiAdapter._make_request "POST" "/portfolio/orders"
             (PDict order) (snd (KalshiAdapter.get_balance None s)))
    /\ dict_get String.eqb order "ticker"
       = Some (PStr (TradeRequest.symbol trade))
    /\ dict_get String.eqb order "action"
       = Some (PStr (upper (TradeType_value (TradeRequest.trade_type trade)))).
Proof.
  intros Hwf Hconv.
  destruct (kalshi_get_balance_ok None s) as (b & s' & Hb).
  unfold KalshiAdapter.execute_trade.
  rewrite (try_except_bind_ok _ _ _ _ _ _
             (validate_trade_verdict _ trade s s' b Hb)).
  rewrite Hwf, Hb. cbn [negb snd].
  unfold KalshiAdapter.convertible in Hconv.
  apply andb_true_iff in Hconv. destruct Hconv as [Hcount Hprice].
  destruct (int_of_float (TradeRequest.amount trade)) as [count|];
    [|discriminate].
  rewrite bind_lift_ok.
  destruct (TradeRequest.price trade) as [price|].
  - destruct (float_is_zero price); cbn [negb orb] in *.
    + rewrite bind_ret. eexists.
      split; [apply try_except_bind_state; unfold utcnow; preserving|].
      split; reflexivity.
    + destruct (int_of_float (float_mul price f_100)) as [cents|];
        [|discriminate].
      rewrite bind_lift_ok, bind_ret. eexists.
      split; [apply try_except_bind_state; unfold utcnow; preserving|].
      split; reflexivity.
  - rewrite bind_ret. eexists.
    split; [apply try_except_bind_state; unfold utcnow; preserving|].
    split; reflexivity.
Qed.
End Kalshi.

(** ** The Solana adapter with a wallet *)

Section SolanaWallet.
Context {O : Outside} {P : Pydantic} {I : Interpreter}.

Lemma solana_execute_refused trade a w kp :
  SolanaAdapter.wallet a = Some kp ->
  well_formed trade = false ->
  exists s',
    SolanaAdapter.execute_trade trade (a, w)
    = (Ok (TradeResult.Build "" SOLANA FAILED None None None None
             (now (snd s')) (Some (refusal_reason trade)) []), s').
Proof.
  intros Hw Hwf.
  destruct (solana_get_balance_ok None (a, w)) as (b & s' & Hb).
  exists s'.
  unfold SolanaAdapter.execute_trade, try_except.
  unfold bind at 1, self at 1, gets at 1. cbn [fst]. rewrite Hw.
  unfold bind at 1.
  rewrite (validate_trade_verdict _ trade (a, w) s' b Hb), Hwf.
  reflexivity.
Qed.

Lemma solana_get_client_ok (s : SolanaAdapter.t * World) :
  exists c s', SolanaAdapter._get_client s = (Ok c, s')
               /\ now (snd s') = now (snd s).
Proof.
  unfold SolanaAdapter._get_client, bind, self, gets, set_self, modify, ret.
  destruct (SolanaAdapter.client (fst s)); simpl; eauto.
Qed.

Lemma solana_execute_accepted trade a w kp :
  SolanaAdapter.wallet a = Some kp ->
  well_formed trade = true ->
  exists s' ts,
    SolanaAdapter.execute_trade trade (a, w)
    = (Ok (if TradeType_eqb (TradeRequest.trade_type trade) SWAP then
             TradeResult.Build "mock_transaction_signature" SOLANA COMPLETED
               (Some "mock_transaction_signature")
               (Some (TradeRequest.amount trade)) (Some f_1) (Some f_0_0001)
               ts None []
           else
             TradeResult.Build "" SOLANA FAILED None None None None ts
               (Some ("Trade type "
                      ++ TradeType_format (TradeRequest.trade_type trade)
                      ++ " not supported")) []), s').
Proof.
  intros Hw Hwf.
  destruct (solana_get_balance_ok None (a, w)) as (b & s1 & Hb).
  destruct (solana_get_client_ok s1) as (c & s2 & Hc & _).
  exists s2, (now (snd s2)).
  unfold SolanaAdapter.execute_trade, try_except.
  unfold bind at 1, self at 1, gets at 1. cbn [fst]. rewrite Hw.
  unfold bind at 1.
  rewrite (validate_trade_verdict _ trade (a, w) s1 b Hb), Hwf.
  cbn [negb]. unfold bind at 1. rewrite Hc.
  destruct (TradeType_eqb _ _); reflexivity.
Qed.
End SolanaWallet.

(** ** Refusals *)

Lemma refuses_weaken {A}
    (execute : TradeRequest.t -> M (A * World) TradeResult.t) trade
    (R R' : A -> string -> Prop) :
  (forall a msg, R a msg -> R' a msg) ->
  refuses execute trade R -> refuses execute trade R'.
Proof.
  intros HR Hr a w. destruct (Hr a w) as (res & msg & H1 & H2 & H3 & H4).
  exists res, msg. auto.
Qed.

Lemma adapters_refuse {O : Outside} {P : Pydantic} {I : Interpreter} trade :
  well_formed trade = false ->
  refuses PolymarketAdapter.execute_trade trade
    (fun _ msg => msg = refusal_reason trade)
  /\ refuses KalshiAdapter.execute_trade trade
       (fun _ msg => msg = refusal_reason trade)
  /\ refuses SolanaAdapter.execute_trade trade
       (fun a msg =>
          msg = match SolanaAdapter.wallet a with
                | Some _ => refusal_reason trade
                | None => "Wallet not initialized"
                end).
Proof.
  intros Hwf. split; [|split]; intros a w.
  - destruct (polymarket_execute_refused trade (a, w) Hwf) as (s' & ->).
    eexists. eexists. repeat split.
  - destruct (kalshi_execute_refused trade (a, w) Hwf) as (s' & ->).
    eexists. eexists. repeat split.
  - destruct (SolanaAdapter.wallet a) as [kp|] eqn:Hw.
    + destruct (solana_execute_refused trade a w kp Hw Hwf) as (s' & ->).
      eexists. eexists. repeat split.
    + rewrite (solana_execute_no_wallet trade a w Hw).
      eexists. eexists. repeat split.
Qed.

(** C2 (as amended).  For every TradeRequest with [amount <= 0],
    [execute_trade] returns, without raising, a TradeResult with status
    FAILED on every adapter: the error is the validation message "Amount
    must be positive" on the Polymarket adapter, on the Kalshi adapter and
    on a Solana adapter that holds a wallet; a Solana adapter without a
    wallet answers "Wallet not initialized", which is not a validation
    message. *)
Theorem nonpositive_amount_refused {O : Outside} {P : Pydantic}
    {I : Interpreter} (trade : TradeRequest.t) :
  float_le (TradeRequest.amount trade) f_0 = true ->
  refuses PolymarketAdapter.execute_trade trade
    (fun _ msg => msg = "Amount must be positive")
  /\ refuses KalshiAdapter.execute_trade trade
       (fun _ msg => msg = "Amount must be positive")
  /\ refuses SolanaAdapter.execute_trade trade
       (fun a msg =>
          msg = match SolanaAdapter.wallet a with
                | Some _ => "Amount must be positive"
                | None => "Wallet not initialized"
                end)
  /\ validation_message "Amount must be positive" = true
  /\ validation_message "Wallet not initialized" = false.
Proof.
  intros Hamount.
  assert (Hwf : well_formed trade = false).
  { unfold well_formed. rewrite Hamount. reflexivity. }
  assert (Hreason : refusal_reason trade = "Amount must be positive").
  { unfold refusal_reason. rewrite Hamount. reflexivity. }
  destruct (adapters_refuse trade Hwf) as (Hp & Hk & Hs).
  rewrite Hreason in Hp, Hk.
  repeat split; try assumption.
  eapply refuses_weaken; [|exact Hs].
  intros a msg. rewrite Hreason. auto.
Qed.

Lemma nonpositive_amount_refused_witness :
  float_le (TradeRequest.amount (Doubles.request KALSHI BUY f_0 f_0_01)) f_0
  = true
  /\ refuses
       (KalshiAdapter.execute_trade (O := Doubles.down) (P := Doubles.pydantic))
       (Doubles.request KALSHI BUY f_0 f_0_01)
       (fun _ msg => msg = "Amount must be positive").
Proof.
  split; [reflexivity|].
  exact (proj1 (proj2 (@nonpositive_amount_refused Doubles.down
                         Doubles.pydantic Doubles.interpreter
                         (Doubles.request KALSHI BUY f_0 f_0_01) eq_refl))).
Defined.

(** C2 as stated fails: the request has [amount <= 0], and on a Solana
    adapter without a wallet the error of the result is not a validation
    message. *)
Lemma nonpositive_amount_counterexample :
  float_le (TradeRequest.amount (Doubles.request SOLANA SWAP f_0 f_0_01)) f_0
  = true
  /\ ~ refuses
         (SolanaAdapter.execute_trade (O := Doubles.down)
            (P := Doubles.pydantic) (I := Doubles.interpreter))
         (Doubles.request SOLANA SWAP f_0 f_0_01)
         (fun _ msg => validation_message msg = true).
Proof.
  split; [reflexivity|]. intros Hr.
  destruct (Hr Doubles.solana_without_wallet Doubles.world0)
    as (res & msg & Hres & _ & Hmsg & Hvalid).
  vm_compute in Hres. injection Hres as <-.
  injection Hmsg as <-. discriminate Hvalid.
Qed.

(** C6 (as amended).  For every TradeRequest with [slippage < 0] or
    [slippage > 1], [execute_trade] returns, without raising, a TradeResult
    with status FAILED on every adapter: on the Polymarket adapter, on the
    Kalshi adapter and on a Solana adapter that holds a wallet the error is
    a validation message, "Slippage must be between 0 and 1" unless the
    amount is not positive either, and then "Amount must be positive"; a
    Solana adapter without a wallet answers "Wallet not initialized". *)
Theorem slippage_out_of_range_refused {O : Outside} {P : Pydantic}
    {I : Interpreter} (trade : TradeRequest.t) :
  float_lt (TradeRequest.slippage trade) f_0
  || float_lt f_1 (TradeRequest.slippage trade) = true ->
  refuses PolymarketAdapter.execute_trade trade
    (fun _ msg => msg = refusal_reason trade)
  /\ refuses KalshiAdapter.execute_trade trade
       (fun _ msg => msg = refusal_reason trade)
  /\ refuses SolanaAdapter.execute_trade trade
       (fun a msg =>
          msg = match SolanaAdapter.wallet a with
                | Some _ => refusal_reason trade
                | None => "Wallet not initialized"
                end)
  /\ validation_message (refusal_reason trade) = true
  /\ validation_message "Wallet not initialized" = false
  /\ (float_le (TradeRequest.amount trade) f_0 = false ->
      refusal_reason trade = "Slippage must be between 0 and 1").
Proof.
  intros Hslip.
  assert (Hwf : well_formed trade = false).
  { unfold well_formed. rewrite Hslip. apply andb_false_r. }
  destruct (adapters_refuse trade Hwf) as (Hp & Hk & Hs).
  repeat split; try assumption.
  - unfold refusal_reason. destruct (float_le _ _); reflexivity.
  - unfold refusal_reason. intros ->. reflexivity.
Qed.

Lemma slippage_out_of_range_refused_witness :
  float_lt (TradeRequest.slippage (Doubles.request POLYMARKET BUY f_1 f_100))
    f_0
  || float_lt f_1
       (TradeRequest.slippage (Doubles.request POLYMARKET BUY f_1 f_100))
  = true
  /\ refuses
       (PolymarketAdapter.execute_trade (O := Doubles.down)
          (P := Doubles.pydantic))
       (Doubles.request POLYMARKET BUY f_1 f_100)
       (fun _ msg => msg = "Slippage must be between 0 and 1").
Proof.
  split; [reflexivity|].
  exact (proj1 (@slippage_out_of_range_refused Doubles.down Doubles.pydantic
                  Doubles.interpreter
                  (Doubles.request POLYMARKET BUY f_1 f_100) eq_refl)).
Defined.

(** C6 as stated fails: the request has [slippage > 1], and on a Solana
    adapter without a wallet the error of the result is not a validation
    message. *)
Lemma slippage_out_of_range_counterexample :
  float_lt f_1 (TradeRequest.slippage (Doubles.request SOLANA SWAP f_1 f_100))
  = true
  /\ ~ refuses
         (SolanaAdapter.execute_trade (O := Doubles.down)
            (P := Doubles.pydantic) (I := Doubles.interpreter))
         (Doubles.request SOLANA SWAP f_1 f_100)
         (fun _ msg => validation_message msg = true).
Proof.
  split; [reflexivity|]. intros Hr.
  destruct (Hr Doubles.solana_without_wallet Doubles.world0)
    as (res & msg & Hres & _ & Hmsg & Hvalid).
  vm_compute in Hres. injection Hres as <-.
  injection Hmsg as <-. discriminate Hvalid.
Qed.

Lemma solana_execute_total {O : Outside} {P : Pydantic} {I : Interpreter}
    trade a w :
  exists res s',
    SolanaAdapter.execute_trade trade (a, w) = (Ok res, s')
    /\ (TradeRequest.trade_type trade <> SWAP ->
        TradeResult.status res = FAILED)
    /\ (SolanaAdapter.wallet a <> None -> well_formed trade = true ->
        if TradeType_eqb (TradeRequest.trade_type trade) SWAP then
          TradeResult.status res = COMPLETED
          /\ TradeResult.trade_id res = "mock_transaction_signature"
          /\ TradeResult.executed_amount res
             = Some (TradeRequest.amount trade)
        else
          TradeResult.error res
          = Some ("Trade type "
                  ++ TradeType_format (TradeRequest.trade_type trade)
                  ++ " not supported")).
Proof.
  destruct (SolanaAdapter.wallet a) as [kp|] eqn:Hw.
  - destruct (well_formed trade) eqn:Hwf.
    + destruct (solana_execute_accepted trade a w kp Hw Hwf)
        as (s' & ts & ->).
      eexists. eexists. split; [reflexivity|]. split.
      * intros Hne.
        destruct (TradeRequest.trade_type trade); try reflexivity.
        contradiction.
      * intros _ _. destruct (TradeType_eqb _ _); repeat split.
    + destruct (solana_execute_refused trade a w kp Hw Hwf) as (s' & ->).
      eexists. eexists. split; [reflexivity|]. split.
      * reflexivity.
      * discriminate.
  - rewrite (solana_execute_no_wallet trade a w Hw).
    eexists. eexists. split; [reflexivity|]. split.
    + reflexivity.
    + congruence.
Qed.

(** What each adapter makes of the trade type.  The Solana adapter honors
    only swap: a buy or a sell always gets a TradeResult with status FAILED,
    and a swap that passes the wallet and validation checks is COMPLETED.
    The Polymarket and the Kalshi adapter have no check of the trade type:
    a request of any trade type that passes validation (and, for Kalshi,
    whose amount and limit price convert to ints) is posted as an order. *)
Lemma trade_types_at_the_adapters {O : Outside} {P : Pydantic} {I : Interpreter}
    (trade : TradeRequest.t) :
  (forall a w, exists res s',
      SolanaAdapter.execute_trade trade (a, w) = (Ok res, s')
      /\ (TradeRequest.trade_type trade <> SWAP ->
          TradeResult.status res = FAILED)
      /\ (SolanaAdapter.wallet a <> None -> well_formed trade = true ->
          if TradeType_eqb (TradeRequest.trade_type trade) SWAP then
            TradeResult.status res = COMPLETED
            /\ TradeResult.trade_id res = "mock_transaction_signature"
            /\ TradeResult.executed_amount res
               = Some (TradeRequest.amount trade)
          else
            TradeResult.error res
            = Some ("Trade type "
                    ++ TradeType_format (TradeRequest.trade_type trade)
                    ++ " not supported")))
  /\ (well_formed trade = true ->
      forall s, exists headers log,
        net_log (snd (snd (PolymarketAdapter.execute_trade trade s)))
        = (log ++ [HttpRequest "POST"
                     (PolymarketAdapter.BASE_URL ++ "/orders") headers
                     (PolymarketAdapter.order_data trade)])%list)
  /\ (well_formed trade = true ->
      KalshiAdapter.convertible trade = true ->
      forall s, exists headers log order,
        net_log (snd (snd (KalshiAdapter.execute_trade trade s)))
        = (log ++ [HttpRequest "POST"
                     (KalshiAdapter.BASE_URL ++ "/portfolio/orders") headers
                     (PDict order)])%list
        /\ dict_get String.eqb order "ticker"
           = Some (PStr (TradeRequest.symbol trade))
        /\ dict_get String.eqb order "action"
           = Some (PStr (upper (TradeType_value
                                  (TradeRequest.trade_type trade)))))
  /\ upper (TradeType_value SWAP) = "SWAP".
Proof.
  split; [|split; [|split]].
  - intros a w. apply solana_execute_total.
  - intros Hwf s. rewrite (polymarket_execute_state trade s Hwf).
    destruct (polymarket_make_request_log "POST" "/orders"
                (PolymarketAdapter.order_data trade)
                (snd (PolymarketAdapter.get_balance None s)))
      as (headers & Hlog).
    exists headers. eexists. exact Hlog.
  - intros Hwf Hconv s.
    destruct (kalshi_execute_state trade s Hwf Hconv)
      as (order & -> & Hticker & Haction).
    destruct (kalshi_make_request_log "POST" "/portfolio/orders"
                (PDict order) (snd (KalshiAdapter.get_balance None s)))
      as (headers & log & Hlog).
    exists headers, log, order. auto.
  - reflexivity.
Qed.


(** C5.  The claim holds of the Solana adapter and fails of the two order
    venues, whose [execute_trade] has no check of the trade type.  At a
    venue that accepts orders, a swap of 1.0 SOL/USDC is not rejected: the
    Polymarket adapter posts it as a SELL order and the Kalshi adapter posts
    it with the action "SWAP", and both return a COMPLETED result.  The
    side of a Polymarket order is "BUY" for a buy and "SELL" for every
    other trade type, so a swap is sold.  The Solana adapter, in the same
    place of its own [execute_trade], returns a FAILED result for every
    trade type that it does not support. *)
Theorem swap_is_posted_as_an_order :
  (exists res s' headers,
      PolymarketAdapter.execute_trade (O := Doubles.accepting)
        (P := Doubles.pydantic) (Doubles.request POLYMARKET SWAP f_1 f_0_01)
        (Doubles.polymarket, Doubles.world0) = (Ok res, s')
      /\ TradeResult.status res = COMPLETED
      /\ In (HttpRequest "POST" (PolymarketAdapter.BASE_URL ++ "/orders")
               headers
               (PDict [("market", PStr "SOL/USDC"); ("side", PStr "SELL");
                       ("size", PFloat f_1); ("price", PNone);
                       ("type", PStr "MARKET")]))
           (net_log (snd s')))
  /\ (exists res s' headers,
         KalshiAdapter.execute_trade (O := Doubles.accepting)
           (P := Doubles.pydantic) (Doubles.request KALSHI SWAP f_1 f_0_01)
           (Doubles.kalshi, Doubles.world0) = (Ok res, s')
         /\ TradeResult.status res = COMPLETED
         /\ In (HttpRequest "POST"
                  (KalshiAdapter.BASE_URL ++ "/portfolio/orders") headers
                  (PDict [("ticker", PStr "SOL/USDC");
                          ("action", PStr "SWAP"); ("count", PInt 1);
                          ("type", PStr "market"); ("side", PStr "yes")]))
              (net_log (snd s')))
  /\ (forall trade,
         TradeRequest.trade_type trade <> BUY ->
         dict_get_default
           match PolymarketAdapter.order_data trade with
           | PDict d => d
           | _ => []
           end "side" PNone = PStr "SELL")
  /\ (forall (O : Outside) (P : Pydantic) (I : Interpreter) trade a w,
         TradeRequest.trade_type trade <> SWAP ->
         exists res s',
           SolanaAdapter.execute_trade trade (a, w) = (Ok res, s')
           /\ TradeResult.status res = FAILED).
Proof.
  split; [|split; [|split]].
  - eexists. eexists. eexists. split; [vm_compute; reflexivity|].
    split; [reflexivity|]. right. left. reflexivity.
  - eexists. eexists. eexists. split; [vm_compute; reflexivity|].
    split; [reflexivity|]. right. right. right. left. reflexivity.
  - intros trade Hne. unfold PolymarketAdapter.order_data, dict_get_default.
    destruct (TradeRequest.trade_type trade); [contradiction| |];
      reflexivity.
  - intros O P I trade a w Hne.
    destruct (solana_execute_total trade a w) as (res & s' & Hrun & Hfail & _).
    exists res, s'. split; [exact Hrun|apply Hfail; exact Hne].
Qed.

(** C3. A SolanaAdapter constructed from credentials without a private key
    ([None] or the empty string) has no wallet.  On an adapter without a
    wallet every [execute_trade] returns a TradeResult with status FAILED
    whose error is the text "Wallet not initialized" ("wallet not
    initialized" when put in lower case); the call sends nothing over the
    network and leaves the adapter as it was, as does [get_balance], which
    reports nothing.  [cancel_order] returns [False] for every order id. *)
Theorem solana_without_private_key {O : Outside} {P : Pydantic}
    {I : Interpreter} (creds : PlatformCredentials.t) :
  truthy (of_optional_str (PlatformCredentials.private_key creds)) = false ->
  exists a0,
    SolanaAdapter.init creds = Ok a0 /\ SolanaAdapter.wallet a0 = None /\
    forall a, SolanaAdapter.wallet a = None ->
      (forall trade w, exists res msg,
          SolanaAdapter.execute_trade trade (a, w) = (Ok res, (a, w))
          /\ TradeResult.status res = FAILED
          /\ TradeResult.error res = Some msg
          /\ msg = "Wallet not initialized"
          /\ lower msg = "wallet not initialized"
          /\ net_log (snd (snd (SolanaAdapter.execute_trade trade (a, w))))
             = net_log w)
      /\ (forall order_id w,
             SolanaAdapter.cancel_order order_id (a, w)
             = (Ok (PBool false), (a, w)))
      /\ (forall token w,
             SolanaAdapter.get_balance token (a, w)
             = (Ok (PDict []), (a, w))).
Proof.
  intros Hkey.
  destruct (solana_init_no_key creds Hkey) as (a0 & Hinit & Hwallet & _).
  exists a0. split; [exact Hinit|]. split; [exact Hwallet|].
  intros a Ha. split; [|split].
  - intros trade w. rewrite (solana_execute_no_wallet trade a w Ha).
    eexists. eexists. repeat split.
  - reflexivity.
  - intros token w. apply solana_get_balance_no_wallet. exact Ha.
Qed.

Lemma solana_without_private_key_witness :
  exists a0,
    SolanaAdapter.init (O := Doubles.down) (Doubles.credentials SOLANA None)
    = Ok a0
    /\ SolanaAdapter.wallet a0 = None.
Proof.
  destruct (@solana_without_private_key Doubles.down Doubles.pydantic
              Doubles.interpreter (Doubles.credentials SOLANA None)
              eq_refl) as (a0 & Hinit & Hwallet & _).
  exists a0. split; assumption.
Defined.

(** C10. In the Solana adapter the wallet check comes before the
    validation: without a wallet, [execute_trade] answers every request
    with the error "Wallet not initialized", which is not one of the
    validation messages, also when the request has [amount <= 0] and
    [validate_trade] on the same adapter would refuse it with "Amount must
    be positive". *)
Theorem wallet_check_precedes_validation {O : Outside} {P : Pydantic}
    {I : Interpreter} (a : SolanaAdapter.t) (trade : TradeRequest.t)
    (w : World) :
  SolanaAdapter.wallet a = None ->
  (exists res,
      SolanaAdapter.execute_trade trade (a, w) = (Ok res, (a, w))
      /\ TradeResult.status res = FAILED
      /\ TradeResult.error res = Some "Wallet not initialized")
  /\ (forall res msg,
         fst (SolanaAdapter.execute_trade trade (a, w)) = Ok res ->
         TradeResult.error res = Some msg ->
         validation_message msg = false)
  /\ (float_le (TradeRequest.amount trade) f_0 = true ->
      validate_trade SolanaAdapter.get_balance trade (a, w)
      = (Ok (false, Some "Amount must be positive"), (a, w))).
Proof.
  intros Ha. rewrite (solana_execute_no_wallet trade a w Ha).
  split; [|split].
  - eexists. repeat split.
  - simpl. intros res msg [= <-]. simpl. intros [= <-]. reflexivity.
  - intros Hamount.
    rewrite (validate_trade_verdict _ trade _ _ _
               (solana_get_balance_no_wallet None a w Ha)).
    unfold well_formed, refusal_reason. rewrite Hamount. reflexivity.
Qed.

Lemma wallet_check_precedes_validation_witness :
  float_le (TradeRequest.amount (Doubles.request SOLANA SWAP f_0 f_0_01)) f_0
  = true
  /\ exists res,
      SolanaAdapter.execute_trade (O := Doubles.down)
        (P := Doubles.pydantic) (I := Doubles.interpreter)
        (Doubles.request SOLANA SWAP f_0 f_0_01)
        (Doubles.solana_without_wallet, Doubles.world0)
      = (Ok res, (Doubles.solana_without_wallet, Doubles.world0))
      /\ TradeResult.status res = FAILED
      /\ TradeResult.error res = Some "Wallet not initialized".
Proof.
  split; [reflexivity|].
  exact (proj1 (@wallet_check_precedes_validation Doubles.down
                  Doubles.pydantic Doubles.interpreter
                  Doubles.solana_without_wallet
                  (Doubles.request SOLANA SWAP f_0 f_0_01) Doubles.world0
                  eq_refl)).
Defined.

End PlatformFacts.

(* ================================================================== *)
(** * The router *)
(* ================================================================== *)

Module RouterFacts.
Import Py Py.Notations Models Platforms Routers PyFacts.

Lemma Platform_eqb_eq (a b : Platform) : Platform_eqb a b = true <-> a = b.
Proof. destruct a, b; simpl; split; congruence. Qed.

(** ** The loop of [get_all_balances] *)

Lemma get_balance_step (p : Platform) (a : adapter_object)
    (s : TradeRouter.t * World) :
  exists s',
    try_except
      (TradeRouter.call p a (fun A cls => Platforms.get_balance None))
      (fun _ => ret (PDict [])) s
    = (Ok (TradeRouter.balances_or_empty a (snd s)), s').
Proof.
  unfold try_except, TradeRouter.call, TradeRouter.balances_or_empty, ret.
  destruct (Platforms.get_balance None (fields a, snd s)) as [[b|e] s'];
    simpl; eauto.
Qed.

Lemma collect_balances_spec (items : list (Platform * adapter_object)) :
  forall (acc : list (Platform * pyval)) (s : TradeRouter.t * World),
    NoDup (dict_keys acc ++ dict_keys items) ->
    exists balances s',
      TradeRouter.collect_balances items acc s = (Ok balances, s')
      /\ dict_keys balances = (dict_keys acc ++ dict_keys items)%list
      /\ (forall p v, dict_get Platform_eqb acc p = Some v ->
                      dict_get Platform_eqb balances p = Some v)
      /\ (forall p a, In (p, a) items ->
            exists w',
              dict_get Platform_eqb balances p
              = Some (TradeRouter.balances_or_empty a w')).
Proof.
  induction items as [|[p a] items IH]; intros acc s Hnodup.
  - exists acc, s. simpl. rewrite app_nil_r. repeat split; auto.
    intros p a [].
  - simpl in Hnodup.
    assert (Hfresh : ~ In p (dict_keys acc)).
    { intros Hin. apply NoDup_remove_2 in Hnodup. apply Hnodup.
      apply in_or_app. left. exact Hin. }
    destruct (get_balance_step p a s) as (s1 & Hstep).
    cbn [TradeRouter.collect_balances]. unfold bind at 1. rewrite Hstep.
    rewrite (dict_set_fresh Platform_eqb Platform_eqb_eq acc p _ Hfresh).
    destruct (IH (acc ++ [(p, TradeRouter.balances_or_empty a (snd s))])%list
                s1) as (balances & s' & Hrun & Hkeys & Hacc & Hitems).
    { rewrite dict_keys_app. simpl. rewrite <- app_assoc. exact Hnodup. }
    exists balances, s'. split; [exact Hrun|]. split; [|split].
    + rewrite Hkeys, dict_keys_app. simpl. rewrite <- app_assoc. reflexivity.
    + intros q v Hq. apply Hacc. apply dict_get_app_l. exact Hq.
    + intros q b [Heq|Hin].
      * injection Heq as <- <-. exists (snd s). apply Hacc.
        apply (dict_get_last Platform_eqb Platform_eqb_eq). exact Hfresh.
      * apply Hitems. exact Hin.
Qed.

(** ** The registry *)

(** The registry keeps one entry per platform. *)
Lemma init_nodup : NoDup (dict_keys (TradeRouter.platforms TradeRouter.init)).
Proof. constructor. Qed.

Lemma register_platform_nodup {O : Outside} {P : Pydantic} {I : Interpreter}
    credentials (s : TradeRouter.t * World) :
  NoDup (dict_keys (TradeRouter.platforms (fst s))) ->
  NoDup (dict_keys
           (TradeRouter.platforms
              (fst (snd (TradeRouter.register_platform credentials s))))).
Proof.
  intros Hs. unfold TradeRouter.register_platform, bind, lift_result,
    set_self, modify.
  destruct (get_platform_adapter credentials); simpl; [|exact Hs].
  apply (dict_set_nodup Platform_eqb Platform_eqb_eq). exact Hs.
Qed.

Lemma unregister_platform_nodup platform (s : TradeRouter.t * World) :
  NoDup (dict_keys (TradeRouter.platforms (fst s))) ->
  NoDup (dict_keys
           (TradeRouter.platforms
              (fst (snd (TradeRouter.unregister_platform platform s))))).
Proof.
  intros Hs. unfold TradeRouter.unregister_platform, bind, self, gets,
    set_self, modify, ret.
  destruct (dict_get _ _ _); simpl; [|exact Hs].
  apply dict_del_nodup. exact Hs.
Qed.

(** [unregister_platform] on a platform without an adapter does nothing. *)
Lemma unregister_platform_absent platform (s : TradeRouter.t * World) :
  dict_get Platform_eqb (TradeRouter.platforms (fst s)) platform = None ->
  TradeRouter.unregister_platform platform s = (Ok tt, s).
Proof.
  intros Hnone. unfold TradeRouter.unregister_platform, bind, self, gets.
  rewrite Hnone. reflexivity.
Qed.

(** After [unregister_platform], the platform has no adapter. *)
Lemma unregister_platform_unregistered platform (s : TradeRouter.t * World) :
  NoDup (dict_keys (TradeRouter.platforms (fst s))) ->
  dict_get Platform_eqb
    (TradeRouter.platforms
       (fst (snd (TradeRouter.unregister_platform platform s)))) platform
  = None.
Proof.
  intros Hs. unfold TradeRouter.unregister_platform, bind, self, gets,
    set_self, modify, ret.
  destruct (dict_get Platform_eqb (TradeRouter.platforms (fst s)) platform)
    eqn:E; simpl; [|exact E].
  apply (dict_del_get Platform_eqb Platform_eqb_eq). exact Hs.
Qed.

(** C1.  When no adapter is registered for the platform of a TradeRequest
    at dispatch time, [TradeRouter.execute_trade] does not raise: it returns
    a TradeResult with status FAILED whose error, "Platform <value> not
    registered", mentions "not registered"; the registry and the world are
    left as they were. *)
Theorem unregistered_platform_fails {P : Pydantic} (r : TradeRouter.t)
    (w : World) (trade : TradeRequest.t) :
  dict_get Platform_eqb (TradeRouter.platforms r)
    (TradeRequest.platform trade) = None ->
  exists res msg,
    TradeRouter.execute_trade trade (r, w) = (Ok res, (r, w))
    /\ TradeResult.status res = FAILED
    /\ TradeResult.platform res = TradeRequest.platform trade
    /\ TradeResult.error res = Some msg
    /\ msg = "Platform " ++ Platform_value (TradeRequest.platform trade)
             ++ " not registered"
    /\ contains "not registered" msg = true.
Proof.
  intros Hnone.
  unfold TradeRouter.execute_trade, bind, self, gets. cbn [fst].
  rewrite Hnone.
  eexists. eexists. split; [reflexivity|]. cbn.
  repeat split.
  destruct (TradeRequest.platform trade); reflexivity.
Qed.

Lemma unregistered_platform_fails_witness :
  exists res,
    TradeRouter.execute_trade (P := Doubles.pydantic)
      (Doubles.request KALSHI BUY f_1 f_0_01)
      (TradeRouter.init, Doubles.world0)
    = (Ok res, (TradeRouter.init, Doubles.world0))
    /\ TradeResult.status res = FAILED
    /\ TradeResult.error res = Some "Platform kalshi not registered".
Proof.
  destruct (@unregistered_platform_fails Doubles.pydantic TradeRouter.init
              Doubles.world0 (Doubles.request KALSHI BUY f_1 f_0_01) eq_refl)
    as (res & msg & Hrun & Hstatus & _ & Herror & Hmsg & _).
  exists res. rewrite Herror, Hmsg. repeat split; assumption.
Defined.

(** The loop of [get_all_balances], with the world of every turn. *)
Lemma get_balance_turn (p : Platform) (a : adapter_object)
    (s : TradeRouter.t * World) :
  exists r',
    try_except
      (TradeRouter.call p a (fun A cls => Platforms.get_balance None))
      (fun _ => ret (PDict [])) s
    = (Ok (TradeRouter.balances_or_empty a (snd s)),
       (r', TradeRouter.world_after_balances [(p, a)] (snd s))).
Proof.
  unfold try_except, TradeRouter.call, TradeRouter.balances_or_empty, ret.
  cbn [TradeRouter.world_after_balances].
  destruct (Platforms.get_balance None (fields a, snd s)) as [[b|e] s'];
    simpl; eauto.
Qed.

Lemma collect_balances_turns (items : list (Platform * adapter_object)) :
  forall (acc : list (Platform * pyval)) (s : TradeRouter.t * World),
    NoDup (dict_keys acc ++ dict_keys items) ->
    exists balances r',
      TradeRouter.collect_balances items acc s
      = (Ok balances,
         (r', TradeRouter.world_after_balances items (snd s)))
      /\ dict_keys balances = (dict_keys acc ++ dict_keys items)%list
      /\ (forall p v, dict_get Platform_eqb acc p = Some v ->
                      dict_get Platform_eqb balances p = Some v)
      /\ (forall before p a after,
            items = (before ++ (p, a) :: after)%list ->
            dict_get Platform_eqb balances p
            = Some (TradeRouter.balances_or_empty a
                      (TradeRouter.world_after_balances before (snd s)))).
Proof.
  induction items as [|[p a] items IH]; intros acc s Hnodup.
  - exists acc, (fst s). simpl. rewrite app_nil_r.
    split; [destruct s; reflexivity|]. split; [reflexivity|].
    split; [auto|]. intros [|x before] q b after Heq; discriminate.
  - simpl in Hnodup.
    assert (Hfresh : ~ In p (dict_keys acc)).
    { intros Hin. apply NoDup_remove_2 in Hnodup. apply Hnodup.
      apply in_or_app. left. exact Hin. }
    destruct (get_balance_turn p a s) as (r1 & Hstep).
    cbn [TradeRouter.collect_balances]. unfold bind at 1. rewrite Hstep.
    rewrite (dict_set_fresh Platform_eqb Platform_eqb_eq acc p _ Hfresh).
    destruct (IH (acc ++ [(p, TradeRouter.balances_or_empty a (snd s))])%list
                (r1, TradeRouter.world_after_balances [(p, a)] (snd s)))
      as (balances & r' & Hrun & Hkeys & Hacc & Hitems).
    { rewrite dict_keys_app. simpl. rewrite <- app_assoc. exact Hnodup. }
    exists balances, r'. split; [exact Hrun|]. split; [|split].
    + rewrite Hkeys, dict_keys_app. simpl. rewrite <- app_assoc. reflexivity.
    + intros q v Hq. apply Hacc. apply dict_get_app_l. exact Hq.
    + intros [|x before] q b after Heq.
      * injection Heq as <- <- _. apply Hacc.
        apply (dict_get_last Platform_eqb Platform_eqb_eq). exact Hfresh.
      * injection Heq as <- Heq.
        apply (Hitems before q b after Heq).
Qed.

(** C7.  For a router with N registered platforms, [get_all_balances] does
    not raise and returns a mapping with exactly N entries, one per
    registered platform, in the order of registration.  Every adapter is
    asked once, in that order, each in the world that the adapters before
    it have left: the entry of a platform is what its adapter's
    [get_balance] returns in that world, and the empty mapping when it
    raises there; the platforms after a faulting one are asked and
    collected all the same, and the world that is left is the one after the
    call of the last adapter. *)
Theorem get_all_balances_one_entry_per_platform (r : TradeRouter.t)
    (w : World) :
  NoDup (dict_keys (TradeRouter.platforms r)) ->
  exists balances r',
    TradeRouter.get_all_balances (r, w)
    = (Ok balances,
       (r', TradeRouter.world_after_balances (TradeRouter.platforms r) w))
    /\ dict_keys balances = dict_keys (TradeRouter.platforms r)
    /\ length balances = length (TradeRouter.platforms r)
    /\ forall before p a after,
         TradeRouter.platforms r = (before ++ (p, a) :: after)%list ->
         match fst (@Platforms.get_balance (class_of a) (methods a) None
                      (fields a,
                       TradeRouter.world_after_balances before w)) with
         | Ok b => dict_get Platform_eqb balances p = Some b
         | Raise _ => dict_get Platform_eqb balances p = Some (PDict [])
         end.
Proof.
  intros Hnodup.
  destruct (collect_balances_turns (TradeRouter.platforms r) [] (r, w) Hnodup)
    as (balances & r' & Hrun & Hkeys & _ & Hitems).
  exists balances, r'. simpl in Hkeys.
  split; [exact Hrun|]. split; [exact Hkeys|]. split.
  - unfold dict_keys in Hkeys.
    rewrite <- (length_map fst balances), Hkeys. apply length_map.
  - intros before p a after Heq.
    rewrite (Hitems before p a after Heq).
    unfold TradeRouter.balances_or_empty. cbn [snd].
    destruct (fst _); reflexivity.
Qed.

Lemma get_all_balances_one_entry_per_platform_witness :
  exists balances s',
    TradeRouter.get_all_balances (Doubles.router3, Doubles.world0)
    = (Ok balances, s')
    /\ length balances = 3%nat
    /\ dict_get Platform_eqb balances POLYMARKET = Some (PDict [])
    /\ dict_get Platform_eqb balances KALSHI
       = Some (PDict [("USD", PFloat f_100)]).
Proof.
  assert (Hnodup : NoDup (dict_keys (TradeRouter.platforms Doubles.router3))).
  { repeat constructor; simpl; intuition discriminate. }
  destruct (get_all_balances_one_entry_per_platform Doubles.router3
              Doubles.world0 Hnodup)
    as (balances & r' & Hrun & _ & Hlen & Hturn).
  exists balances. eexists. split; [exact Hrun|]. split; [exact Hlen|].
  split.
  - exact (Hturn [(SOLANA,
                   Object unit
                     (Doubles.steady (PDict [("SOL", PFloat f_1)])) tt)]
             POLYMARKET (Object unit Doubles.faulty tt)
             [(KALSHI,
               Object unit
                 (Doubles.steady (PDict [("USD", PFloat f_100)])) tt)]
             eq_refl).
  - exact (Hturn [(SOLANA,
                   Object unit
                     (Doubles.steady (PDict [("SOL", PFloat f_1)])) tt);
                  (POLYMARKET, Object unit Doubles.faulty tt)]
             KALSHI
             (Object unit (Doubles.steady (PDict [("USD", PFloat f_100)]))
                tt)
             [] eq_refl).
Defined.

End RouterFacts.

(* ================================================================== *)
(** * The domain model *)
(* ================================================================== *)

Module ModelFacts.
Import Py Py.Notations Models Platforms PyFacts.






(** A slippage of 2 does not get through the constructor. *)
Example slippage_above_one_is_refused :
  is_ok (TradeRequest.new (P := Doubles.pydantic) SOLANA SWAP (PStr "SOL/USDC")
           (PFloat f_1) PNone (Some (PInt 2)) []) = false.
Proof. reflexivity. Qed.

End ModelFacts.

(* ================================================================== *)
(** * The decision parser *)
(* ================================================================== *)

Module AgentFacts.
Import Py Py.Notations Models Agents PyFacts.

(** ** Searching a text *)

Lemma find_ge (s : string) (c : ascii) : -1 <= find s c.
Proof.
  induction s as [|a s IH]; simpl; [lia|].
  destruct (Ascii.eqb a c); [lia|].
  destruct (find s c <? 0) eqn:E; [lia|]. apply Z.ltb_ge in E. lia.
Qed.

Lemma rfind_ge (s : string) (c : ascii) : -1 <= rfind s c.
Proof.
  induction s as [|a s IH]; simpl; [lia|].
  destruct (0 <=? rfind s c) eqn:E.
  - apply Z.leb_le in E. lia.
  - destruct (Ascii.eqb a c); lia.
Qed.

(** The first [c] of a text whose head has none. *)
Lemma find_app (pre rest : string) (c : ascii) :
  find pre c = -1 ->
  find (pre ++ String c rest) c = Z.of_nat (String.length pre).
Proof.
  induction pre as [|a pre IH]; simpl; intros Hpre.
  - rewrite Ascii.eqb_refl. reflexivity.
  - destruct (Ascii.eqb a c); [discriminate|].
    pose proof (find_ge pre c) as Hge.
    destruct (find pre c <? 0) eqn:E.
    + apply Z.ltb_lt in E. rewrite IH by lia.
      destruct (Z.of_nat (String.length pre) <? 0) eqn:E'.
      * apply Z.ltb_lt in E'. lia.
      * lia.
    + apply Z.ltb_ge in E. lia.
Qed.

(** The last [c] of a text whose tail has none. *)
Lemma rfind_app (body suf : string) (c : ascii) :
  rfind suf c = -1 ->
  rfind (body ++ String c suf) c = Z.of_nat (String.length body).
Proof.
  intros Hsuf. induction body as [|a body IH]; simpl.
  - rewrite Hsuf. simpl. rewrite Ascii.eqb_refl. reflexivity.
  - rewrite IH.
    destruct (0 <=? Z.of_nat (String.length body)) eqn:E.
    + lia.
    + apply Z.leb_gt in E. lia.
Qed.

Lemma substring_app_skip (pre s : string) (n : nat) :
  substring (String.length pre) n (pre ++ s) = substring 0 n s.
Proof. induction pre as [|a pre IH]; simpl; [reflexivity|exact IH]. Qed.

Lemma substring_app_take (s rest : string) :
  substring 0 (String.length s) (s ++ rest) = s.
Proof.
  induction s as [|a s IH]; simpl.
  - destruct rest; reflexivity.
  - rewrite IH. reflexivity.
Qed.

Lemma length_app (s t : string) :
  String.length (s ++ t) = (String.length s + String.length t)%nat.
Proof.
  induction s as [|a s IH]; simpl; [reflexivity|].
  rewrite IH. reflexivity.
Qed.

Lemma append_assoc (s t u : string) : (s ++ t) ++ u = s ++ t ++ u.
Proof.
  induction s as [|a s IH]; simpl; [reflexivity|].
  rewrite IH. reflexivity.
Qed.

(** An object in braces is found between a head without an opening brace
    and a tail without a closing one. *)
Lemma json_fragment_found (pre inner suf : string) :
  find pre "{"%char = -1 ->
  rfind suf "}"%char = -1 ->
  AnthropicAgent.json_fragment (pre ++ ("{" ++ inner ++ "}") ++ suf)
  = Some ("{" ++ inner ++ "}").
Proof.
  intros Hpre Hsuf. unfold AnthropicAgent.json_fragment.
  set (obj := "{" ++ inner ++ "}").
  assert (Hfind : find (pre ++ obj ++ suf) "{"%char
                  = Z.of_nat (String.length pre)).
  { unfold obj. simpl. apply find_app. exact Hpre. }
  assert (Hrfind : rfind (pre ++ obj ++ suf) "}"%char + 1
                   = Z.of_nat (String.length pre + String.length obj)).
  { replace (pre ++ obj ++ suf)
      with ((pre ++ "{" ++ inner) ++ String "}" suf).
    - rewrite (rfind_app _ _ _ Hsuf). unfold obj.
      rewrite !length_app. simpl. lia.
    - unfold obj. rewrite !append_assoc. simpl. rewrite ?append_assoc.
      reflexivity. }
  rewrite Hfind, Hrfind.
  assert (Hlen : (0 < String.length obj)%nat) by (unfold obj; simpl; lia).
  replace (0 <=? Z.of_nat (String.length pre)) with true
    by (symmetry; apply Z.leb_le; lia).
  replace (Z.of_nat (String.length pre)
           <? Z.of_nat (String.length pre + String.length obj)) with true
    by (symmetry; apply Z.ltb_lt; lia).
  cbn [andb]. f_equal. unfold slice.
  rewrite Nat2Z.id.
  replace (Z.to_nat (Z.of_nat (String.length pre + String.length obj)
                     - Z.of_nat (String.length pre)))
    with (String.length obj) by lia.
  rewrite substring_app_skip. apply substring_app_take.
Qed.

(** ** Decoding the answer of the model *)

Section Decisions.
Context {L : Provider} {J : Json} {P : Pydantic} {I : Interpreter}.

(** [generate_trade_decision] never raises. *)
Lemma generate_trade_decision_total agent market_data portfolio context out :
  exists r out',
    AnthropicAgent.generate_trade_decision agent market_data portfolio context
      out = (Ok r, out').
Proof.
  unfold AnthropicAgent.generate_trade_decision, try_except.
  match goal with |- context [match ?m out with _ => _ end] =>
    destruct (m out) as [[r|e] out1] end; [eauto|].
  unfold bind, print, modify, ret. simpl. eauto.
Qed.

(** Once the model has answered with [content], the decision is what the
    inner block returns, and a hold when that block raises. *)
Lemma generate_trade_decision_of_content agent market_data portfolio context
    blocks content out :
  messages_create
    (AnthropicAgent.decision_request agent market_data portfolio context)
  = Ok blocks ->
  AnthropicAgent.first_text blocks = Ok content ->
  fst (AnthropicAgent.generate_trade_decision agent market_data portfolio
         context out)
  = match fst (AnthropicAgent.extract_decision content out) with
    | Ok r => Ok r
    | Raise _ => Ok None
    end.
Proof.
  intros Hcreate Htext.
  unfold AnthropicAgent.generate_trade_decision.
  rewrite Hcreate, bind_lift_ok, Htext, bind_lift_ok.
  unfold try_except, try_except_cls, bind.
  destruct (AnthropicAgent.extract_decision content out) as [[r|e] out1];
    simpl.
  - destruct r; reflexivity.
  - destruct (exn_cls e); reflexivity.
Qed.

Lemma extract_decision_discarded content out :
  AnthropicAgent.discarded content ->
  match fst (AnthropicAgent.extract_decision content out) with
  | Ok r => r = None
  | Raise _ => True
  end.
Proof.
  intros [Hnone | json_str e Hfrag Hloads | json_str d Hfrag Hloads Haction
          | json_str d v Hfrag Hloads Hget Hmember
          | json_str d v Hfrag Hloads Hget Hmember];
    unfold AnthropicAgent.extract_decision; rewrite ?Hnone, ?Hfrag;
    try reflexivity; rewrite Hloads.
  - exact Logic.I.
  - rewrite bind_lift_ok. simpl py_get. rewrite Haction, bind_lift_ok.
    reflexivity.
  - rewrite bind_lift_ok. simpl py_get. rewrite bind_lift_ok.
    destruct (eq_str _ "trade"); [|reflexivity].
    simpl py_getitem. rewrite Hget, bind_lift_ok.
    unfold Platform_call. rewrite Hmember. exact Logic.I.
  - rewrite bind_lift_ok. simpl py_get. rewrite bind_lift_ok.
    destruct (eq_str _ "trade"); [|reflexivity].
    simpl py_getitem.
    destruct (dict_get String.eqb d "platform") as [pv|]; [|exact Logic.I].
    rewrite bind_lift_ok.
    destruct (Platform_call pv) as [p|e]; [|exact Logic.I].
    rewrite bind_lift_ok, Hget, bind_lift_ok.
    unfold TradeType_call. rewrite Hmember. exact Logic.I.
Qed.
End Decisions.

(** C4.  [generate_trade_decision] never raises.  When the text of the
    model has no fragment in braces, or a fragment that [json.loads] does
    not decode, or decodes to an object whose action is "hold", or to an
    object whose platform or trade type is not a member of its enumeration,
    it returns [None]: no TradeRequest. *)
Theorem discarded_output_is_hold {L : Provider} {J : Json} {P : Pydantic}
    {I : Interpreter} (agent : AnthropicAgent.t)
    (market_data portfolio : list (string * pyval)) (context : string)
    (out : stdout) :
  (exists r out',
      AnthropicAgent.generate_trade_decision agent market_data portfolio
        context out = (Ok r, out'))
  /\ forall blocks content,
       messages_create
         (AnthropicAgent.decision_request agent market_data portfolio context)
       = Ok blocks ->
       AnthropicAgent.first_text blocks = Ok content ->
       AnthropicAgent.discarded content ->
       fst (AnthropicAgent.generate_trade_decision agent market_data portfolio
              context out) = Ok None.
Proof.
  split; [apply generate_trade_decision_total|].
  intros blocks content Hcreate Htext Hdiscarded.
  rewrite (generate_trade_decision_of_content _ _ _ _ _ _ out Hcreate Htext).
  pose proof (extract_decision_discarded content out Hdiscarded) as Hnone.
  destruct (fst (AnthropicAgent.extract_decision content out)) as [r|e].
  - rewrite Hnone. reflexivity.
  - reflexivity.
Qed.

Lemma discarded_output_is_hold_witness :
  fst (AnthropicAgent.generate_trade_decision
         (L := Doubles.provider Doubles.hold_text) (J := Doubles.json)
         (P := Doubles.pydantic) (I := Doubles.interpreter)
         Doubles.agent [] [] "" []) = Ok None
  /\ fst (AnthropicAgent.generate_trade_decision
            (L := Doubles.provider Doubles.dogecoin_text) (J := Doubles.json)
            (P := Doubles.pydantic) (I := Doubles.interpreter)
            Doubles.agent [] [] "" []) = Ok None.
Proof.
  split.
  - apply (proj2 (@discarded_output_is_hold
                    (Doubles.provider Doubles.hold_text) Doubles.json
                    Doubles.pydantic Doubles.interpreter Doubles.agent [] []
                    "" [])
             [TextBlock Doubles.hold_text] Doubles.hold_text);
      [reflexivity|reflexivity|].
    apply (@AnthropicAgent.hold Doubles.json _ Doubles.hold_text
             [("action", PStr "hold"); ("reasoning", PStr "flat market")]);
      reflexivity.
  - apply (proj2 (@discarded_output_is_hold
                    (Doubles.provider Doubles.dogecoin_text) Doubles.json
                    Doubles.pydantic Doubles.interpreter Doubles.agent [] []
                    "" [])
             [TextBlock Doubles.dogecoin_text] Doubles.dogecoin_text);
      [reflexivity|reflexivity|].
    apply (@AnthropicAgent.invalid_platform Doubles.json _ Doubles.dogecoin_text
             [("action", PStr "trade"); ("platform", PStr "dogecoin");
              ("trade_type", PStr "swap"); ("symbol", PStr "DOGE/USDC");
              ("amount", PFloat f_0_1)] (PStr "dogecoin"));
      reflexivity.
Defined.

(** C8 (as amended).  When the text of the model contains, between a head
    without an opening brace and a tail without a closing one, an object
    that decodes to action "trade", platform "solana", trade_type "swap",
    symbol "SOL/USDC" and amount 0.1, with no price, slippage or reasoning,
    [generate_trade_decision] returns the TradeRequest with platform SOLANA,
    trade type SWAP, that symbol and amount, no price, the default slippage
    0.01, and metadata whose reasoning is the empty string. *)
Theorem valid_trade_object_is_decoded {L : Provider} {J : Json}
    {P : Pydantic} {I : Interpreter} (agent : AnthropicAgent.t)
    (market_data portfolio : list (string * pyval)) (context : string)
    (out : stdout) (pre members suf : string) (rest : list content_block)
    (d : list (string * pyval)) :
  find pre "{"%char = -1 ->
  rfind suf "}"%char = -1 ->
  messages_create
    (AnthropicAgent.decision_request agent market_data portfolio context)
  = Ok (TextBlock (pre ++ ("{" ++ members ++ "}") ++ suf) :: rest) ->
  json_loads ("{" ++ members ++ "}") = Ok (PDict d) ->
  dict_get String.eqb d "action" = Some (PStr "trade") ->
  dict_get String.eqb d "platform" = Some (PStr "solana") ->
  dict_get String.eqb d "trade_type" = Some (PStr "swap") ->
  dict_get String.eqb d "symbol" = Some (PStr "SOL/USDC") ->
  dict_get String.eqb d "amount" = Some (PFloat f_0_1) ->
  dict_get String.eqb d "price" = None ->
  dict_get String.eqb d "slippage" = None ->
  dict_get String.eqb d "reasoning" = None ->
  AnthropicAgent.generate_trade_decision agent market_data portfolio context
    out
  = (Ok (Some (TradeRequest.Build SOLANA SWAP "SOL/USDC" f_0_1 None f_0_01
                 [("reasoning", PStr "")])), out).
Proof.
  intros Hpre Hsuf Hcreate Hloads Haction Hplatform Htype Hsymbol Hamount
    Hprice Hslippage Hreasoning.
  unfold AnthropicAgent.generate_trade_decision.
  rewrite Hcreate, bind_lift_ok. cbn [AnthropicAgent.first_text].
  rewrite bind_lift_ok. unfold AnthropicAgent.extract_decision.
  rewrite (json_fragment_found pre members suf Hpre Hsuf), Hloads.
  rewrite bind_lift_ok. cbn [py_get py_getitem].
  rewrite Haction, Hplatform, Htype, Hsymbol, Hamount, Hprice, Hslippage,
    Hreasoning.
  reflexivity.
Qed.

Lemma valid_trade_object_is_decoded_witness :
  AnthropicAgent.generate_trade_decision
    (L := Doubles.provider
            ("Decision: " ++ ("{" ++ Doubles.trade_members ++ "}") ++ " Done."))
    (J := Doubles.json) (P := Doubles.pydantic) (I := Doubles.interpreter)
    Doubles.agent [] [] "" []
  = (Ok (Some (TradeRequest.Build SOLANA SWAP "SOL/USDC" f_0_1 None f_0_01
                 [("reasoning", PStr "")])), []).
Proof.
  apply (@valid_trade_object_is_decoded
           (Doubles.provider
              ("Decision: " ++ ("{" ++ Doubles.trade_members ++ "}")
               ++ " Done."))
           Doubles.json Doubles.pydantic Doubles.interpreter Doubles.agent
           [] [] "" [] "Decision: " Doubles.trade_members " Done." []
           Doubles.trade_object); reflexivity.
Defined.

(** C8 as stated fails: the text contains the valid trade object, and a
    second pair of braces after it; the fragment then runs to the last
    closing brace, does not decode, and no request is returned. *)
Lemma valid_trade_object_counterexample :
  json_loads (Json := Doubles.json) Doubles.trade_text
  = Ok (PDict Doubles.trade_object)
  /\ AnthropicAgent.generate_trade_decision
       (L := Doubles.provider (Doubles.trade_text ++ " Reply {} to hold."))
       (J := Doubles.json) (P := Doubles.pydantic)
       (I := Doubles.interpreter) Doubles.agent [] [] "" []
     = (Ok None, []).
Proof. split; vm_compute; reflexivity. Qed.

End AgentFacts.

(* ================================================================== *)
(** * Further facts *)
(* ================================================================== *)

(* ================================================================== *)
(** * More on computations *)
(* ================================================================== *)

Module StepFacts.
Import Py PyFacts.

Section Respects.
Context {S : Type} (R : S -> S -> Prop).
Hypothesis R_refl : forall s, R s s.
Hypothesis R_trans : forall s1 s2 s3, R s1 s2 -> R s2 s3 -> R s1 s3.

Lemma respects_preserves {A} (m : M S A) : preserves m -> respects R m.
Proof. intros Hm s. rewrite (Hm s). apply R_refl. Qed.

Lemma respects_bind {A B} (m : M S A) (k : A -> M S B) :
  respects R m -> (forall a, respects R (k a)) -> respects R (bind m k).
Proof.
  intros Hm Hk s. unfold bind. specialize (Hm s).
  destruct (m s) as [[a|e] s1]; cbn [snd] in *; [|exact Hm].
  eapply R_trans; [exact Hm|apply Hk].
Qed.

Lemma respects_try_except {A} (m : M S A) (h : exn -> M S A) :
  respects R m -> (forall e, respects R (h e)) ->
  respects R (try_except m h).
Proof.
  intros Hm Hh s. unfold try_except. specialize (Hm s).
  destruct (m s) as [[a|e] s1]; cbn [snd] in *; [exact Hm|].
  eapply R_trans; [exact Hm|apply Hh].
Qed.
End Respects.

Lemma yields_ret {S A} (Q : A -> Prop) (a : A) : Q a -> yields Q (@ret S A a).
Proof. intros Ha s b s' [= <- _]. exact Ha. Qed.

Lemma yields_lift_result {S A} (Q : A -> Prop) (r : result A) :
  (forall a, r = Ok a -> Q a) -> yields Q (@lift_result S A r).
Proof. intros Hr s a s' [= -> _]. apply Hr. reflexivity. Qed.

Lemma yields_bind {S A B} (Q : B -> Prop) (m : M S A) (k : A -> M S B) :
  (forall a, yields Q (k a)) -> yields Q (bind m k).
Proof.
  intros Hk s b s'. unfold bind.
  destruct (m s) as [[a|e] s1]; [apply Hk|discriminate].
Qed.

Lemma yields_try_except {S A} (Q : A -> Prop) (m : M S A) (h : exn -> M S A) :
  yields Q m -> (forall e, yields Q (h e)) -> yields Q (try_except m h).
Proof.
  intros Hm Hh s a s'. unfold try_except.
  destruct (m s) as [[b|e] s1] eqn:E.
  - intros [= <- <-]. eapply Hm. exact E.
  - apply Hh.
Qed.

(** A [try] whose handler returns always returns. *)
Lemma returns_try_except {S A} (m : M S A) (h : exn -> M S A) :
  (forall e, returns (h e)) -> returns (try_except m h).
Proof.
  intros Hh s. unfold try_except.
  destruct (m s) as [[a|e] s1]; [eauto|apply Hh].
Qed.

Lemma returns_yields {S A} (Q : A -> Prop) (m : M S A) (s : S) :
  returns m -> yields Q m -> exists a s', m s = (Ok a, s') /\ Q a.
Proof.
  intros Hr Hy. destruct (Hr s) as (a & s' & E). exists a, s'.
  split; [exact E|]. eapply Hy. exact E.
Qed.
End StepFacts.

(* ================================================================== *)
(** * More on the adapters *)
(* ================================================================== *)

Module AdapterFacts.
Import Py Py.Notations Models Platforms PyFacts StepFacts PlatformFacts.

(** ** The results of [execute_trade] *)

Section Results.
Context {P : Pydantic}.

Lemma new_failed_settled {S} p ts err :
  yields (settled p)
    (@lift_result S _
       (TradeResult.new (PStr "") p FAILED PNone PNone PNone PNone ts err)).
Proof.
  apply yields_lift_result. intros res. unfold TradeResult.new. simpl.
  destruct (validate_optional validate_str err); [|discriminate].
  intros [= <-]. split; [reflexivity|]. left. repeat split.
Qed.

Lemma new_completed_settled {S} id p hash amount price fee ts :
  yields (settled p)
    (@lift_result S _
       (TradeResult.new id p COMPLETED hash amount price fee ts PNone)).
Proof.
  apply yields_lift_result. intros res. unfold TradeResult.new.
  destruct (validate_str id); [|discriminate].
  destruct (validate_optional validate_str hash); [|discriminate].
  destruct (validate_optional validate_float amount); [|discriminate].
  destruct (validate_optional validate_float price); [|discriminate].
  destruct (validate_optional validate_float fee); [|discriminate].
  simpl. intros [= <-]. split; [reflexivity|]. right. split; reflexivity.
Qed.

(** The handler of [execute_trade] always returns. *)
Lemma failed_handler_returns {A} p (e : exn) :
  returns
    (bind (@utcnow A)
       (fun ts =>
          lift_result
            (TradeResult.new (PStr "") p FAILED PNone PNone PNone PNone ts
               (PStr (exn_str e))))).
Proof. intros s. eexists. eexists. reflexivity. Qed.
End Results.

Ltac settling :=
  repeat first
    [ apply new_failed_settled
    | apply new_completed_settled
    | apply yields_try_except
    | apply yields_bind
    | match goal with
      | |- yields _ (if ?b then _ else _) => destruct b
      | |- yields _ (match ?x with _ => _ end) => destruct x
      | |- forall _, _ => intro
      end ].

Section Settles.
Context {O : Outside} {P : Pydantic} {I : Interpreter}.

Lemma solana_execute_settles (trade : TradeRequest.t)
    (s : SolanaAdapter.t * World) :
  exists res s',
    SolanaAdapter.execute_trade trade s = (Ok res, s')
    /\ settled SOLANA res.
Proof.
  apply returns_yields.
  - apply returns_try_except. intros e. apply failed_handler_returns.
  - unfold SolanaAdapter.execute_trade. settling.
Qed.

Lemma polymarket_execute_settles (trade : TradeRequest.t)
    (s : PolymarketAdapter.t * World) :
  exists res s',
    PolymarketAdapter.execute_trade trade s = (Ok res, s')
    /\ settled POLYMARKET res.
Proof.
  apply returns_yields.
  - apply returns_try_except. intros e. apply failed_handler_returns.
  - unfold PolymarketAdapter.execute_trade. settling.
Qed.

Lemma kalshi_execute_settles (trade : TradeRequest.t)
    (s : KalshiAdapter.t * World) :
  exists res s',
    KalshiAdapter.execute_trade trade s = (Ok res, s')
    /\ settled KALSHI res.
Proof.
  apply returns_yields.
  - apply returns_try_except. intros e. apply failed_handler_returns.
  - unfold KalshiAdapter.execute_trade. settling.
Qed.
End Settles.

(** X1.  [execute_trade] of every adapter returns, whatever the request,
    the state of the adapter and the answers of the venue: it never
    raises, and its result carries the platform of the adapter and is
    either FAILED with no trade id and no execution data, or COMPLETED
    with no error text. *)
Theorem execute_trade_settles {O : Outside} {P : Pydantic} {I : Interpreter}
    (trade : TradeRequest.t) :
  (forall s, exists res s',
      SolanaAdapter.execute_trade trade s = (Ok res, s')
      /\ settled SOLANA res)
  /\ (forall s, exists res s',
         PolymarketAdapter.execute_trade trade s = (Ok res, s')
         /\ settled POLYMARKET res)
  /\ (forall s, exists res s',
         KalshiAdapter.execute_trade trade s = (Ok res, s')
         /\ settled KALSHI res).
Proof.
  split; [|split]; intros s.
  - apply solana_execute_settles.
  - apply polymarket_execute_settles.
  - apply kalshi_execute_settles.
Qed.

(** ** Queries *)

Lemma returns_ret {S A} (a : A) : returns (@ret S A a).
Proof. intros s. exists a, s. reflexivity. Qed.

Lemma returns_guarded {S A} (m : M S A) (d : A) :
  returns (try_except m (fun _ => ret d)).
Proof. apply returns_try_except. intros e. apply returns_ret. Qed.

Lemma solana_close_returns : returns SolanaAdapter.close.
Proof.
  intros s. unfold SolanaAdapter.close, bind, self, gets.
  destruct (SolanaAdapter.client (fst s)); apply returns_ret.
Qed.

Lemma polymarket_close_returns : returns PolymarketAdapter.close.
Proof.
  intros s.
  unfold PolymarketAdapter.close, bind, self, gets, set_self, modify.
  destruct (PolymarketAdapter.session (fst s)) as [[[|]]|];
    eexists; eexists; reflexivity.
Qed.

Lemma kalshi_close_returns : returns KalshiAdapter.close.
Proof.
  intros s.
  unfold KalshiAdapter.close, bind, self, gets, set_self, modify.
  destruct (KalshiAdapter.session (fst s)) as [[[|]]|];
    eexists; eexists; reflexivity.
Qed.

(** X2.  No query of an adapter raises, and neither does [close]: whatever
    the venue answers and whatever state the adapter is in, [get_balance],
    [get_price], [cancel_order], [get_order_status] and [close] return. *)
Theorem queries_never_raise {O : Outside} {C : Conversions} :
  ((forall token, returns (SolanaAdapter.get_balance token))
   /\ (forall symbol, returns (SolanaAdapter.get_price symbol))
   /\ (forall order_id, returns (SolanaAdapter.cancel_order order_id))
   /\ returns SolanaAdapter.close)
  /\ ((forall token, returns (PolymarketAdapter.get_balance token))
      /\ (forall symbol, returns (PolymarketAdapter.get_price symbol))
      /\ (forall order_id, returns (PolymarketAdapter.cancel_order order_id))
      /\ (forall order_id,
            returns (PolymarketAdapter.get_order_status order_id))
      /\ returns PolymarketAdapter.close)
  /\ ((forall token, returns (KalshiAdapter.get_balance token))
      /\ (forall symbol, returns (KalshiAdapter.get_price symbol))
      /\ (forall order_id, returns (KalshiAdapter.cancel_order order_id))
      /\ (forall order_id, returns (KalshiAdapter.get_order_status order_id))
      /\ returns KalshiAdapter.close).
Proof.
  split; [|split].
  - split; [|split; [|split]].
    + intros token s. unfold SolanaAdapter.get_balance, bind, self, gets.
      destruct (SolanaAdapter.wallet (fst s)); [apply returns_guarded|].
      apply returns_ret.
    + intros symbol. apply returns_ret.
    + intros order_id. apply returns_ret.
    + apply solana_close_returns.
  - split; [|split; [|split; [|split]]].
    + intros token. apply returns_guarded.
    + intros symbol. apply returns_guarded.
    + intros order_id. apply returns_guarded.
    + intros order_id. apply returns_try_except. intros e. apply returns_ret.
    + apply polymarket_close_returns.
  - split; [|split; [|split; [|split]]].
    + intros token. apply returns_guarded.
    + intros symbol. apply returns_guarded.
    + intros order_id. apply returns_guarded.
    + intros order_id. apply returns_try_except. intros e. apply returns_ret.
    + apply kalshi_close_returns.
Qed.

(** ** What the operations leave alone *)

Section Keeps.
Context {A B : Type} (account : A -> B).

Lemma follows_refl (w : World) : follows w w.
Proof. split; [reflexivity|]. exists []. symmetry. apply app_nil_r. Qed.

Lemma follows_trans (w1 w2 w3 : World) :
  follows w1 w2 -> follows w2 w3 -> follows w1 w3.
Proof.
  intros [Hn1 [c1 Hl1]] [Hn2 [c2 Hl2]]. split; [congruence|].
  exists (c1 ++ c2)%list. rewrite Hl2, Hl1. symmetry. apply app_assoc.
Qed.

Lemma keeps_refl (s : A * World) : keeps account s s.
Proof. split; [reflexivity|apply follows_refl]. Qed.

Lemma keeps_trans (s1 s2 s3 : A * World) :
  keeps account s1 s2 -> keeps account s2 s3 -> keeps account s1 s3.
Proof.
  intros [Ha1 Hw1] [Ha2 Hw2]. split; [congruence|].
  eapply follows_trans; eassumption.
Qed.

Lemma keeps_preserves {R} (m : M (A * World) R) :
  preserves m -> respects (keeps account) m.
Proof. apply respects_preserves. exact keeps_refl. Qed.

Lemma keeps_bind {R R'} (m : M (A * World) R) (k : R -> M (A * World) R') :
  respects (keeps account) m -> (forall a, respects (keeps account) (k a)) ->
  respects (keeps account) (bind m k).
Proof. apply respects_bind. exact keeps_trans. Qed.

Lemma keeps_try_except {R} (m : M (A * World) R)
    (h : exn -> M (A * World) R) :
  respects (keeps account) m -> (forall e, respects (keeps account) (h e)) ->
  respects (keeps account) (try_except m h).
Proof. apply respects_try_except. exact keeps_trans. Qed.

Lemma keeps_set_self (f : A -> A) :
  (forall a, account (f a) = account a) ->
  respects (keeps account) (set_self f).
Proof. intros Hf s. split; [apply Hf|apply follows_refl]. Qed.

Lemma keeps_network {O : Outside} (c : net_call) :
  respects (keeps account) (@network A O c).
Proof.
  intros s. split; [reflexivity|]. split; [reflexivity|].
  exists [c]. reflexivity.
Qed.

Lemma keeps_validate_trade
    (get_balance : option string -> M (A * World) pyval)
    (trade : TradeRequest.t) :
  respects (keeps account) (get_balance None) ->
  respects (keeps account) (validate_trade get_balance trade).
Proof.
  intros Hb. unfold validate_trade. apply keeps_try_except.
  - apply keeps_bind; [exact Hb|]. intros b.
    apply keeps_preserves. preserving.
  - intros e. apply keeps_preserves. preserving.
Qed.

(** The clock reads the same after a step that keeps the account. *)
Lemma keeps_now {R} (m : M (A * World) R) (s : A * World) :
  respects (keeps account) m -> now (snd (snd (m s))) = now (snd s).
Proof. intros Hm. destruct (Hm s) as [_ [Hnow _]]. exact Hnow. Qed.
End Keeps.

Ltac keeping :=
  repeat first
    [ apply keeps_network
    | apply keeps_set_self; intros []; reflexivity
    | apply keeps_try_except
    | apply keeps_bind
    | apply keeps_preserves; unfold self, utcnow; solve [preserving]
    | match goal with
      | |- respects _ (if ?b then _ else _) => destruct b
      | |- respects _ (match ?x with _ => _ end) => destruct x
      | |- forall _, _ => intro
      end ].

Section Accounts.
Context {O : Outside} {P : Pydantic} {I : Interpreter} {C : Conversions}.

Lemma solana_get_client_keeps :
  respects (keeps solana_account) SolanaAdapter._get_client.
Proof. unfold SolanaAdapter._get_client. keeping. Qed.

Lemma solana_get_balance_keeps token :
  respects (keeps solana_account) (SolanaAdapter.get_balance token).
Proof.
  pose proof solana_get_client_keeps.
  unfold SolanaAdapter.get_balance. keeping; assumption.
Qed.

Lemma solana_execute_trade_keeps trade :
  respects (keeps solana_account) (SolanaAdapter.execute_trade trade).
Proof.
  pose proof solana_get_client_keeps as Hc.
  pose proof (keeps_validate_trade solana_account _ trade
                (solana_get_balance_keeps None)) as Hv.
  unfold SolanaAdapter.execute_trade, SolanaAdapter._get_jupiter_quote,
    SolanaAdapter._execute_jupiter_swap.
  keeping; assumption.
Qed.

Lemma polymarket_get_session_keeps :
  respects (keeps polymarket_account) PolymarketAdapter._get_session.
Proof. unfold PolymarketAdapter._get_session. keeping. Qed.

Lemma polymarket_make_request_keeps method endpoint data :
  respects (keeps polymarket_account)
    (PolymarketAdapter._make_request method endpoint data).
Proof.
  pose proof polymarket_get_session_keeps.
  unfold PolymarketAdapter._make_request. keeping; assumption.
Qed.

Lemma polymarket_get_balance_keeps token :
  respects (keeps polymarket_account) (PolymarketAdapter.get_balance token).
Proof.
  pose proof polymarket_make_request_keeps.
  unfold PolymarketAdapter.get_balance. keeping; auto.
Qed.

Lemma polymarket_execute_trade_keeps trade :
  respects (keeps polymarket_account) (PolymarketAdapter.execute_trade trade).
Proof.
  pose proof polymarket_make_request_keeps as Hr.
  pose proof (keeps_validate_trade polymarket_account _ trade
                (polymarket_get_balance_keeps None)) as Hv.
  unfold PolymarketAdapter.execute_trade. keeping; auto.
Qed.

Lemma kalshi_get_session_keeps :
  respects (keeps kalshi_account) KalshiAdapter._get_session.
Proof. unfold KalshiAdapter._get_session. keeping. Qed.

Lemma kalshi_authenticate_keeps :
  respects (keeps kalshi_account) KalshiAdapter._authenticate.
Proof.
  pose proof kalshi_get_session_keeps.
  unfold KalshiAdapter._authenticate. keeping; assumption.
Qed.

Lemma kalshi_make_request_keeps method endpoint data :
  respects (keeps kalshi_account)
    (KalshiAdapter._make_request method endpoint data).
Proof.
  pose proof kalshi_get_session_keeps.
  pose proof kalshi_authenticate_keeps.
  unfold KalshiAdapter._make_request. keeping; assumption.
Qed.

Lemma kalshi_get_balance_keeps token :
  respects (keeps kalshi_account) (KalshiAdapter.get_balance token).
Proof.
  pose proof kalshi_make_request_keeps.
  unfold KalshiAdapter.get_balance. keeping; auto.
Qed.

Lemma kalshi_execute_trade_keeps trade :
  respects (keeps kalshi_account) (KalshiAdapter.execute_trade trade).
Proof.
  pose proof kalshi_make_request_keeps as Hr.
  pose proof (keeps_validate_trade kalshi_account _ trade
                (kalshi_get_balance_keeps None)) as Hv.
  unfold KalshiAdapter.execute_trade. keeping; auto.
Qed.

(** Every operation keeps the account, and the world follows. *)
Lemma operations_keep :
  ((forall trade,
      respects (keeps solana_account) (SolanaAdapter.execute_trade trade))
   /\ (forall token,
         respects (keeps solana_account) (SolanaAdapter.get_balance token))
   /\ (forall symbol,
         respects (keeps solana_account) (SolanaAdapter.get_price symbol))
   /\ (forall order_id,
         respects (keeps solana_account)
           (SolanaAdapter.cancel_order order_id))
   /\ respects (keeps solana_account) SolanaAdapter.close)
  /\ ((forall trade,
         respects (keeps polymarket_account)
           (PolymarketAdapter.execute_trade trade))
      /\ (forall token,
            respects (keeps polymarket_account)
              (PolymarketAdapter.get_balance token))
      /\ (forall symbol,
            respects (keeps polymarket_account)
              (PolymarketAdapter.get_price symbol))
      /\ (forall order_id,
            respects (keeps polymarket_account)
              (PolymarketAdapter.get_order_status order_id))
      /\ (forall order_id,
            respects (keeps polymarket_account)
              (PolymarketAdapter.cancel_order order_id))
      /\ respects (keeps polymarket_account) PolymarketAdapter.close)
  /\ ((forall trade,
         respects (keeps kalshi_account) (KalshiAdapter.execute_trade trade))
      /\ (forall token,
            respects (keeps kalshi_account) (KalshiAdapter.get_balance token))
      /\ (forall symbol,
            respects (keeps kalshi_account) (KalshiAdapter.get_price symbol))
      /\ (forall order_id,
            respects (keeps kalshi_account)
              (KalshiAdapter.get_order_status order_id))
      /\ (forall order_id,
            respects (keeps kalshi_account)
              (KalshiAdapter.cancel_order order_id))
      /\ respects (keeps kalshi_account) KalshiAdapter.close).
Proof.
  pose proof polymarket_make_request_keeps as Hp.
  pose proof kalshi_make_request_keeps as Hk.
  split; [|split].
  - split; [exact solana_execute_trade_keeps|].
    split; [exact solana_get_balance_keeps|].
    split; [|split].
    + intros symbol. unfold SolanaAdapter.get_price. keeping.
    + intros order_id. unfold SolanaAdapter.cancel_order. keeping.
    + unfold SolanaAdapter.close. keeping.
  - split; [exact polymarket_execute_trade_keeps|].
    split; [exact polymarket_get_balance_keeps|].
    split; [|split; [|split]].
    + intros symbol. unfold PolymarketAdapter.get_price. keeping; auto.
    + intros order_id. unfold PolymarketAdapter.get_order_status.
      keeping; auto.
    + intros order_id. unfold PolymarketAdapter.cancel_order. keeping; auto.
    + unfold PolymarketAdapter.close. keeping.
  - split; [exact kalshi_execute_trade_keeps|].
    split; [exact kalshi_get_balance_keeps|].
    split; [|split; [|split]].
    + intros symbol. unfold KalshiAdapter.get_price. keeping; auto.
    + intros order_id. unfold KalshiAdapter.get_order_status. keeping; auto.
    + intros order_id. unfold KalshiAdapter.cancel_order. keeping; auto.
    + unfold KalshiAdapter.close. keeping.
Qed.

(** X3.  No operation of an adapter writes the fields that it was given
    when it was made: [execute_trade], [get_balance], [get_price],
    [cancel_order] and [close] of the Solana adapter leave its credentials,
    RPC URL and wallet as they are, and these five and [get_order_status]
    of the Polymarket and of the Kalshi adapter leave credentials, API key,
    secret and passphrase, and credentials, API key and private key.
    [get_order_status] of the Solana adapter is not covered. *)
Theorem operations_keep_the_account :
  (forall s : SolanaAdapter.t * World,
      (forall trade,
          solana_account (fst (snd (SolanaAdapter.execute_trade trade s)))
          = solana_account (fst s))
      /\ (forall token,
             solana_account (fst (snd (SolanaAdapter.get_balance token s)))
             = solana_account (fst s))
      /\ (forall symbol,
             solana_account (fst (snd (SolanaAdapter.get_price symbol s)))
             = solana_account (fst s))
      /\ (forall order_id,
             solana_account
               (fst (snd (SolanaAdapter.cancel_order order_id s)))
             = solana_account (fst s))
      /\ solana_account (fst (snd (SolanaAdapter.close s)))
         = solana_account (fst s))
  /\ (forall s : PolymarketAdapter.t * World,
         (forall trade,
             polymarket_account
               (fst (snd (PolymarketAdapter.execute_trade trade s)))
             = polymarket_account (fst s))
         /\ (forall token,
                polymarket_account
                  (fst (snd (PolymarketAdapter.get_balance token s)))
                = polymarket_account (fst s))
         /\ (forall symbol,
                polymarket_account
                  (fst (snd (PolymarketAdapter.get_price symbol s)))
                = polymarket_account (fst s))
         /\ (forall order_id,
                polymarket_account
                  (fst (snd (PolymarketAdapter.get_order_status order_id s)))
                = polymarket_account (fst s))
         /\ (forall order_id,
                polymarket_account
                  (fst (snd (PolymarketAdapter.cancel_order order_id s)))
                = polymarket_account (fst s))
         /\ polymarket_account (fst (snd (PolymarketAdapter.close s)))
            = polymarket_account (fst s))
  /\ (forall s : KalshiAdapter.t * World,
         (forall trade,
             kalshi_account (fst (snd (KalshiAdapter.execute_trade trade s)))
             = kalshi_account (fst s))
         /\ (forall token,
                kalshi_account (fst (snd (KalshiAdapter.get_balance token s)))
                = kalshi_account (fst s))
         /\ (forall symbol,
                kalshi_account (fst (snd (KalshiAdapter.get_price symbol s)))
                = kalshi_account (fst s))
         /\ (forall order_id,
                kalshi_account
                  (fst (snd (KalshiAdapter.get_order_status order_id s)))
                = kalshi_account (fst s))
         /\ (forall order_id,
                kalshi_account
                  (fst (snd (KalshiAdapter.cancel_order order_id s)))
                = kalshi_account (fst s))
         /\ kalshi_account (fst (snd (KalshiAdapter.close s)))
            = kalshi_account (fst s)).
Proof.
  destruct operations_keep
    as ((S1 & S2 & S3 & S4 & S5) & (P1 & P2 & P3 & P4 & P5 & P6)
        & (K1 & K2 & K3 & K4 & K5 & K6)).
  split; [|split]; intros s.
  - repeat split; intros; first
      [ apply (proj1 (S1 _ s)) | apply (proj1 (S2 _ s))
      | apply (proj1 (S3 _ s)) | apply (proj1 (S4 _ s))
      | apply (proj1 (S5 s)) ].
  - repeat split; intros; first
      [ apply (proj1 (P1 _ s)) | apply (proj1 (P2 _ s))
      | apply (proj1 (P3 _ s)) | apply (proj1 (P4 _ s))
      | apply (proj1 (P5 _ s)) | apply (proj1 (P6 s)) ].
  - repeat split; intros; first
      [ apply (proj1 (K1 _ s)) | apply (proj1 (K2 _ s))
      | apply (proj1 (K3 _ s)) | apply (proj1 (K4 _ s))
      | apply (proj1 (K5 _ s)) | apply (proj1 (K6 s)) ].
Qed.
End Accounts.

(** ** A venue that is down *)

Section Outage.
Context {O : Outside} {P : Pydantic} {C : Conversions}.
Variable e : exn.
Hypothesis Hdown : forall log c, respond log c = Raise e.

Lemma polymarket_request_down method endpoint data
    (s : PolymarketAdapter.t * World) :
  fst (PolymarketAdapter._make_request method endpoint data s) = Raise e.
Proof.
  unfold PolymarketAdapter._make_request, PolymarketAdapter._get_session,
    bind, self, gets, utcnow, network, set_self, modify, ret.
  destruct (PolymarketAdapter.session (fst s)) as [[[|]]|]; simpl;
    apply Hdown.
Qed.

Lemma kalshi_authenticate_ok (s : KalshiAdapter.t * World) :
  exists b s', KalshiAdapter._authenticate s = (Ok b, s').
Proof. apply try_except_ret_ok. Qed.

Lemma kalshi_request_down method endpoint data
    (s : KalshiAdapter.t * World) :
  fst (KalshiAdapter._make_request method endpoint data s) = Raise e.
Proof.
  unfold KalshiAdapter._make_request.
  unfold bind at 1, self at 1, gets at 1.
  assert (Hauth : exists ok s1,
             (if negb (truthy (KalshiAdapter.token (fst s)))
              then KalshiAdapter._authenticate else ret true) s
             = (Ok ok, s1)).
  { destruct (negb _).
    - apply kalshi_authenticate_ok.
    - unfold ret. eauto. }
  destruct Hauth as (ok & s1 & Hauth).
  unfold bind at 1. rewrite Hauth.
  unfold KalshiAdapter._get_session, bind, self, gets, network, set_self,
    modify, ret.
  destruct (KalshiAdapter.session (fst s1)) as [[[|]]|]; simpl;
    apply Hdown.
Qed.

Lemma guarded_down {S A B} (m : M S A) (k : A -> M S B) (h : exn -> M S B)
    (s : S) :
  fst (m s) = Raise e ->
  try_except (bind m k) h s = h e (snd (m s)).
Proof.
  unfold try_except, bind. destruct (m s) as [[a|e'] s1]; simpl;
    [discriminate|]. intros [= ->]. reflexivity.
Qed.

(** X4.  With the venue down, the Polymarket adapter answers every query
    with its empty value and reports the exception text in the result of
    a trade that passes validation. *)
Theorem polymarket_outage (s : PolymarketAdapter.t * World)
    (token : option string) (symbol order_id : string)
    (trade : TradeRequest.t) :
  fst (PolymarketAdapter.get_balance token s) = Ok (PDict [])
  /\ fst (PolymarketAdapter.get_price symbol s) = Ok f_0
  /\ fst (PolymarketAdapter.cancel_order order_id s) = Ok (PBool false)
  /\ fst (PolymarketAdapter.get_order_status order_id s)
     = Ok (PDict [("error", PStr (exn_str e))])
  /\ fst (PolymarketAdapter.execute_trade trade s)
     = Ok (TradeResult.Build "" POLYMARKET FAILED None None None None
             (now (snd s))
             (Some (if well_formed trade then exn_str e
                    else refusal_reason trade)) []).
Proof.
  split; [|split; [|split; [|split]]].
  - unfold PolymarketAdapter.get_balance.
    rewrite guarded_down by apply polymarket_request_down. reflexivity.
  - unfold PolymarketAdapter.get_price.
    rewrite guarded_down by apply polymarket_request_down. reflexivity.
  - unfold PolymarketAdapter.cancel_order.
    rewrite guarded_down by apply polymarket_request_down. reflexivity.
  - unfold PolymarketAdapter.get_order_status, try_except.
    pose proof (polymarket_request_down "GET" ("/orders/" ++ order_id)
                  PNone s) as H.
    destruct (PolymarketAdapter._make_request _ _ _ s) as [[a|e'] s1];
      simpl in H; [discriminate|]. injection H as ->. reflexivity.
  - destruct (polymarket_get_balance_ok None s) as (b & s1 & Hb).
    assert (Hnow : now (snd s1) = now (snd s)).
    { pose proof (keeps_now _ _ s (polymarket_get_balance_keeps None)) as Hn.
      rewrite Hb in Hn. exact Hn. }
    unfold PolymarketAdapter.execute_trade.
    rewrite (try_except_bind_ok _ _ _ _ _ _
               (validate_trade_verdict _ trade s s1 b Hb)).
    destruct (well_formed trade); cbn [negb].
    + rewrite guarded_down by apply polymarket_request_down.
      unfold bind, utcnow, gets, lift_result. cbn [fst snd].
      rewrite (keeps_now _ _ s1 (polymarket_make_request_keeps _ _ _)).
      rewrite Hnow. reflexivity.
    + unfold try_except, bind, utcnow, gets, lift_result. cbn [fst snd].
      rewrite Hnow. reflexivity.
Qed.

(** X5.  With the venue down, the Kalshi adapter answers every query with
    its empty value and reports the exception text in the result of a
    trade that passes validation and converts. *)
Theorem kalshi_outage (s : KalshiAdapter.t * World)
    (token : option string) (symbol order_id : string)
    (trade : TradeRequest.t) :
  fst (KalshiAdapter.get_balance token s) = Ok (PDict [])
  /\ fst (KalshiAdapter.get_price symbol s) = Ok f_0
  /\ fst (KalshiAdapter.cancel_order order_id s) = Ok (PBool false)
  /\ fst (KalshiAdapter.get_order_status order_id s)
     = Ok (PDict [("error", PStr (exn_str e))])
  /\ (KalshiAdapter.convertible trade = true ->
      fst (KalshiAdapter.execute_trade trade s)
      = Ok (TradeResult.Build "" KALSHI FAILED None None None None
              (now (snd s))
              (Some (if well_formed trade then exn_str e
                     else refusal_reason trade)) [])).
Proof.
  split; [|split; [|split; [|split]]].
  - unfold KalshiAdapter.get_balance.
    rewrite guarded_down by apply kalshi_request_down. reflexivity.
  - unfold KalshiAdapter.get_price.
    rewrite guarded_down by apply kalshi_request_down. reflexivity.
  - unfold KalshiAdapter.cancel_order.
    rewrite guarded_down by apply kalshi_request_down. reflexivity.
  - unfold KalshiAdapter.get_order_status, try_except.
    pose proof (kalshi_request_down "GET" ("/portfolio/orders/" ++ order_id)
                  PNone s) as H.
    destruct (KalshiAdapter._make_request _ _ _ s) as [[a|e'] s1];
      simpl in H; [discriminate|]. injection H as ->. reflexivity.
  - intros Hconv.
    destruct (kalshi_get_balance_ok None s) as (b & s1 & Hb).
    assert (Hnow : now (snd s1) = now (snd s)).
    { pose proof (keeps_now _ _ s (kalshi_get_balance_keeps None)) as Hn.
      rewrite Hb in Hn. exact Hn. }
    unfold KalshiAdapter.execute_trade.
    rewrite (try_except_bind_ok _ _ _ _ _ _
               (validate_trade_verdict _ trade s s1 b Hb)).
    destruct (well_formed trade); cbn [negb].
    + unfold KalshiAdapter.convertible in Hconv.
      apply andb_true_iff in Hconv. destruct Hconv as [Hcount Hprice].
      destruct (int_of_float (TradeRequest.amount trade)) as [count|];
        [|discriminate].
      rewrite bind_lift_ok.
      assert (Hnow1 : forall method endpoint data,
                 now (snd (snd (KalshiAdapter._make_request method endpoint
                                  data s1))) = now (snd s)).
      { intros. rewrite <- Hnow.
        apply (keeps_now _ _ s1 (kalshi_make_request_keeps _ _ _)). }
      destruct (TradeRequest.price trade) as [price|].
      * destruct (float_is_zero price); cbn [negb orb] in *.
        -- rewrite bind_ret.
           rewrite guarded_down by apply kalshi_request_down.
           unfold bind, utcnow, gets, lift_result. cbn [fst snd].
           rewrite Hnow1. reflexivity.
        -- destruct (int_of_float (float_mul price f_100)) as [cents|];
             [|discriminate].
           rewrite bind_lift_ok, bind_ret.
           rewrite guarded_down by apply kalshi_request_down.
           unfold bind, utcnow, gets, lift_result. cbn [fst snd].
           rewrite Hnow1. reflexivity.
      * rewrite bind_ret.
        rewrite guarded_down by apply kalshi_request_down.
        unfold bind, utcnow, gets, lift_result. cbn [fst snd].
        rewrite Hnow1. reflexivity.
    + unfold try_except, bind, utcnow, gets, lift_result. cbn [fst snd].
      rewrite Hnow. reflexivity.
Qed.
End Outage.

Lemma polymarket_outage_witness :
  fst (PolymarketAdapter.execute_trade (O := Doubles.down)
         (P := Doubles.pydantic)
         (Doubles.request POLYMARKET BUY f_1 f_0_01)
         (Doubles.polymarket, Doubles.world0))
  = Ok (TradeResult.Build "" POLYMARKET FAILED None None None None 0
          (Some "Cannot connect to host") []).
Proof.
  apply (@polymarket_outage Doubles.down Doubles.pydantic
           {| float_of_str := fun _ => Ok f_0 |}
           (Exn TransportError "Cannot connect to host")
           (fun _ _ => eq_refl) (Doubles.polymarket, Doubles.world0) None
           "" "" (Doubles.request POLYMARKET BUY f_1 f_0_01)).
Defined.

Lemma kalshi_outage_witness :
  fst (KalshiAdapter.execute_trade (O := Doubles.down)
         (P := Doubles.pydantic)
         (Doubles.request KALSHI BUY f_1 f_0_01)
         (Doubles.kalshi, Doubles.world0))
  = Ok (TradeResult.Build "" KALSHI FAILED None None None None 0
          (Some "Cannot connect to host") []).
Proof.
  apply (@kalshi_outage Doubles.down Doubles.pydantic
           (Exn TransportError "Cannot connect to host")
           (fun _ _ => eq_refl) (Doubles.kalshi, Doubles.world0) None
           "" "" (Doubles.request KALSHI BUY f_1 f_0_01)).
  reflexivity.
Defined.
End AdapterFacts.

Module KalshiFacts.
Import Py Py.Notations Models Platforms PyFacts StepFacts PlatformFacts.

(** ** Authentication of the Kalshi adapter *)

Lemma kalshi_get_session_open (a : KalshiAdapter.t) (w : World) :
  exists a',
    KalshiAdapter._get_session (a, w) = (Ok {| closed := false |}, (a', w))
    /\ KalshiAdapter.session a' = Some {| closed := false |}
    /\ KalshiAdapter.token a' = KalshiAdapter.token a
    /\ kalshi_account a' = kalshi_account a.
Proof.
  unfold KalshiAdapter._get_session, bind, self, gets, set_self, modify, ret.
  cbn [fst snd].
  destruct a as [cr ak pk [[[|]]|] tok]; cbn; eexists;
    repeat split; reflexivity.
Qed.

(** X6.  A Kalshi adapter that holds a token does not log in again: a
    request sends exactly one call, with the token it holds as bearer, and
    leaves the token as it is and the session open. *)
Theorem kalshi_token_reused {O : Outside} (method endpoint : string)
    (data : pyval) (a : KalshiAdapter.t) (w : World) :
  truthy (KalshiAdapter.token a) = true ->
  let request :=
    HttpRequest method (KalshiAdapter.BASE_URL ++ endpoint)
      [("Authorization", HBearer (KalshiAdapter.token a));
       ("Content-Type", HText "application/json")] data in
  exists a',
    KalshiAdapter._make_request method endpoint data (a, w)
    = (respond (net_log w) request,
       (a', {| now := now w; net_log := net_log w ++ [request] |}))
    /\ KalshiAdapter.token a' = KalshiAdapter.token a
    /\ KalshiAdapter.session a' = Some {| closed := false |}.
Proof.
  intros Htok request.
  destruct (kalshi_get_session_open a w) as (a' & Hs & Hopen & Htok' & _).
  exists a'. split; [|split; assumption].
  unfold KalshiAdapter._make_request.
  unfold bind at 1, self at 1, gets at 1. cbn [fst]. rewrite Htok.
  cbn [negb]. rewrite bind_ret. unfold bind at 1. rewrite Hs.
  unfold bind, self, gets, network. cbn [fst snd]. rewrite Htok'.
  reflexivity.
Qed.

Lemma kalshi_token_reused_witness :
  exists a',
    KalshiAdapter._make_request (O := Doubles.down) "GET"
      "/portfolio/balance" PNone
      (KalshiAdapter.set_token (PStr "t") Doubles.kalshi, Doubles.world0)
    = (Raise (Exn TransportError "Cannot connect to host"),
       (a', {| now := 0;
               net_log :=
                 [HttpRequest "GET"
                    (KalshiAdapter.BASE_URL ++ "/portfolio/balance")
                    [("Authorization", HBearer (PStr "t"));
                     ("Content-Type", HText "application/json")] PNone] |})).
Proof.
  destruct (@kalshi_token_reused Doubles.down "GET" "/portfolio/balance"
              PNone (KalshiAdapter.set_token (PStr "t") Doubles.kalshi)
              Doubles.world0 eq_refl) as (a' & Hrun & _).
  exists a'. exact Hrun.
Defined.

(** The token that the adapter holds after a login that was answered with
    [answer]. *)
Lemma kalshi_authenticate_run {O : Outside} (a : KalshiAdapter.t)
    (w : World) :
  let login :=
    HttpRequest "POST" (KalshiAdapter.BASE_URL ++ "/login") []
      (PDict [("email", of_optional_str (KalshiAdapter.api_key a));
              ("password", of_optional_str (KalshiAdapter.private_key a))])
  in
  exists ok a',
    KalshiAdapter._authenticate (a, w)
    = (Ok ok, (a', {| now := now w; net_log := net_log w ++ [login] |}))
    /\ KalshiAdapter.token a'
       = match respond (net_log w) login with
         | Ok (PDict d) =>
             match dict_get String.eqb d "token" with
             | Some tok => if truthy tok then tok else KalshiAdapter.token a
             | None => KalshiAdapter.token a
             end
         | _ => KalshiAdapter.token a
         end.
Proof.
  intros login.
  destruct (kalshi_get_session_open a w) as (a1 & Hs & _ & Htok & Hacc).
  unfold KalshiAdapter._authenticate, try_except.
  unfold bind at 1. rewrite Hs.
  unfold bind at 1, self at 1, gets at 1. cbn [fst].
  injection Hacc as _ Hak Hpk. rewrite Hak, Hpk. fold login.
  unfold bind at 1, network at 1. cbn [fst snd].
  destruct (respond (net_log w) login) as [[| | | | | |d]|e];
    try (cbn; eexists; eexists; split; [reflexivity|exact Htok]).
  unfold py_get, py_getitem, lift_result, bind, set_self, modify, ret.
  cbn [fst snd].
  destruct (dict_get String.eqb d "token") as [tok|] eqn:E; cbn.
  - destruct (truthy tok) eqn:Et; cbn.
    + eexists. eexists. split; reflexivity.
    + eexists. eexists. split; [reflexivity|exact Htok].
  - eexists. eexists. split; [reflexivity|exact Htok].
Qed.

(** X7.  A Kalshi adapter without a token logs in before every request, with
    its API key as email and its private key as password; the request is
    sent whatever the login answered: with the token of the answer when it
    carried one, and with the token it had (none) otherwise. *)
Theorem kalshi_login_precedes_request {O : Outside}
    (method endpoint : string) (data : pyval) (a : KalshiAdapter.t)
    (w : World) :
  truthy (KalshiAdapter.token a) = false ->
  let login :=
    HttpRequest "POST" (KalshiAdapter.BASE_URL ++ "/login") []
      (PDict [("email", of_optional_str (KalshiAdapter.api_key a));
              ("password", of_optional_str (KalshiAdapter.private_key a))])
  in
  exists a',
    let request :=
      HttpRequest method (KalshiAdapter.BASE_URL ++ endpoint)
        [("Authorization", HBearer (KalshiAdapter.token a'));
         ("Content-Type", HText "application/json")] data in
    KalshiAdapter._make_request method endpoint data (a, w)
    = (respond (net_log w ++ [login]) request,
       (a', {| now := now w; net_log := net_log w ++ [login; request] |}))
    /\ KalshiAdapter.token a'
       = match respond (net_log w) login with
         | Ok (PDict d) =>
             match dict_get String.eqb d "token" with
             | Some tok => if truthy tok then tok else KalshiAdapter.token a
             | None => KalshiAdapter.token a
             end
         | _ => KalshiAdapter.token a
         end.
Proof.
  intros Htok login.
  destruct (kalshi_authenticate_run a w) as (ok & a1 & Hauth & Htok1).
  fold login in Hauth, Htok1.
  destruct (kalshi_get_session_open a1
              {| now := now w; net_log := net_log w ++ [login] |})
    as (a' & Hs & _ & Htok' & _).
  exists a'. cbv zeta. split; [|rewrite Htok'; exact Htok1].
  unfold KalshiAdapter._make_request.
  unfold bind at 1, self at 1, gets at 1. cbn [fst]. rewrite Htok.
  cbn [negb]. unfold bind at 1. rewrite Hauth.
  unfold bind at 1. rewrite Hs.
  unfold bind, self, gets, network. cbn [fst snd now net_log].
  rewrite <- app_assoc. reflexivity.
Qed.

Lemma kalshi_login_precedes_request_witness :
  exists a',
    snd (KalshiAdapter._make_request (O := Doubles.down) "GET"
           "/portfolio/balance" PNone (Doubles.kalshi, Doubles.world0))
    = (a',
       {| now := 0;
          net_log :=
            [HttpRequest "POST" (KalshiAdapter.BASE_URL ++ "/login") []
               (PDict [("email", PNone); ("password", PNone)]);
             HttpRequest "GET"
               (KalshiAdapter.BASE_URL ++ "/portfolio/balance")
               [("Authorization", HBearer PNone);
                ("Content-Type", HText "application/json")] PNone] |}).
Proof.
  destruct (@kalshi_login_precedes_request Doubles.down "GET"
              "/portfolio/balance" PNone Doubles.kalshi Doubles.world0
              eq_refl) as (a' & Hrun & Htok).
  exists a'. cbv zeta in Hrun. rewrite Hrun. cbn [snd].
  rewrite Htok. reflexivity.
Defined.
End KalshiFacts.

Module SolanaFacts.
Import Py Py.Notations Models Platforms PyFacts StepFacts PlatformFacts.

Section Solana.
Context {O : Outside} {P : Pydantic} {I : Interpreter}.

Lemma solana_get_balance_run token (a : SolanaAdapter.t) (w : World) kp :
  SolanaAdapter.wallet a = Some kp ->
  let url :=
    match SolanaAdapter.client a with
    | Some c => SolanaAdapter.endpoint c
    | None => SolanaAdapter.rpc_url a
    end in
  exists b a',
    SolanaAdapter.get_balance token (a, w)
    = (Ok b,
       (a', {| now := now w;
               net_log := net_log w ++ [RpcGetBalance url (pubkey kp)] |}))
    /\ SolanaAdapter.wallet a' = Some kp
    /\ exists c, SolanaAdapter.client a' = Some c.
Proof.
  intros Hw url. subst url.
  unfold SolanaAdapter.get_balance, SolanaAdapter._get_client, try_except,
    bind, self, gets, set_self, modify, network, lift_result, ret.
  cbn [fst snd]. rewrite Hw.
  destruct (SolanaAdapter.client a) as [c|] eqn:Hc; cbn [fst snd];
    rewrite ?Hc; cbn [fst snd SolanaAdapter.endpoint SolanaAdapter.wallet
                        SolanaAdapter.client];
    destruct (respond _ _) as [v|e]; try destruct (py_truediv_float v f_1e9);
    eexists; eexists; (split; [reflexivity|]); cbn; rewrite ?Hw, ?Hc;
    eauto.
Qed.

(** X8.  A trade on the Solana adapter sends one balance query and nothing
    else, whatever the request and whatever the result: no transaction
    leaves the adapter, also when the result is COMPLETED. *)
Theorem solana_trade_sends_one_balance_query (trade : TradeRequest.t)
    (a : SolanaAdapter.t) (w : World) :
  snd (snd (SolanaAdapter.execute_trade trade (a, w)))
  = {| now := now w;
       net_log :=
         net_log w
         ++ match SolanaAdapter.wallet a with
            | Some kp =>
                [RpcGetBalance
                   match SolanaAdapter.client a with
                   | Some c => SolanaAdapter.endpoint c
                   | None => SolanaAdapter.rpc_url a
                   end (pubkey kp)]
            | None => []
            end |}.
Proof.
  destruct (SolanaAdapter.wallet a) as [kp|] eqn:Hw.
  - destruct (solana_get_balance_run None a w kp Hw)
      as (b & a' & Hb & Hw' & c & Hc).
    cbv zeta in Hb.
    unfold SolanaAdapter.execute_trade, try_except.
    unfold bind at 1, self at 1, gets at 1. cbn [fst]. rewrite Hw.
    unfold bind at 1.
    rewrite (validate_trade_verdict _ trade (a, w) _ b Hb).
    destruct (well_formed trade); cbn [negb].
    + unfold bind at 1, SolanaAdapter._get_client at 1.
      unfold bind at 1, self at 1, gets at 1. cbn [fst]. rewrite Hc.
      unfold ret at 1.
      destruct (TradeType_eqb _ _); reflexivity.
    + reflexivity.
  - rewrite (solana_execute_no_wallet trade a w Hw). cbn [snd].
    rewrite app_nil_r. destruct w; reflexivity.
Qed.
End Solana.

(** ** The factory *)

(** X9.  [get_platform_adapter] fails for one kind of credentials only: a
    Solana private key that is not empty and does not decode; the
    exception is then a [ValueError] that carries the decoder's text. *)
Theorem get_platform_adapter_failure {O : Outside} {P : Pydantic}
    {I : Interpreter} (credentials : PlatformCredentials.t) (e : exn) :
  get_platform_adapter credentials = Raise e
  <-> PlatformCredentials.platform credentials = SOLANA
      /\ exists key e',
           PlatformCredentials.private_key credentials = Some key
           /\ key <> ""
           /\ keypair_of_base58 key = Raise e'
           /\ e = Exn ValueError
                    ("Invalid Solana private key: " ++ exn_str e').
Proof.
  unfold get_platform_adapter, SolanaAdapter.init, PolymarketAdapter.init,
    KalshiAdapter.init.
  destruct (PlatformCredentials.platform credentials).
  - destruct (PlatformCredentials.private_key credentials) as [key|].
    + destruct (String.eqb key "") eqn:Ek.
      * split; [discriminate|].
        intros [_ (k & e' & [= <-] & Hne & _)].
        apply String.eqb_eq in Ek. contradiction.
      * apply String.eqb_neq in Ek.
        destruct (keypair_of_base58 key) as [kp|e0] eqn:Hk.
        -- split; [discriminate|].
           intros [_ (k & e' & [= <-] & _ & Hr & _)]. congruence.
        -- split.
           ++ intros [= <-]. split; [reflexivity|].
              exists key, e0. repeat split; assumption.
           ++ intros [_ (k & e' & [= <-] & _ & Hr & ->)].
              rewrite Hk in Hr. injection Hr as <-. reflexivity.
    + split; [discriminate|]. intros [_ (k & e' & Hk & _)]. discriminate.
  - split; [discriminate|]. intros [Hp _]. discriminate.
  - split; [discriminate|]. intros [Hp _]. discriminate.
Qed.
End SolanaFacts.

Module SessionFacts.
Import Py Py.Notations Models Platforms PyFacts PlatformFacts.

Lemma polymarket_request_opens {O : Outside} method endpoint data
    (s : PolymarketAdapter.t * World) :
  is_open
    (PolymarketAdapter.session
       (fst (snd (PolymarketAdapter._make_request method endpoint data s))))
  = true.
Proof.
  unfold PolymarketAdapter._make_request, PolymarketAdapter._get_session,
    bind, self, gets, set_self, modify, utcnow, network, ret.
  destruct (PolymarketAdapter.session (fst s)) as [[[|]]|] eqn:E; simpl;
    rewrite ?E; reflexivity.
Qed.

Lemma kalshi_request_opens {O : Outside} method endpoint data
    (s : KalshiAdapter.t * World) :
  is_open
    (KalshiAdapter.session
       (fst (snd (KalshiAdapter._make_request method endpoint data s))))
  = true.
Proof.
  unfold KalshiAdapter._make_request.
  unfold bind at 1, self at 1, gets at 1.
  assert (Hauth : exists ok s1,
             (if negb (truthy (KalshiAdapter.token (fst s)))
              then KalshiAdapter._authenticate else ret true) s
             = (Ok ok, s1)).
  { destruct (negb _).
    - apply try_except_ret_ok.
    - unfold ret. eauto. }
  destruct Hauth as (ok & s1 & Hauth).
  unfold bind at 1. rewrite Hauth.
  unfold KalshiAdapter._get_session, bind, self, gets, network, set_self,
    modify, ret.
  destruct (KalshiAdapter.session (fst s1)) as [[[|]]|] eqn:E; simpl;
    rewrite ?E; reflexivity.
Qed.

(** X10.  [close] of the Polymarket and of the Kalshi adapter returns
    without a call to the network and leaves no open session; a second
    [close] changes nothing; the next request opens a session again. *)
Theorem sessions_close_and_reopen {O : Outside} :
  (forall (a : PolymarketAdapter.t) (w : World),
      exists a',
        PolymarketAdapter.close (a, w) = (Ok tt, (a', w))
        /\ is_open (PolymarketAdapter.session a') = false
        /\ polymarket_account a' = polymarket_account a
        /\ PolymarketAdapter.close (a', w) = (Ok tt, (a', w))
        /\ forall method endpoint data w',
             is_open
               (PolymarketAdapter.session
                  (fst (snd (PolymarketAdapter._make_request method endpoint
                               data (a', w'))))) = true)
  /\ (forall (a : KalshiAdapter.t) (w : World),
         exists a',
           KalshiAdapter.close (a, w) = (Ok tt, (a', w))
           /\ is_open (KalshiAdapter.session a') = false
           /\ kalshi_account a' = kalshi_account a
           /\ KalshiAdapter.token a' = KalshiAdapter.token a
           /\ KalshiAdapter.close (a', w) = (Ok tt, (a', w))
           /\ forall method endpoint data w',
                is_open
                  (KalshiAdapter.session
                     (fst (snd (KalshiAdapter._make_request method endpoint
                                  data (a', w'))))) = true).
Proof.
  split; intros a w.
  - unfold PolymarketAdapter.close, bind, self, gets, set_self, modify, ret.
    cbn [fst snd].
    destruct a as [cr ak sc pp [[[|]]|]];
      cbn [PolymarketAdapter.session closed negb]; eexists;
      (split; [reflexivity|]); (split; [reflexivity|]);
      (split; [reflexivity|]); (split; [reflexivity|]);
      intros; apply polymarket_request_opens.
  - unfold KalshiAdapter.close, bind, self, gets, set_self, modify, ret.
    cbn [fst snd].
    destruct a as [cr ak pk [[[|]]|] tok];
      cbn [KalshiAdapter.session closed negb]; eexists;
      (split; [reflexivity|]); (split; [reflexivity|]);
      (split; [reflexivity|]); (split; [reflexivity|]);
      (split; [reflexivity|]);
      intros; apply kalshi_request_opens.
Qed.
End SessionFacts.

(* ================================================================== *)
(** * More on the registry of the router *)
(* ================================================================== *)

Module RegistryFacts.
Import Py Py.Notations Models Platforms Routers PyFacts RouterFacts.

(** ** Lookup after an update *)

Section Lookup.
Context {K V : Type} (eqb : K -> K -> bool).
Hypothesis eqb_eq : forall a b, eqb a b = true <-> a = b.

Lemma dict_get_set_same (d : list (K * V)) k v :
  dict_get eqb (dict_set eqb d k v) k = Some v.
Proof.
  induction d as [|[k' v'] d IH]; simpl.
  - rewrite (eqb_refl eqb eqb_eq). reflexivity.
  - destruct (eqb k' k) eqn:E; simpl.
    + rewrite (eqb_refl eqb eqb_eq). reflexivity.
    + rewrite E. exact IH.
Qed.

Lemma dict_get_set_other (d : list (K * V)) k v q :
  q <> k -> dict_get eqb (dict_set eqb d k v) q = dict_get eqb d q.
Proof.
  intros Hne. induction d as [|[k' v'] d IH]; simpl.
  - rewrite (eqb_neq eqb eqb_eq) by congruence. reflexivity.
  - destruct (eqb k' k) eqn:E; simpl.
    + apply eqb_eq in E. subst k'.
      rewrite (eqb_neq eqb eqb_eq k q) by congruence. reflexivity.
    + destruct (eqb k' q); [reflexivity|exact IH].
Qed.

Lemma dict_get_del_other (d : list (K * V)) k q :
  q <> k -> dict_get eqb (dict_del eqb d k) q = dict_get eqb d q.
Proof.
  intros Hne. induction d as [|[k' v'] d IH]; simpl; [reflexivity|].
  destruct (eqb k' k) eqn:E; simpl.
  - apply eqb_eq in E. subst k'.
    rewrite (eqb_neq eqb eqb_eq k q) by congruence. reflexivity.
  - destruct (eqb k' q); [reflexivity|exact IH].
Qed.


Lemma dict_set_keys_present (d : list (K * V)) k v v' :
  dict_get eqb d k = Some v' ->
  dict_keys (dict_set eqb d k v) = dict_keys d.
Proof.
  induction d as [|[k' w] d IH]; simpl; [discriminate|].
  destruct (eqb k' k) eqn:E; simpl.
  - apply eqb_eq in E. subst. reflexivity.
  - intros H. rewrite (IH H). reflexivity.
Qed.

Lemma dict_del_absent (d : list (K * V)) k :
  dict_get eqb d k = None -> dict_del eqb d k = d.
Proof.
  induction d as [|[k' w] d IH]; simpl; [reflexivity|].
  destruct (eqb k' k); [discriminate|].
  intros H. rewrite (IH H). reflexivity.
Qed.
End Lookup.

(** ** Registration *)

(** X11.  [register_platform] on a registry with one entry per platform:
    when the factory gives an adapter, it is registered under the platform
    of the credentials, in place of an adapter that was there, the other
    platforms keep their adapters, the registry still has one entry per
    platform and the world is untouched; when the factory raises, the
    exception goes to the caller and nothing changes. *)
Theorem register_platform_effect {O : Outside} {P : Pydantic}
    {I : Interpreter} (credentials : PlatformCredentials.t)
    (r : TradeRouter.t) (w : World) :
  NoDup (dict_keys (TradeRouter.platforms r)) ->
  match get_platform_adapter credentials with
  | Ok adapter =>
      exists r',
        TradeRouter.register_platform credentials (r, w) = (Ok tt, (r', w))
        /\ dict_get Platform_eqb (TradeRouter.platforms r')
             (PlatformCredentials.platform credentials) = Some adapter
        /\ (forall q, q <> PlatformCredentials.platform credentials ->
              dict_get Platform_eqb (TradeRouter.platforms r') q
              = dict_get Platform_eqb (TradeRouter.platforms r) q)
        /\ NoDup (dict_keys (TradeRouter.platforms r'))
  | Raise e =>
      TradeRouter.register_platform credentials (r, w) = (Raise e, (r, w))
  end.
Proof.
  intros Hnodup.
  unfold TradeRouter.register_platform, bind, lift_result, set_self, modify.
  destruct (get_platform_adapter credentials) as [adapter|e]; simpl;
    [|reflexivity].
  eexists. split; [reflexivity|]. simpl. split; [|split].
  - apply (dict_get_set_same Platform_eqb Platform_eqb_eq).
  - intros q Hq. apply (dict_get_set_other Platform_eqb Platform_eqb_eq).
    exact Hq.
  - apply (dict_set_nodup Platform_eqb Platform_eqb_eq). exact Hnodup.
Qed.

Lemma register_platform_effect_witness :
  exists r',
    TradeRouter.register_platform (O := Doubles.down) (P := Doubles.pydantic)
      (I := Doubles.interpreter) (Doubles.credentials KALSHI None)
      (Doubles.router3, Doubles.world0) = (Ok tt, (r', Doubles.world0))
    /\ NoDup (dict_keys (TradeRouter.platforms r')).
Proof.
  assert (Hnodup : NoDup (dict_keys (TradeRouter.platforms Doubles.router3))).
  { repeat constructor; simpl; intuition discriminate. }
  pose proof (@register_platform_effect Doubles.down Doubles.pydantic
                Doubles.interpreter (Doubles.credentials KALSHI None)
                Doubles.router3 Doubles.world0 Hnodup) as H.
  cbv beta iota delta [get_platform_adapter Doubles.credentials
                         PlatformCredentials.platform KalshiAdapter.init]
    in H.
  destruct H as (r' & Hrun & _ & _ & Hnodup').
  exists r'. split; assumption.
Defined.

(** X12.  [unregister_platform] on a registry with one entry per platform
    never raises; afterwards the platform has no adapter, the other
    platforms keep theirs, and the registry still has one entry per
    platform; it changes nothing when the platform was not registered, and a
    second call changes nothing. *)
Theorem unregister_platform_effect (platform : Platform) (r : TradeRouter.t)
    (w : World) :
  NoDup (dict_keys (TradeRouter.platforms r)) ->
  exists r',
    TradeRouter.unregister_platform platform (r, w) = (Ok tt, (r', w))
    /\ dict_get Platform_eqb (TradeRouter.platforms r') platform = None
    /\ (forall q, q <> platform ->
          dict_get Platform_eqb (TradeRouter.platforms r') q
          = dict_get Platform_eqb (TradeRouter.platforms r) q)
    /\ NoDup (dict_keys (TradeRouter.platforms r'))
    /\ (dict_get Platform_eqb (TradeRouter.platforms r) platform = None ->
        r' = r)
    /\ TradeRouter.unregister_platform platform (r', w) = (Ok tt, (r', w)).
Proof.
  intros Hnodup.
  assert (Hrun : exists r',
             TradeRouter.unregister_platform platform (r, w)
             = (Ok tt, (r', w))
             /\ TradeRouter.platforms r'
                = dict_del Platform_eqb (TradeRouter.platforms r) platform).
  { unfold TradeRouter.unregister_platform, bind, self, gets, set_self,
      modify, ret. cbn [fst snd].
    destruct (dict_get Platform_eqb (TradeRouter.platforms r) platform)
      eqn:E.
    - eexists. split; reflexivity.
    - exists r. split; [reflexivity|]. symmetry.
      apply (dict_del_absent Platform_eqb). exact E. }
  destruct Hrun as (r' & Hrun & Hr').
  assert (Hgone : dict_get Platform_eqb (TradeRouter.platforms r') platform
                  = None).
  { rewrite Hr'. apply (dict_del_get Platform_eqb Platform_eqb_eq).
    exact Hnodup. }
  exists r'. split; [exact Hrun|]. split; [exact Hgone|].
  split; [|split; [|split]].
  - intros q Hq. rewrite Hr'.
    apply (dict_get_del_other Platform_eqb Platform_eqb_eq). exact Hq.
  - rewrite Hr'. apply dict_del_nodup. exact Hnodup.
  - intros Habsent. destruct r as [d], r' as [d']. simpl in *. f_equal.
    rewrite Hr'. apply (dict_del_absent Platform_eqb). exact Habsent.
  - apply (unregister_platform_absent platform (r', w)). exact Hgone.
Qed.

Lemma unregister_platform_effect_witness :
  exists r',
    TradeRouter.unregister_platform POLYMARKET
      (Doubles.router3, Doubles.world0) = (Ok tt, (r', Doubles.world0))
    /\ dict_get Platform_eqb (TradeRouter.platforms r') POLYMARKET = None.
Proof.
  assert (Hnodup : NoDup (dict_keys (TradeRouter.platforms Doubles.router3))).
  { repeat constructor; simpl; intuition discriminate. }
  destruct (unregister_platform_effect POLYMARKET Doubles.router3
              Doubles.world0 Hnodup) as (r' & Hrun & Hgone & _).
  exists r'. split; assumption.
Defined.

(** ** Dispatch *)

(** X13.  For a request whose platform is registered, [execute_trade] of the
    router is [execute_trade] of that adapter on the same world: the same
    result or the same exception, which the router lets through; the adapter
    stays registered with the fields that the call left, and no other entry
    changes. *)
Theorem execute_trade_delegates {P : Pydantic} (r : TradeRouter.t)
    (w : World) (trade : TradeRequest.t) (adapter : adapter_object) :
  dict_get Platform_eqb (TradeRouter.platforms r)
    (TradeRequest.platform trade) = Some adapter ->
  exists r',
    let out :=
      @Platforms.execute_trade (class_of adapter) (methods adapter) trade
        (fields adapter, w) in
    TradeRouter.execute_trade trade (r, w) = (fst out, (r', snd (snd out)))
    /\ dict_get Platform_eqb (TradeRouter.platforms r')
         (TradeRequest.platform trade)
       = Some (Object (class_of adapter) (methods adapter) (fst (snd out)))
    /\ (forall q, q <> TradeRequest.platform trade ->
          dict_get Platform_eqb (TradeRouter.platforms r') q
          = dict_get Platform_eqb (TradeRouter.platforms r) q)
    /\ dict_keys (TradeRouter.platforms r')
       = dict_keys (TradeRouter.platforms r).
Proof.
  intros Hget.
  unfold TradeRouter.execute_trade, bind, self, gets. cbn [fst snd].
  rewrite Hget. unfold TradeRouter.call. cbn [fst snd].
  eexists. split; [reflexivity|]. cbn [TradeRouter.platforms].
  split; [|split].
  - apply (dict_get_set_same Platform_eqb Platform_eqb_eq).
  - intros q Hq. apply (dict_get_set_other Platform_eqb Platform_eqb_eq).
    exact Hq.
  - apply (dict_set_keys_present Platform_eqb Platform_eqb_eq _ _ _ adapter).
    exact Hget.
Qed.

Lemma execute_trade_delegates_witness :
  fst (TradeRouter.execute_trade (P := Doubles.pydantic)
         (Doubles.request POLYMARKET BUY f_1 f_0_01)
         (Doubles.router3, Doubles.world0))
  = Raise (Exn TransportError "venue unreachable").
Proof.
  destruct (@execute_trade_delegates Doubles.pydantic Doubles.router3
              Doubles.world0 (Doubles.request POLYMARKET BUY f_1 f_0_01)
              (Object unit Doubles.faulty tt) eq_refl)
    as (r' & Hrun & _).
  cbv zeta in Hrun. rewrite Hrun. reflexivity.
Defined.

(** [get_balance] of the router is [get_balance] of the adapter, whose
    exception it lets through, and [{}] for a platform without one. *)
Lemma router_get_balance_delegates (r : TradeRouter.t) (w : World)
    (platform : Platform) (token : option string) :
  match dict_get Platform_eqb (TradeRouter.platforms r) platform with
  | None => TradeRouter.get_balance platform token (r, w)
            = (Ok (PDict []), (r, w))
  | Some adapter =>
      exists r',
        let out :=
          @Platforms.get_balance (class_of adapter) (methods adapter) token
            (fields adapter, w) in
        TradeRouter.get_balance platform token (r, w)
        = (fst out, (r', snd (snd out)))
        /\ dict_keys (TradeRouter.platforms r')
           = dict_keys (TradeRouter.platforms r)
  end.
Proof.
  unfold TradeRouter.get_balance, bind, self, gets. cbn [fst snd].
  destruct (dict_get Platform_eqb (TradeRouter.platforms r) platform)
    as [adapter|] eqn:Hget; [|reflexivity].
  unfold TradeRouter.call. cbn [fst snd].
  eexists. split; [reflexivity|]. cbn [TradeRouter.platforms].
  apply (dict_set_keys_present Platform_eqb Platform_eqb_eq _ _ _ adapter).
  exact Hget.
Qed.
(** ** Shutdown *)

Lemma dict_get_of_in {V} (d : list (Platform * V)) p v :
  NoDup (dict_keys d) -> In (p, v) d -> dict_get Platform_eqb d p = Some v.
Proof.
  induction d as [|[k x] d IH]; simpl; intros Hnodup Hin; [contradiction|].
  inversion Hnodup as [|? ? Hnot Hrest]; subst.
  destruct Hin as [Heq|Hin].
  - injection Heq as -> ->. destruct p; reflexivity.
  - destruct (Platform_eqb k p) eqn:E.
    + apply Platform_eqb_eq in E. subst k. exfalso. apply Hnot.
      apply (in_map fst) in Hin. exact Hin.
    + apply IH; assumption.
Qed.

(** One turn of the loop of [close_all]: only the entry of the adapter
    whose turn it is can change. *)
Lemma close_turn (p : Platform) (a : adapter_object)
    (s : TradeRouter.t * World) :
  let out := TradeRouter.call p a (fun A cls => Platforms.close) s in
  fst out = fst (@Platforms.close (class_of a) (methods a) (fields a, snd s))
  /\ forall q, q <> p ->
       dict_get Platform_eqb (TradeRouter.platforms (fst (snd out))) q
       = dict_get Platform_eqb (TradeRouter.platforms (fst s)) q.
Proof.
  unfold TradeRouter.call. cbn [fst snd TradeRouter.platforms].
  split; [reflexivity|].
  intros q Hq. apply (dict_get_set_other Platform_eqb Platform_eqb_eq).
  exact Hq.
Qed.

Lemma close_each_stops (before after : list (Platform * adapter_object))
    (p : Platform) (a : adapter_object) :
  forall s : TradeRouter.t * World,
    NoDup (dict_keys (before ++ (p, a) :: after)) ->
    (forall q b, In (q, b) before ->
       forall st, is_ok (fst (@Platforms.close (class_of b) (methods b) st))
                  = true) ->
    (forall st, is_ok (fst (@Platforms.close (class_of a) (methods a) st))
                = false) ->
    (forall q b, In (q, b) after ->
       dict_get Platform_eqb (TradeRouter.platforms (fst s)) q = Some b) ->
    exists e s',
      TradeRouter.close_each (before ++ (p, a) :: after) s = (Raise e, s')
      /\ forall q b, In (q, b) after ->
           dict_get Platform_eqb (TradeRouter.platforms (fst s')) q = Some b.
Proof.
  induction before as [|[q0 b0] before IH]; intros s Hnodup Hbefore Ha Hafter.
  - simpl in *. inversion Hnodup as [|? ? Hnot _]; subst.
    destruct (close_turn p a s) as [Hres Hother]. cbv zeta in Hres, Hother.
    unfold bind.
    destruct (TradeRouter.call p a (fun A cls => Platforms.close) s)
      as [[u|e] s1] eqn:Hcall; cbn [fst snd] in *.
    + specialize (Ha (fields a, snd s)). rewrite <- Hres in Ha.
      discriminate.
    + exists e, s1. split; [reflexivity|].
      intros q b Hin. rewrite Hother; [apply Hafter; exact Hin|].
      intros ->. apply Hnot. apply (in_map fst) in Hin. exact Hin.
  - simpl in Hnodup. inversion Hnodup as [|? ? Hnot Hrest]; subst.
    destruct (close_turn q0 b0 s) as [Hres Hother]. cbv zeta in Hres, Hother.
    cbn [app TradeRouter.close_each]. unfold bind at 1.
    destruct (TradeRouter.call q0 b0 (fun A cls => Platforms.close) s)
      as [[u|e] s1] eqn:Hcall; cbn [fst snd] in *.
    + apply IH; try assumption.
      * intros q b Hin. apply (Hbefore q b). right. exact Hin.
      * intros q b Hin. rewrite Hother; [apply Hafter; exact Hin|].
        intros ->. apply Hnot. unfold dict_keys. rewrite map_app.
        apply in_or_app. right. right. apply (in_map fst) in Hin. exact Hin.
    + specialize (Hbefore q0 b0 (or_introl eq_refl) (fields b0, snd s)).
      rewrite <- Hres in Hbefore. discriminate.
Qed.

Lemma close_each_returns (items : list (Platform * adapter_object)) :
  forall s : TradeRouter.t * World,
    (forall q b, In (q, b) items ->
       forall st, is_ok (fst (@Platforms.close (class_of b) (methods b) st))
                  = true) ->
    (forall q b, In (q, b) items ->
       exists b', dict_get Platform_eqb (TradeRouter.platforms (fst s)) q
                  = Some b') ->
    exists s',
      TradeRouter.close_each items s = (Ok tt, s')
      /\ dict_keys (TradeRouter.platforms (fst s'))
         = dict_keys (TradeRouter.platforms (fst s)).
Proof.
  induction items as [|[q0 b0] items IH]; intros s Hclose Hreg.
  - exists s. split; reflexivity.
  - cbn [TradeRouter.close_each]. unfold bind at 1.
    pose proof (Hclose q0 b0 (or_introl eq_refl) (fields b0, snd s)) as Hok.
    destruct (Hreg q0 b0 (or_introl eq_refl)) as (b' & Hb').
    unfold TradeRouter.call at 1.
    destruct (@Platforms.close (class_of b0) (methods b0) (fields b0, snd s))
      as [[u|e] st1] eqn:Hc; cbn [fst snd] in *; [|discriminate].
    match goal with |- context [TradeRouter.close_each items ?s1] =>
      destruct (IH s1) as (s' & Hrun & Hkeys) end.
    + intros q b Hin. apply (Hclose q b). right. exact Hin.
    + intros q b Hin. cbn [fst TradeRouter.platforms].
      destruct (Platform_eqb_eq q q0) as [_ Heq].
      destruct (Platform_eqb q q0) eqn:E.
      * apply Platform_eqb_eq in E. subst q. eexists.
        apply (dict_get_set_same Platform_eqb Platform_eqb_eq).
      * destruct (Hreg q b (or_intror Hin)) as (b1 & Hb1). exists b1.
        rewrite (dict_get_set_other Platform_eqb Platform_eqb_eq);
          [exact Hb1|].
        intros ->. destruct q0; discriminate.
    + exists s'. split; [exact Hrun|]. rewrite Hkeys.
      cbn [fst TradeRouter.platforms].
      apply (dict_set_keys_present Platform_eqb Platform_eqb_eq _ _ _ b').
      exact Hb'.
Qed.

(** X14.  [close_all] has no handler: when the [close] of an adapter raises,
    after those before it returned, the exception goes to the caller and the
    adapters registered after it are not closed: they are as they were. *)
Theorem close_all_stops_at_first_failure (r : TradeRouter.t) (w : World)
    (before after : list (Platform * adapter_object)) (p : Platform)
    (a : adapter_object) :
  TradeRouter.platforms r = (before ++ (p, a) :: after)%list ->
  NoDup (dict_keys (TradeRouter.platforms r)) ->
  (forall q b, In (q, b) before ->
     forall st, is_ok (fst (@Platforms.close (class_of b) (methods b) st))
                = true) ->
  (forall st, is_ok (fst (@Platforms.close (class_of a) (methods a) st))
              = false) ->
  exists e s',
    TradeRouter.close_all (r, w) = (Raise e, s')
    /\ forall q b, In (q, b) after ->
         dict_get Platform_eqb (TradeRouter.platforms (fst s')) q = Some b.
Proof.
  intros Hitems Hnodup Hbefore Ha.
  unfold TradeRouter.close_all, bind, self, gets. cbn [fst snd].
  rewrite Hitems. apply close_each_stops.
  - rewrite <- Hitems. exact Hnodup.
  - exact Hbefore.
  - exact Ha.
  - intros q b Hin. cbn [fst]. apply dict_get_of_in; [exact Hnodup|].
    rewrite Hitems. apply in_or_app. right. right. exact Hin.
Qed.

Lemma close_all_stops_at_first_failure_witness :
  exists e s',
    TradeRouter.close_all (Doubles.router_stuck, Doubles.world0)
    = (Raise e, s')
    /\ dict_get Platform_eqb (TradeRouter.platforms (fst s')) KALSHI
       = Some (Object unit (Doubles.steady (PDict [("USD", PFloat f_100)]))
                 tt).
Proof.
  destruct (close_all_stops_at_first_failure Doubles.router_stuck
              Doubles.world0
              [(SOLANA,
                Object unit (Doubles.steady (PDict [("SOL", PFloat f_1)]))
                  tt)]
              [(KALSHI,
                Object unit (Doubles.steady (PDict [("USD", PFloat f_100)]))
                  tt)]
              POLYMARKET (Object unit Doubles.stuck tt) eq_refl)
    as (e & s' & Hrun & Hafter).
  - repeat constructor; simpl; intuition discriminate.
  - intros q b [[= <- <-]|[]] st. reflexivity.
  - intros st. reflexivity.
  - exists e, s'. split; [exact Hrun|]. apply Hafter. left. reflexivity.
Defined.

(** X15.  When no [close] raises, [close_all] returns and the registry keeps
    its platforms, in their order: closing unregisters nothing. *)
Theorem close_all_keeps_registry (r : TradeRouter.t) (w : World) :
  NoDup (dict_keys (TradeRouter.platforms r)) ->
  (forall q b, In (q, b) (TradeRouter.platforms r) ->
     forall st, is_ok (fst (@Platforms.close (class_of b) (methods b) st))
                = true) ->
  exists s',
    TradeRouter.close_all (r, w) = (Ok tt, s')
    /\ dict_keys (TradeRouter.platforms (fst s'))
       = dict_keys (TradeRouter.platforms r).
Proof.
  intros Hnodup Hclose.
  unfold TradeRouter.close_all, bind, self, gets. cbn [fst snd].
  apply (close_each_returns (TradeRouter.platforms r) (r, w) Hclose).
  intros q b Hin. exists b. apply dict_get_of_in; assumption.
Qed.

Lemma close_all_keeps_registry_witness :
  exists s',
    TradeRouter.close_all (Doubles.router3, Doubles.world0) = (Ok tt, s')
    /\ dict_keys (TradeRouter.platforms (fst s'))
       = [SOLANA; POLYMARKET; KALSHI].
Proof.
  apply (close_all_keeps_registry Doubles.router3 Doubles.world0).
  - repeat constructor; simpl; intuition discriminate.
  - intros q b [[= <- <-]|[[= <- <-]|[[= <- <-]|[]]]] st; reflexivity.
Defined.
End RegistryFacts.

Module FactoryFacts.
Import Py Py.Notations Models Platforms Routers PyFacts StepFacts
  PlatformFacts RouterFacts AdapterFacts RegistryFacts.

Section Factory.
Context {O : Outside} {P : Pydantic} {I : Interpreter}.

Lemma instance_of_factory (credentials : PlatformCredentials.t)
    (a : adapter_object) :
  get_platform_adapter credentials = Ok a ->
  instance_of (PlatformCredentials.platform credentials) a.
Proof.
  unfold get_platform_adapter, instance_of.
  destruct (PlatformCredentials.platform credentials).
  - destruct (SolanaAdapter.init credentials); [|discriminate].
    intros [= <-]. eexists. reflexivity.
  - destruct (PolymarketAdapter.init credentials); [|discriminate].
    intros [= <-]. eexists. reflexivity.
  - destruct (KalshiAdapter.init credentials); [|discriminate].
    intros [= <-]. eexists. reflexivity.
Qed.

(** An instance stays one when its fields are written. *)
Lemma instance_of_fields (p : Platform) (a : adapter_object)
    (f : class_of a) :
  instance_of p a -> instance_of p (Object (class_of a) (methods a) f).
Proof.
  unfold instance_of. destruct p; intros [f0 ->]; cbn in *; eexists;
    reflexivity.
Qed.

Lemma factory_made_set (d : list (Platform * adapter_object)) p a :
  factory_made (TradeRouter.Build d) -> instance_of p a ->
  factory_made (TradeRouter.Build (dict_set Platform_eqb d p a)).
Proof.
  unfold factory_made. cbn [TradeRouter.platforms]. intros Hd Ha.
  induction d as [|[k v] d IH]; cbn [dict_set].
  - constructor; [exact Ha|constructor].
  - inversion Hd as [|? ? Hkv Hrest]; subst.
    destruct (Platform_eqb k p).
    + constructor; [exact Ha|exact Hrest].
    + constructor; [exact Hkv|apply IH; exact Hrest].
Qed.

Lemma factory_made_del (d : list (Platform * adapter_object)) p :
  factory_made (TradeRouter.Build d) ->
  factory_made (TradeRouter.Build (dict_del Platform_eqb d p)).
Proof.
  unfold factory_made. cbn [TradeRouter.platforms]. intros Hd.
  induction d as [|[k v] d IH]; cbn [dict_del]; [constructor|].
  inversion Hd as [|? ? Hkv Hrest]; subst.
  destruct (Platform_eqb k p); [exact Hrest|].
  constructor; [exact Hkv|apply IH; exact Hrest].
Qed.

Lemma factory_made_get (r : TradeRouter.t) p a :
  factory_made r ->
  dict_get Platform_eqb (TradeRouter.platforms r) p = Some a ->
  instance_of p a.
Proof.
  unfold factory_made. destruct r as [d]. cbn [TradeRouter.platforms].
  intros Hd. induction d as [|[k v] d IH]; cbn [dict_get]; [discriminate|].
  inversion Hd as [|? ? Hkv Hrest]; subst.
  destruct (Platform_eqb k p) eqn:E.
  - apply Platform_eqb_eq in E. subst k. intros [= <-]. exact Hkv.
  - apply IH. exact Hrest.
Qed.

(** A call of a method of an instance leaves the registry factory-made. *)
Lemma factory_made_call {R} (p : Platform) (a : adapter_object)
    (method : forall A, BasePlatform A -> M (A * World) R)
    (s : TradeRouter.t * World) :
  factory_made (fst s) -> instance_of p a ->
  factory_made (fst (snd (TradeRouter.call p a method s))).
Proof.
  intros Hs Ha. unfold TradeRouter.call. cbn [fst snd].
  destruct s as [[d] w]. cbn [fst TradeRouter.platforms].
  apply factory_made_set; [exact Hs|].
  apply instance_of_fields. exact Ha.
Qed.

Lemma instance_execute_settles (p : Platform) (a : adapter_object)
    (trade : TradeRequest.t) (w : World) :
  instance_of p a ->
  exists res s',
    @Platforms.execute_trade (class_of a) (methods a) trade (fields a, w)
    = (Ok res, s')
    /\ settled p res.
Proof.
  unfold instance_of. destruct p; intros [f ->].
  - exact (solana_execute_settles trade (f, w)).
  - exact (polymarket_execute_settles trade (f, w)).
  - exact (kalshi_execute_settles trade (f, w)).
Qed.

Lemma instance_get_balance_returns (p : Platform) (a : adapter_object)
    (token : option string) (w : World) :
  instance_of p a ->
  exists b s',
    @Platforms.get_balance (class_of a) (methods a) token (fields a, w)
    = (Ok b, s').
Proof.
  unfold instance_of. destruct p; intros [f ->].
  - exact (solana_get_balance_ok token (f, w)).
  - exact (polymarket_get_balance_ok token (f, w)).
  - exact (kalshi_get_balance_ok token (f, w)).
Qed.

Lemma instance_close_returns (p : Platform) (a : adapter_object)
    (w : World) :
  instance_of p a ->
  exists u s',
    @Platforms.close (class_of a) (methods a) (fields a, w) = (Ok u, s').
Proof.
  unfold instance_of. destruct p; intros [f ->].
  - exact (solana_close_returns (f, w)).
  - exact (polymarket_close_returns (f, w)).
  - exact (kalshi_close_returns (f, w)).
Qed.

Lemma close_each_factory (items : list (Platform * adapter_object)) :
  forall s : TradeRouter.t * World,
    Forall (fun entry => instance_of (fst entry) (snd entry)) items ->
    factory_made (fst s) ->
    exists s',
      TradeRouter.close_each items s = (Ok tt, s')
      /\ factory_made (fst s').
Proof.
  induction items as [|[p a] items IH]; intros s Hitems Hs.
  - exists s. split; [reflexivity|exact Hs].
  - inversion Hitems as [|? ? Ha Hrest]; subst. cbn [fst snd] in Ha.
    cbn [TradeRouter.close_each]. unfold bind at 1.
    pose proof (factory_made_call p a (fun A cls => Platforms.close) s Hs Ha)
      as Hs1.
    destruct (instance_close_returns p a (snd s) Ha) as (u & st & Hclose).
    unfold TradeRouter.call in *. rewrite Hclose in *. cbn [fst snd] in *.
    apply IH; assumption.
Qed.

Lemma collect_balances_factory (items : list (Platform * adapter_object)) :
  forall (balances : list (Platform * pyval)) (s : TradeRouter.t * World),
    Forall (fun entry => instance_of (fst entry) (snd entry)) items ->
    factory_made (fst s) ->
    factory_made
      (fst (snd (TradeRouter.collect_balances items balances s))).
Proof.
  induction items as [|[p a] items IH]; intros balances s Hitems Hs.
  - exact Hs.
  - inversion Hitems as [|? ? Ha Hrest]; subst. cbn [fst snd] in Ha.
    cbn [TradeRouter.collect_balances]. unfold bind at 1, try_except at 1.
    pose proof (factory_made_call p a
                  (fun A cls => Platforms.get_balance None) s Hs Ha) as Hs1.
    destruct (TradeRouter.call p a
                (fun A cls => Platforms.get_balance None) s)
      as [[b|e] s1]; cbn [fst snd] in Hs1.
    + apply IH; assumption.
    + unfold ret. apply IH; assumption.
Qed.

(** What each operation of the router makes of a factory-made registry. *)
Lemma registry_stays_factory_made_lemmas (r : TradeRouter.t) (w : World) :
  factory_made r ->
  (forall credentials,
      factory_made
        (fst (snd (TradeRouter.register_platform credentials (r, w)))))
  /\ (forall platform,
         factory_made
           (fst (snd (TradeRouter.unregister_platform platform (r, w)))))
  /\ (forall trade,
         factory_made (fst (snd (TradeRouter.execute_trade trade (r, w)))))
  /\ (forall platform token,
         factory_made
           (fst (snd (TradeRouter.get_balance platform token (r, w)))))
  /\ factory_made (fst (snd (TradeRouter.get_all_balances (r, w))))
  /\ factory_made (fst (snd (TradeRouter.close_all (r, w)))).
Proof.
  intros Hr. split; [|split; [|split; [|split; [|split]]]].
  - intros credentials.
    unfold TradeRouter.register_platform, bind, lift_result, set_self,
      modify.
    destruct (get_platform_adapter credentials) as [a|e] eqn:E;
      cbn [fst snd]; [|exact Hr].
    destruct r as [d]. apply factory_made_set; [exact Hr|].
    apply instance_of_factory. exact E.
  - intros platform.
    unfold TradeRouter.unregister_platform, bind, self, gets, set_self,
      modify, ret. cbn [fst snd].
    destruct (dict_get _ _ _); cbn [fst snd]; [|exact Hr].
    destruct r as [d]. apply factory_made_del. exact Hr.
  - intros trade. unfold TradeRouter.execute_trade, bind, self, gets.
    cbn [fst snd].
    destruct (dict_get _ _ _) as [a|] eqn:E.
    + apply factory_made_call; [exact Hr|].
      eapply factory_made_get; eassumption.
    + unfold utcnow, gets, lift_result. cbn [fst snd]. exact Hr.
  - intros platform token. unfold TradeRouter.get_balance, bind, self, gets.
    cbn [fst snd].
    destruct (dict_get _ _ _) as [a|] eqn:E.
    + apply factory_made_call; [exact Hr|].
      eapply factory_made_get; eassumption.
    + exact Hr.
  - unfold TradeRouter.get_all_balances, bind, self, gets. cbn [fst snd].
    apply collect_balances_factory; exact Hr.
  - unfold TradeRouter.close_all, bind, self, gets. cbn [fst snd].
    destruct (close_each_factory (TradeRouter.platforms r) (r, w) Hr Hr)
      as (s' & -> & Hs'). exact Hs'.
Qed.

(** X16.  The router keeps its registry factory-made: the empty registry
    is, and every operation of the router leaves it so, whether it
    returns or raises. *)
Theorem registry_stays_factory_made :
  factory_made TradeRouter.init
  /\ forall (r : TradeRouter.t) (w : World),
       factory_made r ->
       (forall credentials,
           factory_made
             (fst (snd (TradeRouter.register_platform credentials (r, w)))))
       /\ (forall platform,
              factory_made
                (fst (snd (TradeRouter.unregister_platform platform (r, w)))))
       /\ (forall trade,
              factory_made (fst (snd (TradeRouter.execute_trade trade (r, w)))))
       /\ (forall platform token,
              factory_made
                (fst (snd (TradeRouter.get_balance platform token (r, w)))))
       /\ factory_made (fst (snd (TradeRouter.get_all_balances (r, w))))
       /\ factory_made (fst (snd (TradeRouter.close_all (r, w)))).
Proof.
  split; [constructor|]. intros r w.
  apply registry_stays_factory_made_lemmas.
Qed.

(** What the dispatch answers on a factory-made registry. *)
Lemma router_never_raises_lemmas (r : TradeRouter.t) (w : World) :
  factory_made r ->
  (forall trade, exists res s',
      TradeRouter.execute_trade trade (r, w) = (Ok res, s')
      /\ settled (TradeRequest.platform trade) res)
  /\ (forall platform token, exists b s',
         TradeRouter.get_balance platform token (r, w) = (Ok b, s'))
  /\ (exists s', TradeRouter.close_all (r, w) = (Ok tt, s')).
Proof.
  intros Hr. split; [|split].
  - intros trade. unfold TradeRouter.execute_trade, bind, self, gets.
    cbn [fst snd].
    destruct (dict_get _ _ _) as [a|] eqn:E.
    + pose proof (factory_made_get r _ a Hr E) as Ha.
      destruct (instance_execute_settles _ a trade w Ha)
        as (res & st & Hrun & Hres).
      unfold TradeRouter.call. cbn [fst snd]. rewrite Hrun. cbn [fst snd].
      eexists. eexists. split; [reflexivity|exact Hres].
    + unfold utcnow, gets, lift_result, TradeResult.new. cbn.
      eexists. eexists. split; [reflexivity|].
      split; [reflexivity|]. left. repeat split.
  - intros platform token. unfold TradeRouter.get_balance, bind, self, gets.
    cbn [fst snd].
    destruct (dict_get _ _ _) as [a|] eqn:E.
    + pose proof (factory_made_get r _ a Hr E) as Ha.
      destruct (instance_get_balance_returns _ a token w Ha)
        as (b & st & Hrun).
      unfold TradeRouter.call. cbn [fst snd]. rewrite Hrun. cbn [fst snd].
      eexists. eexists. reflexivity.
    + eexists. eexists. reflexivity.
  - unfold TradeRouter.close_all, bind, self, gets. cbn [fst snd].
    destruct (close_each_factory (TradeRouter.platforms r) (r, w) Hr Hr)
      as (s' & Hrun & _). exists s'. exact Hrun.
Qed.

(** ** Closing *)







End Factory.

Lemma router_of_factory_made :
  factory_made (O := Doubles.down) (P := Doubles.pydantic)
    (I := Doubles.interpreter) Doubles.router_of_factory.
Proof.
  unfold factory_made, Doubles.router_of_factory.
  cbn [TradeRouter.platforms].
  constructor; [|constructor].
  exists Doubles.kalshi. reflexivity.
Qed.

Lemma registry_stays_factory_made_witness :
  factory_made (O := Doubles.down) (P := Doubles.pydantic)
    (I := Doubles.interpreter)
    (fst (snd (TradeRouter.execute_trade (P := Doubles.pydantic)
                 (Doubles.request KALSHI BUY f_1 f_0_01)
                 (Doubles.router_of_factory, Doubles.world0)))).
Proof.
  apply (proj2 (@registry_stays_factory_made Doubles.down Doubles.pydantic
                  Doubles.interpreter)
           Doubles.router_of_factory Doubles.world0 router_of_factory_made).
Defined.

End FactoryFacts.

Module DecisionFacts.
Import Py Py.Notations Models Agents PyFacts AgentFacts.

(** ** The fragment between the braces *)

Lemma find_split (s : string) (c : ascii) :
  0 <= find s c ->
  exists pre rest, s = pre ++ String c rest /\ find pre c = -1.
Proof.
  induction s as [|a s IH]; simpl; [lia|].
  destruct (Ascii.eqb a c) eqn:E.
  - intros _. apply Ascii.eqb_eq in E. subst a.
    exists "", s. split; reflexivity.
  - destruct (find s c <? 0) eqn:E'; [lia|]. intros _.
    apply Z.ltb_ge in E'. destruct (IH E') as (pre & rest & -> & Hpre).
    exists (String a pre), rest. split; [reflexivity|].
    simpl. rewrite E, Hpre. reflexivity.
Qed.

Lemma rfind_split (s : string) (c : ascii) :
  0 <= rfind s c ->
  exists body suf, s = body ++ String c suf /\ rfind suf c = -1.
Proof.
  induction s as [|a s IH]; simpl; [lia|].
  destruct (0 <=? rfind s c) eqn:E.
  - intros _. apply Z.leb_le in E.
    destruct (IH E) as (body & suf & -> & Hsuf).
    exists (String a body), suf. split; [reflexivity|exact Hsuf].
  - apply Z.leb_gt in E. pose proof (rfind_ge s c) as Hge.
    destruct (Ascii.eqb a c) eqn:Ea; [|lia]. intros _.
    apply Ascii.eqb_eq in Ea. subst a.
    exists "", s. split; [reflexivity|lia].
Qed.

(** Two ways to cut one text: the shorter head is a head of the longer. *)
Lemma append_cut (s1 t1 s2 t2 : string) :
  s1 ++ t1 = s2 ++ t2 ->
  (String.length s1 <= String.length s2)%nat ->
  exists m, s2 = s1 ++ m /\ t1 = m ++ t2.
Proof.
  revert s2. induction s1 as [|a s1 IH]; intros s2 Heq Hlen.
  - exists s2. split; [reflexivity|exact Heq].
  - destruct s2 as [|b s2]; [simpl in Hlen; lia|].
    simpl in Heq. injection Heq as -> Heq. simpl in Hlen.
    destruct (IH s2 Heq) as (m & -> & ->); [lia|].
    exists m. split; reflexivity.
Qed.

(** X19.  [json_fragment] gives the text from the first opening brace to
    the last closing brace, when the one comes before the other, and
    nothing otherwise. *)
Theorem json_fragment_spans_the_braces (content fragment : string) :
  AnthropicAgent.json_fragment content = Some fragment
  <-> exists pre inner suf,
        content = pre ++ ("{" ++ inner ++ "}") ++ suf
        /\ find pre "{"%char = -1
        /\ rfind suf "}"%char = -1
        /\ fragment = "{" ++ inner ++ "}".
Proof.
  split.
  - intros Hfrag. pose proof Hfrag as Hfrag0.
    unfold AnthropicAgent.json_fragment in Hfrag.
    destruct ((0 <=? find content "{"%char)
              && (find content "{"%char <? rfind content "}"%char + 1))
      eqn:E; [|discriminate].
    apply andb_true_iff in E. destruct E as [Hstart Hend].
    apply Z.leb_le in Hstart. apply Z.ltb_lt in Hend.
    destruct (find_split content "{"%char Hstart)
      as (pre & rest & Hcontent & Hpre).
    assert (Hlast : 0 <= rfind content "}"%char) by lia.
    destruct (rfind_split content "}"%char Hlast)
      as (body & suf & Hcontent' & Hsuf).
    assert (Hi : find content "{"%char = Z.of_nat (String.length pre)).
    { rewrite Hcontent. apply find_app. exact Hpre. }
    assert (Hj : rfind content "}"%char = Z.of_nat (String.length body)).
    { rewrite Hcontent'. apply rfind_app. exact Hsuf. }
    assert (Hcut : pre ++ String "{" rest = body ++ String "}" suf)
      by congruence.
    destruct (append_cut pre _ body _ Hcut) as (m & Hbody & Hrest); [lia|].
    destruct m as [|b inner]; [discriminate|].
    simpl in Hrest. injection Hrest as <- Hrest.
    assert (Hshape : content = pre ++ ("{" ++ inner ++ "}") ++ suf).
    { rewrite Hcontent', Hbody. clear.
      induction pre as [|a pre IH]; simpl.
      - rewrite append_assoc. reflexivity.
      - rewrite IH. reflexivity. }
    exists pre, inner, suf. repeat split; try assumption.
    rewrite Hshape in Hfrag0.
    rewrite (json_fragment_found pre inner suf Hpre Hsuf) in Hfrag0.
    congruence.
  - intros (pre & inner & suf & -> & Hpre & Hsuf & ->).
    apply json_fragment_found; assumption.
Qed.

(** ** The request that a decision decodes to *)

Section Decoding.
Context {L : Provider} {J : Json} {P : Pydantic} {I : Interpreter}.

Lemma extract_decision_some content json_str d out request out' :
  AnthropicAgent.json_fragment content = Some json_str ->
  json_loads json_str = Ok (PDict d) ->
  AnthropicAgent.extract_decision content out = (Ok (Some request), out') ->
  out' = out
  /\ dict_get String.eqb d "action" = Some (PStr "trade")
  /\ exists pv tv av,
       dict_get String.eqb d "platform" = Some pv
       /\ Platform_member pv = Some (TradeRequest.platform request)
       /\ dict_get String.eqb d "trade_type" = Some tv
       /\ TradeType_member tv = Some (TradeRequest.trade_type request)
       /\ dict_get String.eqb d "symbol"
          = Some (PStr (TradeRequest.symbol request))
       /\ dict_get String.eqb d "amount" = Some av
       /\ validate_float av = Some (TradeRequest.amount request)
       /\ validate_optional validate_float
            (dict_get_default d "price" PNone)
          = Some (TradeRequest.price request)
       /\ TradeRequest.validate_slippage
            (Some (dict_get_default d "slippage" (PFloat f_0_01)))
          = Some (TradeRequest.slippage request)
       /\ TradeRequest.metadata request
          = [("reasoning", dict_get_default d "reasoning" (PStr ""))].
Proof.
  intros Hfrag Hloads. unfold AnthropicAgent.extract_decision.
  rewrite Hfrag, Hloads, bind_lift_ok. cbn [py_get py_getitem].
  rewrite bind_lift_ok.
  destruct (dict_get String.eqb d "action") as [action|] eqn:Ha;
    [|discriminate].
  destruct (eq_str action "trade") eqn:Et; [|discriminate].
  assert (action = PStr "trade") as ->.
  { destruct action; try discriminate. simpl in Et.
    apply String.eqb_eq in Et. subst. reflexivity. }
  destruct (dict_get String.eqb d "platform") as [pv|] eqn:Hp;
    [|discriminate].
  rewrite bind_lift_ok. unfold Platform_call.
  destruct (Platform_member pv) as [p|] eqn:Hpm; [|discriminate].
  rewrite bind_lift_ok.
  destruct (dict_get String.eqb d "trade_type") as [tv|] eqn:Ht;
    [|discriminate].
  rewrite bind_lift_ok. unfold TradeType_call.
  destruct (TradeType_member tv) as [t|] eqn:Htm; [|discriminate].
  rewrite bind_lift_ok.
  destruct (dict_get String.eqb d "symbol") as [sv|] eqn:Hs;
    [|discriminate].
  rewrite bind_lift_ok.
  destruct (dict_get String.eqb d "amount") as [av|] eqn:Ham;
    [|discriminate].
  rewrite !bind_lift_ok.
  fold (dict_get_default d "price" PNone).
  fold (dict_get_default d "slippage" (PFloat f_0_01)).
  fold (dict_get_default d "reasoning" (PStr "")).
  unfold TradeRequest.new.
  destruct (validate_str sv) as [sym|] eqn:Hsym; [|discriminate].
  destruct (validate_float av) as [a|] eqn:Hav; [|discriminate].
  destruct (validate_optional validate_float _) as [pr|] eqn:Hpr;
    [|discriminate].
  destruct (TradeRequest.validate_slippage _) as [sl|] eqn:Hsl;
    [|discriminate].
  rewrite bind_lift_ok. intros [= <- <-]. cbn.
  destruct sv; try discriminate. injection Hsym as ->.
  split; [reflexivity|]. split; [reflexivity|].
  exists pv, tv, av. repeat split; assumption.
Qed.

(** X20.  When the answer of the model holds an object, a request is
    returned exactly when the action of the object is "trade" and every
    field validates; the request is made of the fields alone: nothing in
    the configuration of the agent (the platforms it may use, its maximal
    position size, its risk limit) bounds it. *)
Theorem request_is_the_decoded_object (agent : AnthropicAgent.t)
    (market_data portfolio : list (string * pyval)) (context : string)
    (out : stdout) (blocks : list content_block)
    (content json_str : string) (d : list (string * pyval))
    (request : TradeRequest.t) (out' : stdout) :
  messages_create
    (AnthropicAgent.decision_request agent market_data portfolio context)
  = Ok blocks ->
  AnthropicAgent.first_text blocks = Ok content ->
  AnthropicAgent.json_fragment content = Some json_str ->
  json_loads json_str = Ok (PDict d) ->
  AnthropicAgent.generate_trade_decision agent market_data portfolio context
    out = (Ok (Some request), out')
  <-> out' = out
      /\ dict_get String.eqb d "action" = Some (PStr "trade")
      /\ exists pv tv av,
           dict_get String.eqb d "platform" = Some pv
           /\ Platform_member pv = Some (TradeRequest.platform request)
           /\ dict_get String.eqb d "trade_type" = Some tv
           /\ TradeType_member tv = Some (TradeRequest.trade_type request)
           /\ dict_get String.eqb d "symbol"
              = Some (PStr (TradeRequest.symbol request))
           /\ dict_get String.eqb d "amount" = Some av
           /\ validate_float av = Some (TradeRequest.amount request)
           /\ validate_optional validate_float
                (dict_get_default d "price" PNone)
              = Some (TradeRequest.price request)
           /\ TradeRequest.validate_slippage
                (Some (dict_get_default d "slippage" (PFloat f_0_01)))
              = Some (TradeRequest.slippage request)
           /\ TradeRequest.metadata request
              = [("reasoning", dict_get_default d "reasoning" (PStr ""))].
Proof.
  intros Hcreate Htext Hfrag Hloads.
  unfold AnthropicAgent.generate_trade_decision.
  rewrite Hcreate, bind_lift_ok, Htext, bind_lift_ok.
  split.
  - unfold try_except, try_except_cls, bind.
    destruct (AnthropicAgent.extract_decision content out)
      as [[[r|]|e] out1] eqn:E.
    + intros [= <- <-].
      apply (extract_decision_some content json_str d out r out1 Hfrag
               Hloads E).
    + discriminate.
    + destruct (issubclass (exn_cls e) JSONDecodeError); discriminate.
  - intros (-> & Ha & pv & tv & av & Hp & Hpm & Ht & Htm & Hs & Hav & Hvf
            & Hpr & Hsl & Hmeta).
    unfold AnthropicAgent.extract_decision.
    rewrite Hfrag, Hloads, bind_lift_ok. cbn [py_get py_getitem].
    rewrite Ha, bind_lift_ok.
    change (eq_str (PStr "trade") "trade") with true. cbv iota.
    rewrite Hp, bind_lift_ok. unfold Platform_call.
    rewrite Hpm, bind_lift_ok, Ht, bind_lift_ok. unfold TradeType_call.
    rewrite Htm, bind_lift_ok, Hs, bind_lift_ok, Hav, !bind_lift_ok.
    fold (dict_get_default d "price" PNone).
    fold (dict_get_default d "slippage" (PFloat f_0_01)).
    fold (dict_get_default d "reasoning" (PStr "")).
    unfold TradeRequest.new. cbn [validate_str]. rewrite Hvf, Hpr, Hsl.
    destruct request as [p t sym a pr sl meta]. cbn in Hmeta. subst meta.
    reflexivity.
Qed.
End Decoding.

Lemma request_is_the_decoded_object_witness :
  AnthropicAgent.generate_trade_decision
    (L := Doubles.provider Doubles.kalshi_text) (J := Doubles.json)
    (P := Doubles.pydantic) (I := Doubles.interpreter)
    Doubles.agent [] [] "" []
  = (Ok (Some (TradeRequest.Build KALSHI BUY "FED-25" Doubles.f_5000 None
                 f_0_01 [("reasoning", PStr "all in")])), []).
Proof.
  apply (@request_is_the_decoded_object
           (Doubles.provider Doubles.kalshi_text) Doubles.json
           Doubles.pydantic Doubles.interpreter Doubles.agent [] [] "" []
           [TextBlock Doubles.kalshi_text] Doubles.kalshi_text
           Doubles.kalshi_text Doubles.kalshi_object).
  - reflexivity.
  - reflexivity.
  - vm_compute. reflexivity.
  - vm_compute. reflexivity.
  - split; [reflexivity|]. split; [reflexivity|].
    exists (PStr "kalshi"), (PStr "buy"), (PFloat Doubles.f_5000).
    repeat split; reflexivity.
Defined.

(** ** What a failure leaves behind *)

Lemma extract_decision_preserves {J : Json} {P : Pydantic} {I : Interpreter}
    (content : string) :
  preserves (AnthropicAgent.extract_decision content).
Proof. unfold AnthropicAgent.extract_decision. preserving. Qed.

(** X21.  [generate_trade_decision] prints nothing when it returns a
    request and at most one line otherwise; a failure of the provider, or
    an answer whose first block is not text, gives a hold and the line
    "Error generating trade decision: " with the text of the exception. *)
Theorem failure_is_a_reported_hold {L : Provider} {J : Json} {P : Pydantic}
    {I : Interpreter} (agent : AnthropicAgent.t)
    (market_data portfolio : list (string * pyval)) (context : string)
    (out : stdout) :
  (exists r out',
      AnthropicAgent.generate_trade_decision agent market_data portfolio
        context out = (Ok r, out')
      /\ (out' = out
          \/ (r = None
              /\ exists e,
                   out' = (out ++ [("Error generating trade decision: "
                                    ++ exn_str e)%string])%list)))
  /\ (forall e,
        messages_create
          (AnthropicAgent.decision_request agent market_data portfolio
             context) = Raise e ->
        AnthropicAgent.generate_trade_decision agent market_data portfolio
          context out
        = (Ok None,
           (out ++ [("Error generating trade decision: "
                    ++ exn_str e)%string])%list))
  /\ (forall blocks e,
        messages_create
          (AnthropicAgent.decision_request agent market_data portfolio
             context) = Ok blocks ->
        AnthropicAgent.first_text blocks = Raise e ->
        AnthropicAgent.generate_trade_decision agent market_data portfolio
          context out
        = (Ok None,
           (out ++ [("Error generating trade decision: "
                    ++ exn_str e)%string])%list)).
Proof.
  unfold AnthropicAgent.generate_trade_decision.
  split; [|split].
  - destruct (messages_create _) as [blocks|e].
    + rewrite bind_lift_ok.
      destruct (AnthropicAgent.first_text blocks) as [content|e].
      * rewrite bind_lift_ok.
        pose proof (extract_decision_preserves content out) as Hout.
        unfold try_except, try_except_cls, bind, print, modify, ret.
        destruct (AnthropicAgent.extract_decision content out)
          as [[[r|]|e] out1]; cbn [snd] in Hout; subst out1.
        -- eexists. eexists. split; [reflexivity|]. left. reflexivity.
        -- eexists. eexists. split; [reflexivity|]. left. reflexivity.
        -- destruct (issubclass (exn_cls e) JSONDecodeError);
             eexists; eexists; (split; [reflexivity|]);
             [left; reflexivity|right; split; [reflexivity|]].
           exists e. reflexivity.
      * eexists. eexists. split; [reflexivity|]. right.
        split; [reflexivity|]. exists e. reflexivity.
    + eexists. eexists. split; [reflexivity|]. right.
      split; [reflexivity|]. exists e. reflexivity.
  - intros e ->. reflexivity.
  - intros blocks e -> Htext. rewrite bind_lift_ok, Htext. reflexivity.
Qed.

Lemma failure_is_a_reported_hold_witness :
  AnthropicAgent.generate_trade_decision
    (L := {| messages_create := fun _ =>
               Raise (Exn TransportError "Connection error.") |})
    (J := Doubles.json) (P := Doubles.pydantic) (I := Doubles.interpreter)
    Doubles.agent [] [] "" []
  = (Ok None, ["Error generating trade decision: Connection error."]).
Proof.
  apply (proj1 (proj2 (@failure_is_a_reported_hold
                         {| messages_create := fun _ =>
                              Raise (Exn TransportError
                                       "Connection error.") |}
                         Doubles.json Doubles.pydantic Doubles.interpreter
                         Doubles.agent [] [] "" []))
           (Exn TransportError "Connection error.")).
  reflexivity.
Defined.

(** ** The two agents *)

Lemma lift_raise_inv {S A} (r : result A) (s s' : S) (e : exn) :
  lift_result r s = (Raise e, s') -> r = Raise e.
Proof. unfold lift_result. intros [= -> _]. reflexivity. Qed.

(** X22.  The two agents decode one object to one outcome: when the answer
    of Claude holds an object whose action is "trade", and the function
    call of the OpenAI model carries arguments that decode to the same
    object, both return the same request, or both hold and print the same
    line. *)
Theorem agents_agree_on_a_trade {L : Provider} {L' : OpenAIAgent.ChatProvider}
    {J : Json} {P : Pydantic} {I : Interpreter}
    (claude : AnthropicAgent.t) (gpt : OpenAIAgent.t)
    (market_data portfolio : list (string * pyval)) (context : string)
    (out : stdout) (blocks : list content_block)
    (content json_str arguments : string) (d : list (string * pyval)) :
  messages_create
    (AnthropicAgent.decision_request claude market_data portfolio context)
  = Ok blocks ->
  AnthropicAgent.first_text blocks = Ok content ->
  AnthropicAgent.json_fragment content = Some json_str ->
  json_loads json_str = Ok (PDict d) ->
  dict_get String.eqb d "action" = Some (PStr "trade") ->
  OpenAIAgent.completions_create
    (OpenAIAgent.decision_request gpt market_data portfolio context)
  = Ok {| OpenAIAgent.function_call := Some arguments |} ->
  json_loads arguments = Ok (PDict d) ->
  AnthropicAgent.generate_trade_decision claude market_data portfolio
    context out
  = OpenAIAgent.generate_trade_decision gpt market_data portfolio context
      out.
Proof.
  intros Hcreate Htext Hfrag Hloads Haction Hcreate' Hloads'.
  unfold AnthropicAgent.generate_trade_decision,
    OpenAIAgent.generate_trade_decision.
  rewrite Hcreate, bind_lift_ok, Htext, bind_lift_ok.
  rewrite Hcreate', bind_lift_ok. cbn [OpenAIAgent.function_call].
  rewrite Hloads', bind_lift_ok.
  unfold AnthropicAgent.extract_decision.
  rewrite Hfrag, Hloads, bind_lift_ok. cbn [py_get].
  rewrite Haction, bind_lift_ok.
  change (eq_str (PStr "trade") "trade") with true. cbv iota.
  match goal with |- context [try_except_cls _ ?c _] => set (chain := c) end.
  assert (Hcls : forall e out1,
             chain out = (Raise e, out1) ->
             issubclass (exn_cls e) JSONDecodeError = false).
  { intros e out1. unfold chain. cbn [py_getitem py_get].
    unfold Platform_call, TradeType_call, TradeRequest.new.
    repeat match goal with
           | |- context [bind (lift_result ?r) _] =>
               match r with
               | Ok _ => rewrite bind_lift_ok
               | _ =>
                   let E := fresh "E" in
                   destruct r eqn:E;
                   [rewrite bind_lift_ok
                   |unfold bind, lift_result; intros [= <- _]]
               end
           end;
      try (intros [= ]; fail).
    all: repeat match goal with
           | E : match ?x with _ => _ end = Raise _ |- _ =>
               destruct x; try discriminate
           end.
    all: match goal with
         | E : _ = Raise _ |- _ => injection E as <-; reflexivity
         end. }
  unfold try_except, try_except_cls. unfold bind at 1.
  destruct (chain out) as [[[r|]|e] out1] eqn:E.
  - reflexivity.
  - reflexivity.
  - rewrite (Hcls e out1 eq_refl). reflexivity.
Qed.

Lemma agents_agree_on_a_trade_witness :
  OpenAIAgent.generate_trade_decision
    (L := Doubles.chat_provider (Some Doubles.kalshi_text))
    (J := Doubles.json) (P := Doubles.pydantic) (I := Doubles.interpreter)
    Doubles.gpt [] [] "" []
  = (Ok (Some (TradeRequest.Build KALSHI BUY "FED-25" Doubles.f_5000 None
                 f_0_01 [("reasoning", PStr "all in")])), []).
Proof.
  assert (Hfrag : AnthropicAgent.json_fragment Doubles.kalshi_text
                  = Some Doubles.kalshi_text) by (vm_compute; reflexivity).
  assert (Hloads : json_loads (Json := Doubles.json) Doubles.kalshi_text
                   = Ok (PDict Doubles.kalshi_object))
    by (vm_compute; reflexivity).
  rewrite <- (@agents_agree_on_a_trade
                (Doubles.provider Doubles.kalshi_text)
                (Doubles.chat_provider (Some Doubles.kalshi_text))
                Doubles.json Doubles.pydantic Doubles.interpreter
                Doubles.agent Doubles.gpt [] [] "" []
                [TextBlock Doubles.kalshi_text] Doubles.kalshi_text
                Doubles.kalshi_text Doubles.kalshi_text
                Doubles.kalshi_object eq_refl eq_refl Hfrag Hloads eq_refl
                eq_refl Hloads).
  vm_compute. reflexivity.
Defined.

(** ** The factory *)

(** X23.  [get_agent] gives an agent that holds the configuration it was
    made from, for the types "openai" and "anthropic" with an API key that
    is not empty; it raises a [ValueError] otherwise: "Unsupported agent
    type: custom" for the type "custom", which no configuration can
    instantiate, and "... API key is required" for a missing or empty
    key. *)
Theorem get_agent_outcome (config : AgentConfig.t) :
  match get_agent config with
  | Ok a =>
      agent_config a = config
      /\ AgentConfig.agent_type config <> CUSTOM
      /\ truthy (of_optional_str (AgentConfig.api_key config)) = true
      /\ match a with
         | OpenAIObject _ => AgentConfig.agent_type config = OPENAI
         | AnthropicObject _ => AgentConfig.agent_type config = ANTHROPIC
         end
  | Raise e =>
      exn_cls e = ValueError
      /\ exn_str e
         = match AgentConfig.agent_type config with
           | CUSTOM => "Unsupported agent type: custom"
           | OPENAI => "OpenAI API key is required"
           | ANTHROPIC => "Anthropic API key is required"
           end
      /\ (AgentConfig.agent_type config = CUSTOM
          \/ truthy (of_optional_str (AgentConfig.api_key config)) = false)
  end.
Proof.
  unfold get_agent, OpenAIAgent.init, AnthropicAgent.init.
  destruct (AgentConfig.agent_type config);
    destruct (AgentConfig.api_key config) as [key|];
    try destruct (String.eqb key "") eqn:E; cbn;
    rewrite ?E; cbn; repeat split; auto; discriminate.
Qed.
End DecisionFacts.

Module ApiFacts.
Import Py Py.Notations Models Platforms Routers Agents PyFacts StepFacts
  PlatformFacts RouterFacts AgentFacts AdapterFacts FactoryFacts
  RegistryFacts.

(** ** The agents behind the endpoints *)

Section Decide.
Context {L : Provider} {L' : OpenAIAgent.ChatProvider} {J : Json}
  {P : Pydantic} {I : Interpreter}.

(** [generate_trade_decision] of either class never raises. *)
Lemma decide_returns (agent : agent_object)
    (market_data portfolio : list (string * pyval)) (context : string) :
  returns (Api.decide agent market_data portfolio context).
Proof.
  destruct agent as [a|a]; intros out.
  - unfold Api.decide, OpenAIAgent.generate_trade_decision.
    apply returns_try_except. intros e s. eexists. eexists. reflexivity.
  - apply generate_trade_decision_total.
Qed.
End Decide.

(** ** The endpoint that asks an agent *)

Section AgentTrade.
Context {O : Outside} {L : Provider} {L' : OpenAIAgent.ChatProvider}
  {J : Json} {P : Pydantic} {I : Interpreter}.

Lemma agent_trade_endpoint_run (s : Api.t) (agent_name : string)
    (market_data portfolio : list (string * pyval)) (context : string)
    (execute : bool) :
  match dict_get String.eqb (Api.active_agents s) agent_name with
  | None =>
      Api.agent_generate_trade agent_name market_data portfolio context
        execute s
      = (Ok (Api.not_found agent_name), s)
  | Some agent =>
      exists decision out',
        Api.decide agent market_data portfolio context (Api.output s)
        = (Ok decision, out')
        /\ match decision with
           | None =>
               Api.agent_generate_trade agent_name market_data portfolio
                 context execute s
               = (Ok (Api.Return (Api.Hold agent_name)),
                  Api.Build (Api.trade_router s) (Api.active_agents s)
                    (Api.world s) out')
           | Some request =>
               if execute then
                 let run :=
                   TradeRouter.execute_trade request
                     (Api.trade_router s, Api.world s) in
                 Api.agent_generate_trade agent_name market_data portfolio
                   context execute s
                 = (match fst run with
                    | Ok result =>
                        Ok (Api.Return
                              (Api.Trade agent_name request (Some result)))
                    | Raise e => Ok (Api.HTTPException 500 (exn_str e))
                    end,
                    Api.Build (fst (snd run)) (Api.active_agents s)
                      (snd (snd run)) out')
               else
                 Api.agent_generate_trade agent_name market_data portfolio
                   context execute s
                 = (Ok (Api.Return (Api.Trade agent_name request None)),
                    Api.Build (Api.trade_router s) (Api.active_agents s)
                      (Api.world s) out')
           end
  end.
Proof.
  assert (Hstep : Api.agent_generate_trade agent_name market_data portfolio
                    context execute s
                  = match dict_get String.eqb (Api.active_agents s)
                            agent_name with
                    | None => (Ok (Api.not_found agent_name), s)
                    | Some agent =>
                        try_except
                          (bind
                             (Api.on_agent
                                (Api.decide agent market_data portfolio
                                   context))
                             (fun trade_request =>
                                match trade_request with
                                | None =>
                                    ret (Api.Return (Api.Hold agent_name))
                                | Some trade_request =>
                                    bind
                                      (if execute then
                                         bind
                                           (Api.on_router
                                              (TradeRouter.execute_trade
                                                 trade_request))
                                           (fun result => ret (Some result))
                                       else ret None)
                                      (fun result =>
                                         ret (Api.Return
                                                (Api.Trade agent_name
                                                   trade_request result)))
                                end))
                          (Api.http_error 500) s
                    end).
  { unfold Api.agent_generate_trade. unfold bind at 1, gets at 1.
    destruct (dict_get _ _ _); reflexivity. }
  rewrite Hstep. clear Hstep.
  destruct (dict_get String.eqb (Api.active_agents s) agent_name)
    as [agent|]; [|reflexivity].
  destruct (decide_returns agent market_data portfolio context
              (Api.output s)) as (decision & out' & Hrun).
  exists decision, out'. split; [exact Hrun|].
  unfold try_except, bind, Api.on_agent, Api.on_router, Api.http_error, ret.
  rewrite Hrun. cbn [fst snd].
  destruct decision as [request|]; [|reflexivity].
  destruct execute; [|reflexivity].
  cbn [Api.trade_router Api.world Api.active_agents Api.output].
  destruct (TradeRouter.execute_trade request
              (Api.trade_router s, Api.world s)) as [[result|e] [r' w']];
    reflexivity.
Qed.

(** X24.  The endpoint [agent_generate_trade] answers 404 for a name that
    is not registered, and leaves the state alone.  For a registered
    agent it never answers an error that comes from the agent; a hold, or
    a trade with [execute] false, leaves the router and the world as they
    are: nothing is sent to a venue; with [execute] true the request goes
    through the router once and the result of the router is the
    [execution_result]. *)
Theorem agent_trade_endpoint (s : Api.t) (agent_name : string)
    (market_data portfolio : list (string * pyval)) (context : string)
    (execute : bool) :
  match dict_get String.eqb (Api.active_agents s) agent_name with
  | None =>
      Api.agent_generate_trade agent_name market_data portfolio context
        execute s
      = (Ok (Api.not_found agent_name), s)
  | Some agent =>
      exists decision out',
        Api.decide agent market_data portfolio context (Api.output s)
        = (Ok decision, out')
        /\ match decision with
           | None =>
               Api.agent_generate_trade agent_name market_data portfolio
                 context execute s
               = (Ok (Api.Return (Api.Hold agent_name)),
                  Api.Build (Api.trade_router s) (Api.active_agents s)
                    (Api.world s) out')
           | Some request =>
               if execute then
                 let run :=
                   TradeRouter.execute_trade request
                     (Api.trade_router s, Api.world s) in
                 Api.agent_generate_trade agent_name market_data portfolio
                   context execute s
                 = (match fst run with
                    | Ok result =>
                        Ok (Api.Return
                              (Api.Trade agent_name request (Some result)))
                    | Raise e => Ok (Api.HTTPException 500 (exn_str e))
                    end,
                    Api.Build (fst (snd run)) (Api.active_agents s)
                      (snd (snd run)) out')
               else
                 Api.agent_generate_trade agent_name market_data portfolio
                   context execute s
                 = (Ok (Api.Return (Api.Trade agent_name request None)),
                    Api.Build (Api.trade_router s) (Api.active_agents s)
                      (Api.world s) out')
           end
  end.
Proof. apply agent_trade_endpoint_run. Qed.
End AgentTrade.

(** ** The endpoints of the router *)

Lemma collect_balances_returns (items : list (Platform * adapter_object)) :
  forall (acc : list (Platform * pyval)) (s : TradeRouter.t * World),
    exists balances s',
      TradeRouter.collect_balances items acc s = (Ok balances, s').
Proof.
  induction items as [|[p a] items IH]; intros acc s.
  - exists acc, s. reflexivity.
  - destruct (get_balance_step p a s) as (s1 & Hstep).
    cbn [TradeRouter.collect_balances]. unfold bind at 1. rewrite Hstep.
    apply IH.
Qed.

Section RouterEndpoints.
Context {O : Outside} {L : Provider} {L' : OpenAIAgent.ChatProvider}
  {J : Json} {P : Pydantic} {I : Interpreter}.

(** What the endpoints answer on a factory-made registry. *)
Lemma endpoints_on_factory_made (s : Api.t) :
  factory_made (Api.trade_router s) ->
  (forall trade, exists result s',
      Api.execute_trade trade s = (Ok (Api.Return result), s')
      /\ settled (TradeRequest.platform trade) result
      /\ factory_made (Api.trade_router s'))
  /\ (forall platform token, exists balance s',
         Api.get_platform_balance platform token s
         = (Ok (Api.Return
                  (Api.Balance (Platform_value platform) balance)), s')
         /\ factory_made (Api.trade_router s'))
  /\ (exists balances s',
         Api.get_all_balances s
         = (Ok (Api.Return (Api.Balances balances)), s')
         /\ factory_made (Api.trade_router s'))
  /\ (forall agent_name market_data portfolio context execute,
         exists answer s',
           Api.agent_generate_trade agent_name market_data portfolio
             context execute s = (Ok answer, s')
           /\ (forall detail, answer <> Api.HTTPException 500 detail)
           /\ factory_made (Api.trade_router s'))
  /\ (forall credentials,
         factory_made
           (Api.trade_router (snd (Api.register_platform credentials s))))
  /\ (forall platform,
         factory_made
           (Api.trade_router (snd (Api.unregister_platform platform s))))
  /\ (exists s', Api.shutdown_event s = (Ok tt, s')).
Proof.
  intros Hs.
  destruct (registry_stays_factory_made_lemmas (Api.trade_router s)
              (Api.world s) Hs)
    as (Hreg & Hunreg & Hexec & Hbal & Hall & Hclose).
  destruct (router_never_raises_lemmas (Api.trade_router s) (Api.world s)
              Hs) as (Hexec' & Hbal' & Hclose').
  split; [|split; [|split; [|split; [|split; [|split]]]]].
  - intros trade. destruct (Hexec' trade) as (res & [r' w'] & Hrun & Hres).
    specialize (Hexec trade). rewrite Hrun in Hexec. cbn [fst snd] in Hexec.
    unfold Api.execute_trade, try_except, bind, Api.on_router, ret.
    rewrite Hrun. cbn [fst snd].
    eexists. eexists. split; [reflexivity|]. split; assumption.
  - intros platform token.
    destruct (Hbal' platform token) as (b & [r' w'] & Hrun).
    specialize (Hbal platform token). rewrite Hrun in Hbal.
    cbn [fst snd] in Hbal.
    unfold Api.get_platform_balance, try_except, bind, Api.on_router, ret.
    rewrite Hrun. cbn [fst snd].
    eexists. eexists. split; [reflexivity|exact Hbal].
  - assert (Hrun : exists balances s',
               TradeRouter.get_all_balances
                 (Api.trade_router s, Api.world s) = (Ok balances, s')).
    { unfold TradeRouter.get_all_balances, bind, self, gets.
      cbn [fst snd]. apply collect_balances_returns. }
    destruct Hrun as (balances & [r' w'] & Hrun).
    rewrite Hrun in Hall. cbn [fst snd] in Hall.
    unfold Api.get_all_balances, try_except, bind, Api.on_router, ret.
    rewrite Hrun. cbn [fst snd].
    eexists. eexists. split; [reflexivity|exact Hall].
  - intros agent_name market_data portfolio context execute.
    pose proof (agent_trade_endpoint_run s agent_name market_data portfolio
                  context execute) as Hrun.
    destruct (dict_get String.eqb (Api.active_agents s) agent_name)
      as [agent|].
    + destruct Hrun as (decision & out' & _ & Hrun).
      destruct decision as [request|].
      * destruct execute.
        -- cbv zeta in Hrun.
           destruct (Hexec' request) as (res & [r' w'] & Hr & _).
           specialize (Hexec request). rewrite Hr in Hexec, Hrun.
           cbn [fst snd] in Hexec, Hrun. rewrite Hrun.
           eexists. eexists. split; [reflexivity|].
           split; [discriminate|exact Hexec].
        -- rewrite Hrun. eexists. eexists. split; [reflexivity|].
           split; [discriminate|exact Hs].
      * rewrite Hrun. eexists. eexists. split; [reflexivity|].
        split; [discriminate|exact Hs].
    + rewrite Hrun. eexists. eexists. split; [reflexivity|].
      split; [|exact Hs]. unfold Api.not_found. intros detail [= ].
  - intros credentials. specialize (Hreg credentials).
    unfold Api.register_platform, try_except, bind, Api.on_router,
      Api.http_error, ret.
    destruct (TradeRouter.register_platform credentials
                (Api.trade_router s, Api.world s)) as [[u|e] [r' w']];
      cbn [fst snd] in *; exact Hreg.
  - intros platform. specialize (Hunreg platform).
    unfold Api.unregister_platform, try_except, bind, Api.on_router,
      Api.http_error, ret.
    destruct (TradeRouter.unregister_platform platform
                (Api.trade_router s, Api.world s)) as [[u|e] [r' w']];
      cbn [fst snd] in *; exact Hunreg.
  - destruct Hclose' as ([r' w'] & Hrun).
    unfold Api.shutdown_event, Api.on_router. rewrite Hrun.
    eexists. reflexivity.
Qed.

(** X25.  A request that is served alone, with no other request taking
    its turn at one of its awaits, gets no 500 from the router: the
    registry is factory-made at startup, and on a factory-made registry
    the endpoints of trades and balances return their value and leave the
    registry factory-made, the endpoint of the agents answers no 500, the
    endpoints that register and unregister leave the registry factory-made,
    and the shutdown handler returns.  The endpoint of prices is not
    covered. *)
Theorem lone_request_gets_no_500 :
  (forall w, factory_made (Api.trade_router (Api.startup w)))
  /\ forall s : Api.t,
       factory_made (Api.trade_router s) ->
       (forall trade, exists result s',
           Api.execute_trade trade s = (Ok (Api.Return result), s')
           /\ settled (TradeRequest.platform trade) result
           /\ factory_made (Api.trade_router s'))
       /\ (forall platform token, exists balance s',
              Api.get_platform_balance platform token s
              = (Ok (Api.Return
                       (Api.Balance (Platform_value platform) balance)), s')
              /\ factory_made (Api.trade_router s'))
       /\ (exists balances s',
              Api.get_all_balances s
              = (Ok (Api.Return (Api.Balances balances)), s')
              /\ factory_made (Api.trade_router s'))
       /\ (forall agent_name market_data portfolio context execute,
              exists answer s',
                Api.agent_generate_trade agent_name market_data portfolio
                  context execute s = (Ok answer, s')
                /\ (forall detail, answer <> Api.HTTPException 500 detail)
                /\ factory_made (Api.trade_router s'))
       /\ (forall credentials,
              factory_made
                (Api.trade_router (snd (Api.register_platform credentials s))))
       /\ (forall platform,
              factory_made
                (Api.trade_router (snd (Api.unregister_platform platform s))))
       /\ (exists s', Api.shutdown_event s = (Ok tt, s')).
Proof.
  split; [intros w; constructor|]. intros s.
  apply endpoints_on_factory_made.
Qed.
End RouterEndpoints.

Lemma lone_request_gets_no_500_witness :
  exists result s',
    Api.execute_trade (P := Doubles.pydantic)
      (Doubles.request KALSHI BUY f_1 f_0_01)
      (Api.Build Doubles.router_of_factory [] Doubles.world0 [])
    = (Ok (Api.Return result), s')
    /\ settled KALSHI result.
Proof.
  destruct (proj2 (@lone_request_gets_no_500 Doubles.down
                     (Doubles.provider "") (Doubles.chat_provider None)
                     Doubles.json Doubles.pydantic Doubles.interpreter)
              (Api.Build Doubles.router_of_factory [] Doubles.world0 [])
              router_of_factory_made) as (Hexec & _).
  destruct (Hexec (Doubles.request KALSHI BUY f_1 f_0_01))
    as (result & s' & Hrun & Hres & _).
  exists result, s'. split; assumption.
Defined.

(** ** The registry of the agents *)

Lemma dict_del_set_fresh {V} (d : list (string * V)) k v :
  dict_get String.eqb d k = None ->
  dict_del String.eqb (dict_set String.eqb d k v) k = d.
Proof.
  induction d as [|[k' v'] d IH]; cbn [dict_get dict_set dict_del].
  - intros _. rewrite String.eqb_refl. reflexivity.
  - destruct (String.eqb k' k) eqn:E; [discriminate|]. intros Hd.
    cbn [dict_del]. rewrite E, IH by exact Hd. reflexivity.
Qed.

(** X26.  [create_agent] answers 400 with the text of the exception of
    the factory and changes nothing, or registers the agent under the
    name of its configuration and touches nothing else; [delete_agent]
    of a name that was free before the creation brings the state back,
    and answers 404 for a name that is not registered. *)
Theorem agent_registry_endpoints (s : Api.t) (config : AgentConfig.t) :
  match get_agent config with
  | Ok agent =>
      exists agents,
        let s' :=
          Api.Build (Api.trade_router s) agents (Api.world s)
            (Api.output s) in
        Api.create_agent config s
        = (Ok (Api.Return
                 (Api.AgentCreated (AgentConfig.name config)
                    (AgentType_value (AgentConfig.agent_type config)))), s')
        /\ dict_get String.eqb agents (AgentConfig.name config) = Some agent
        /\ (forall name, name <> AgentConfig.name config ->
              dict_get String.eqb agents name
              = dict_get String.eqb (Api.active_agents s) name)
        /\ (dict_get String.eqb (Api.active_agents s)
              (AgentConfig.name config) = None ->
            Api.delete_agent (AgentConfig.name config) s'
            = (Ok (Api.Return
                     (Api.AgentDeleted
                        ("Agent " ++ AgentConfig.name config ++ " deleted"))),
               s))
  | Raise e =>
      Api.create_agent config s = (Ok (Api.HTTPException 400 (exn_str e)), s)
  end
  /\ (forall name,
        dict_get String.eqb (Api.active_agents s) name = None ->
        Api.delete_agent name s = (Ok (Api.not_found name), s)).
Proof.
  split.
  - unfold Api.create_agent.
    destruct (get_agent config) as [agent|e]; [|reflexivity].
    exists (dict_set String.eqb (Api.active_agents s)
              (AgentConfig.name config) agent).
    cbv zeta. split; [reflexivity|]. split; [|split].
    + apply (dict_get_set_same String.eqb String.eqb_eq).
    + intros name Hname.
      apply (dict_get_set_other String.eqb String.eqb_eq). exact Hname.
    + intros Hfree. unfold Api.delete_agent, bind, gets, Api.set_agents,
        modify, ret. cbn [fst snd Api.active_agents].
      rewrite (dict_get_set_same String.eqb String.eqb_eq).
      cbn [Api.trade_router Api.world Api.output Api.active_agents].
      rewrite (dict_del_set_fresh _ _ _ Hfree). destruct s; reflexivity.
  - intros name Hname. unfold Api.delete_agent, bind, gets.
    cbn [fst snd]. rewrite Hname. reflexivity.
Qed.

Lemma agent_registry_endpoints_witness :
  Api.delete_agent "claude"
    (snd (Api.create_agent (AnthropicAgent.config Doubles.agent)
            (Api.startup Doubles.world0)))
  = (Ok (Api.Return (Api.AgentDeleted "Agent claude deleted")),
     Api.startup Doubles.world0).
Proof.
  pose proof (proj1 (agent_registry_endpoints (Api.startup Doubles.world0)
                       (AnthropicAgent.config Doubles.agent))) as H.
  destruct H as (agents & Hrun & _ & _ & Hdel).
  cbv zeta in Hrun, Hdel. rewrite Hrun. cbn [snd].
  apply Hdel. reflexivity.
Defined.
End ApiFacts.

(* ================================================================== *)
(** * Runs of the model *)
(* ================================================================== *)

Module Runs.
Import Py Py.Notations Models Platforms Routers Agents Doubles.

(** The decoder reads the trade object of the format instructions. *)
Example decode_trade_text :
  JsonDecoder.loads trade_text = Ok (PDict trade_object).
Proof. vm_compute. reflexivity. Qed.

Example decode_rejects_two_objects :
  is_ok (JsonDecoder.loads ("{}" ++ " and " ++ "{}")) = false.
Proof. vm_compute. reflexivity. Qed.

(** A refused platform leaves a line on the standard output. *)
Example dogecoin_run :
  AnthropicAgent.generate_trade_decision (L := provider dogecoin_text)
    agent [] [] "" []
  = (Ok None,
     ["Error generating trade decision: 'dogecoin' is not a valid Platform"]).
Proof. vm_compute. reflexivity. Qed.

(** Two pairs of braces in the text: the fragment runs from the first
    opening brace to the last closing one and does not decode. *)
Example two_fragments_run :
  AnthropicAgent.generate_trade_decision
    (L := provider ("{}" ++ " then " ++ trade_text)) agent [] [] "" []
  = (Ok None, []).
Proof. vm_compute. reflexivity. Qed.

(** The order that the Polymarket adapter builds for a swap. *)
Example polymarket_swap_order :
  PolymarketAdapter.order_data (request POLYMARKET SWAP f_1 f_0_01)
  = PDict [("market", PStr "SOL/USDC"); ("side", PStr "SELL");
           ("size", PFloat f_1); ("price", PNone); ("type", PStr "MARKET")].
Proof. reflexivity. Qed.

(** With the venue down, an order fails with the text of the exception. *)
Example kalshi_venue_down :
  fst (KalshiAdapter.execute_trade (O := down)
         (request KALSHI BUY f_1 f_0_01) (kalshi, world0))
  = Ok (TradeResult.Build "" KALSHI FAILED None None None None 0
          (Some "Cannot connect to host") []).
Proof. vm_compute. reflexivity. Qed.

(** A Solana adapter with a wallet completes a swap and refuses a buy. *)
Example solana_swap_completed :
  option_map TradeResult.status
    (match fst (SolanaAdapter.execute_trade (O := down)
                  (request SOLANA SWAP f_1 f_0_01)
                  (solana_with_wallet, world0)) with
     | Ok res => Some res
     | Raise _ => None
     end) = Some COMPLETED.
Proof. vm_compute. reflexivity. Qed.

Example solana_buy_refused :
  fst (SolanaAdapter.execute_trade (O := down)
         (request SOLANA BUY f_1 f_0_01) (solana_with_wallet, world0))
  = Ok (TradeResult.Build "" SOLANA FAILED None None None None 0
          (Some "Trade type buy not supported") []).
Proof. vm_compute. reflexivity. Qed.

(** Registration through the router, then dispatch: the Solana adapter is
    built without a key and answers for itself. *)
Example register_then_dispatch :
  fst (bind
         (TradeRouter.register_platform (O := down) (credentials SOLANA None))
         (fun _ => TradeRouter.execute_trade (request SOLANA SWAP f_1 f_0_01))
         (TradeRouter.init, world0))
  = Ok (TradeResult.Build "" SOLANA FAILED None None None None 0
          (Some "Wallet not initialized") []).
Proof. vm_compute. reflexivity. Qed.

End Runs.
